(** * Student expense tracker: the logic of [ExpenseScreen.js]

    A shallow embedding of the screen's store operations, window filters and
    aggregations, with the properties of its specification.

    The screen runs on a JavaScript engine and a SQLite table.  The parts of
    both that the screen's functions call are embedded first (module [JS] and
    module [Sqlite]); the functions of the screen follow in module
    [ExpenseScreen], one definition per source function, under the names of
    the source. *)

From Stdlib Require Import ZArith QArith Qpower Lqa List String Ascii Bool Lia.
From Stdlib Require Import Floats.SpecFloat.
From stdpp Require Import gmap strings list sorting.

Close Scope Q_scope.
Local Open Scope Z_scope.

(** ** The JavaScript values and built-ins the screen uses *)

Module JS.

(** *** Text

    A JavaScript string is a sequence of code units.  It is modelled by
    [string]; a character stands for the code unit of the same number, so the
    model covers text of the Latin-1 range. *)

Definition code (c : ascii) : Z := Z.of_N (N_of_ascii c).

(** WhiteSpace and LineTerminator code units (ECMAScript 12.2 and 12.3) of
    that range: TAB, LF, VT, FF, CR, SP and NBSP. *)
Definition isWhiteSpace (c : ascii) : bool :=
  let n := code c in
  (n =? 9) || (n =? 10) || (n =? 11) || (n =? 12) || (n =? 13)
  || (n =? 32) || (n =? 160).

Fixpoint trimStart (s : string) : string :=
  match s with
  | String c s' => if isWhiteSpace c then trimStart s' else s
  | EmptyString => EmptyString
  end.

Fixpoint trimEnd (s : string) : string :=
  match s with
  | EmptyString => EmptyString
  | String c s' =>
      match trimEnd s' with
      | EmptyString => if isWhiteSpace c then EmptyString else String c EmptyString
      | r => String c r
      end
  end.

(** [String.prototype.trim] *)
Definition trim (s : string) : string := trimEnd (trimStart s).

(** [s.slice(0, n)] for [0 <= n] *)
Fixpoint slice0 (n : nat) (s : string) : string :=
  match n, s with
  | S k, String c s' => String c (slice0 k s')
  | _, _ => EmptyString
  end.

(** *** Numbers

    A Number is an IEEE 754 binary64 value: [spec_float] with 53 bits of
    precision and exponents up to 1024, and a single NaN. *)

Definition number : Type := spec_float.

Definition prec : Z := 53.
Definition emax : Z := 1024.

Definition NaN : number := S754_nan.
Definition Infinity : number := S754_infinity false.
Definition zero : number := S754_zero false.

Definition add (x y : number) : number := SFadd prec emax x y.
Definition mul (x y : number) : number := SFmul prec emax x y.
Definition div (x y : number) : number := SFdiv prec emax x y.
Definition neg (x : number) : number := SFopp x.

(** [x < y], [x <= y], [x > y] and [x === y] on Numbers; each is false when
    an operand is NaN. *)
Definition lt (x y : number) : bool := SFltb x y.
Definition le (x y : number) : bool := SFleb x y.
Definition gt (x y : number) : bool := SFltb y x.
Definition strictEq (x y : number) : bool := SFeqb x y.

Definition isNaN (x : number) : bool :=
  match x with S754_nan => true | _ => false end.

(** The Number nearest to an integer (ties to even). *)
Definition ofZ (z : Z) : number := binary_normalize prec emax z 0 false.

(** The Number nearest to [m * 10 ^ e], for [0 <= m], with the sign [sg].
    A negative power of ten divides; the quotient keeps what was lost as a
    rounding location, so that the result is rounded once. *)
Definition decimalValue (sg : bool) (m e : Z) : number :=
  match m with
  | Zpos p =>
      if 0 <=? e then binary_round prec emax sg (p * Z.to_pos (10 ^ e)) 0
      else
        let '(q, e', l) :=
          SFdiv_core_binary prec emax (Zpos p) 0 (10 ^ (- e)) 0 in
        binary_round_aux prec emax sg q e' l
  | _ => S754_zero sg
  end.

Definition isDigit (c : ascii) : bool := (48 <=? code c) && (code c <=? 57).

(** DecimalDigits, read from the front of [s]: the value of the digits
    appended to [acc], how many were read added to [cnt], and the rest. *)
Fixpoint readDigits (s : string) (acc cnt : Z) : Z * Z * string :=
  match s with
  | String c s' =>
      if isDigit c then readDigits s' (10 * acc + (code c - 48)) (cnt + 1)
      else (acc, cnt, s)
  | EmptyString => (acc, cnt, s)
  end.

(** ExponentPart, when the front of [s] is one: its value and the rest.
    Otherwise nothing is read. *)
Definition readExponent (s : string) : Z * string :=
  match s with
  | String c s' =>
      if (code c =? 101) || (code c =? 69) then
        let '(sg, s'') :=
          match s' with
          | String d t =>
              if code d =? 43 then (false, t)
              else if code d =? 45 then (true, t)
              else (false, s')
          | EmptyString => (false, s')
          end in
        let '(v, cnt, rest) := readDigits s'' 0 0 in
        if cnt =? 0 then (0, s) else (if sg then - v else v, rest)
      else (0, s)
  | EmptyString => (0, s)
  end.

Inductive literal : Type :=
  | LitInfinity
  | LitDecimal (m e : Z).

(** The longest prefix of [s] that is a StrUnsignedDecimalLiteral
    (ECMAScript 7.1.4.1), and the rest; [None] when no prefix is one. *)
Definition readStrUnsignedDecimalLiteral (s : string) : option (literal * string) :=
  if String.prefix "Infinity" s then Some (LitInfinity, String.substring 8 (String.length s - 8) s)
  else
    let '(ip, icnt, r1) := readDigits s 0 0 in
    match r1 with
    | String c r2 =>
        if code c =? 46 then
          let '(m, fcnt, r3) := readDigits r2 ip 0 in
          if (icnt =? 0) && (fcnt =? 0) then None
          else let '(ex, r4) := readExponent r3 in Some (LitDecimal m (ex - fcnt), r4)
        else if icnt =? 0 then None
        else let '(ex, r4) := readExponent r1 in Some (LitDecimal ip ex, r4)
    | EmptyString =>
        if icnt =? 0 then None else Some (LitDecimal ip 0, r1)
    end.

Definition literalValue (sg : bool) (l : literal) : number :=
  match l with
  | LitInfinity => S754_infinity sg
  | LitDecimal m e => decimalValue sg m e
  end.

(** StrDecimalLiteral: an optional sign, then an unsigned literal. *)
Definition readStrDecimalLiteral (s : string) : option (number * string) :=
  let '(sg, s') :=
    match s with
    | String c t =>
        if code c =? 43 then (false, t)
        else if code c =? 45 then (true, t)
        else (false, s)
    | EmptyString => (false, s)
    end in
  match readStrUnsignedDecimalLiteral s' with
  | Some (l, rest) => Some (literalValue sg l, rest)
  | None => None
  end.

(** [parseFloat(s)] (ECMAScript 19.2.4): leading white space is skipped, the
    longest prefix that is a decimal literal is converted, and NaN is the
    result when there is none. *)
Definition parseFloat (s : string) : number :=
  match readStrDecimalLiteral (trimStart s) with
  | Some (v, _) => v
  | None => NaN
  end.

(** [StringToNumber] (ECMAScript 7.1.4.1.1), the conversion that [Number(s)]
    applies to a string: white space is trimmed on both sides, the empty text
    is +0, and the whole of what is left must be a decimal literal or a
    binary, octal or hexadecimal integer literal; otherwise the result is
    NaN. *)
Definition digitIn (base : Z) (c : ascii) : option Z :=
  let n := code c in
  let v :=
    if (48 <=? n) && (n <=? 57) then n - 48
    else if (97 <=? n) && (n <=? 102) then n - 87
    else if (65 <=? n) && (n <=? 70) then n - 55
    else base in
  if v <? base then Some v else None.

Fixpoint readInBase (base : Z) (s : string) (acc : Z) : option Z :=
  match s with
  | EmptyString => Some acc
  | String c s' =>
      match digitIn base c with
      | Some v => readInBase base s' (base * acc + v)
      | None => None
      end
  end.

Definition readNonDecimalIntegerLiteral (s : string) : option Z :=
  match s with
  | String z (String b (String c r)) =>
      if code z =? 48 then
        let n := code b in
        if (n =? 120) || (n =? 88) then readInBase 16 (String c r) 0
        else if (n =? 111) || (n =? 79) then readInBase 8 (String c r) 0
        else if (n =? 98) || (n =? 66) then readInBase 2 (String c r) 0
        else None
      else None
  | _ => None
  end.

Definition StringToNumber (s : string) : number :=
  match trim s with
  | EmptyString => zero
  | t =>
      match readNonDecimalIntegerLiteral t with
      | Some z => ofZ z
      | None =>
          match readStrDecimalLiteral t with
          | Some (v, EmptyString) => v
          | _ => NaN
          end
      end
  end.

(** *** Values

    The values a field of a record object holds here: [undefined] (also
    what reading a missing field gives), [null], a Number or a String. *)
Inductive value : Type :=
  | JUndefined
  | JNull
  | JNum (n : number)
  | JStr (s : string).

(** The Numbers that are falsy: +0, -0 and NaN. *)
Definition truthy (n : number) : bool :=
  match n with
  | S754_zero _ | S754_nan => false
  | _ => true
  end.

Definition ToBoolean (v : value) : bool :=
  match v with
  | JUndefined | JNull => false
  | JNum n => truthy n
  | JStr s => negb (String.eqb s EmptyString)
  end.

(** [Number(v)] *)
Definition ToNumber (v : value) : number :=
  match v with
  | JUndefined => NaN
  | JNull => zero
  | JNum n => n
  | JStr s => StringToNumber s
  end.

(** [Math.max(...l)] (ECMAScript 21.3.2.24): NaN when an argument is NaN,
    else the highest argument, with +0 above -0; -Infinity for no argument. *)
Definition higher (highest n : number) : number :=
  match n, highest with
  | S754_zero false, S754_zero true => n
  | _, _ => if gt n highest then n else highest
  end.

Definition Math_max (l : list number) : number :=
  if existsb isNaN l then NaN
  else fold_left higher l (S754_infinity true).

(** *** Time values and dates (ECMAScript 21.4.1)

    A time value is a number of milliseconds since 1970-01-01T00:00Z; an
    invalid [Date] has none, which [option] renders.  The range limit of
    time values (8.64e15 ms on either side) is not modelled. *)

Definition msPerDay : Z := 86400000.
Definition msPerHour : Z := 3600000.
Definition msPerMinute : Z := 60000.
Definition msPerSecond : Z := 1000.

Definition Day (t : Z) : Z := t / msPerDay.
Definition TimeWithinDay (t : Z) : Z := t mod msPerDay.

Definition DaysInYear (y : Z) : Z :=
  if negb (y mod 4 =? 0) then 365
  else if negb (y mod 100 =? 0) then 366
  else if negb (y mod 400 =? 0) then 365
  else 366.

Definition DayFromYear (y : Z) : Z :=
  365 * (y - 1970) + (y - 1969) / 4 - (y - 1901) / 100 + (y - 1601) / 400.

Definition TimeFromYear (y : Z) : Z := msPerDay * DayFromYear y.

(** The largest year that starts at or before [t]: a year of the Gregorian
    cycle is 146097/400 days long on average, which places the year within
    one of the estimate. *)
Definition YearFromTime (t : Z) : Z :=
  let y := 1970 + (Day t * 400) / 146097 in
  if DayFromYear (y + 1) <=? Day t then y + 1
  else if DayFromYear y <=? Day t then y
  else y - 1.

Definition InLeapYear (t : Z) : Z :=
  if DaysInYear (YearFromTime t) =? 366 then 1 else 0.

Definition DayWithinYear (t : Z) : Z := Day t - DayFromYear (YearFromTime t).

Definition MonthFromTime (t : Z) : Z :=
  let d := DayWithinYear t in
  let l := InLeapYear t in
  if d <? 31 then 0
  else if d <? 59 + l then 1
  else if d <? 90 + l then 2
  else if d <? 120 + l then 3
  else if d <? 151 + l then 4
  else if d <? 181 + l then 5
  else if d <? 212 + l then 6
  else if d <? 243 + l then 7
  else if d <? 273 + l then 8
  else if d <? 304 + l then 9
  else if d <? 334 + l then 10
  else 11.

(** The number of days of the year before month [m] (0 to 11), in a year
    with [l] leap days. *)
Definition daysBeforeMonth (m l : Z) : Z :=
  if m =? 0 then 0
  else if m =? 1 then 31
  else if m =? 2 then 59 + l
  else if m =? 3 then 90 + l
  else if m =? 4 then 120 + l
  else if m =? 5 then 151 + l
  else if m =? 6 then 181 + l
  else if m =? 7 then 212 + l
  else if m =? 8 then 243 + l
  else if m =? 9 then 273 + l
  else if m =? 10 then 304 + l
  else 334 + l.

Definition DateFromTime (t : Z) : Z :=
  DayWithinYear t - daysBeforeMonth (MonthFromTime t) (InLeapYear t) + 1.

(** 0 is Sunday; 1970-01-01 was a Thursday. *)
Definition WeekDay (t : Z) : Z := (Day t + 4) mod 7.

Definition HourFromTime (t : Z) : Z := (t / msPerHour) mod 24.
Definition MinFromTime (t : Z) : Z := (t / msPerMinute) mod 60.
Definition SecFromTime (t : Z) : Z := (t / msPerSecond) mod 60.
Definition msFromTime (t : Z) : Z := t mod msPerSecond.

Definition MakeTime (hour min sec ms : Z) : Z :=
  hour * msPerHour + min * msPerMinute + sec * msPerSecond + ms.

(** The day number of the [date]-th day of month [month] of [year]; months
    outside 0 to 11 carry into the year, and [date] may lie outside the
    month. *)
Definition MakeDay (year month date : Z) : Z :=
  let ym := year + month / 12 in
  let mn := month mod 12 in
  DayFromYear ym + daysBeforeMonth mn (if DaysInYear ym =? 366 then 1 else 0)
  + date - 1.

Definition MakeDate (day time : Z) : Z := day * msPerDay + time.

(** What the engine takes from its host: the clock reading that [new Date()]
    returns (one reading serves a whole pass of a filter); the offset of
    local time from UTC in milliseconds, [LocalTZA(t, isUTC)] of ECMAScript
    21.4.1.25, which depends on the time value: [t] is a UTC time value when
    [isUTC] is true and a local time value otherwise (a local time that a
    change of offset skips or repeats gets the offset that the host
    chooses); and the parser that [Date.parse] falls back on for text
    outside the date-only form below, which ECMAScript leaves to the
    implementation. *)
Record Host : Type := {
  now : Z;
  LocalTZA : Z -> bool -> Z;
  legacyParse : string -> option Z
}.

Definition LocalTime (h : Host) (t : Z) : Z := t + LocalTZA h t true.
Definition UTC (h : Host) (t : Z) : Z := t - LocalTZA h t false.

Definition getFullYear (h : Host) (t : Z) : Z := YearFromTime (LocalTime h t).
Definition getMonth (h : Host) (t : Z) : Z := MonthFromTime (LocalTime h t).
Definition getDate (h : Host) (t : Z) : Z := DateFromTime (LocalTime h t).
Definition getDay (h : Host) (t : Z) : Z := WeekDay (LocalTime h t).

(** [d.setHours(hour, min, sec, ms)] and [d.setDate(dt)]: the new time value
    of [d], from its time value [t]. *)
Definition setHours (h : Host) (t : Z) (hour min sec ms : Z) : Z :=
  let lt := LocalTime h t in
  UTC h (MakeDate (Day lt) (MakeTime hour min sec ms)).

Definition setDate (h : Host) (t : Z) (dt : Z) : Z :=
  let lt := LocalTime h t in
  UTC h (MakeDate (MakeDay (YearFromTime lt) (MonthFromTime lt) dt)
                  (TimeWithinDay lt)).

(** The date-only form [YYYY-MM-DD] of the date-time string format
    (ECMAScript 21.4.1.32) with a month and a day that exist: midnight UTC of
    that day. *)
Definition twoDigits (a b : ascii) : option Z :=
  if isDigit a && isDigit b then Some (10 * (code a - 48) + (code b - 48))
  else None.

Definition daysInMonth (y m : Z) : Z :=
  let l := if DaysInYear y =? 366 then 1 else 0 in
  if m =? 11 then 31 else daysBeforeMonth (m + 1) l - daysBeforeMonth m l.

Definition parseDateOnly (s : string) : option Z :=
  match s with
  | String y1 (String y2 (String y3 (String y4 (String d1
      (String m1 (String m2 (String d2
         (String a1 (String a2 EmptyString))))))))) =>
      if (code d1 =? 45) && (code d2 =? 45) then
        match twoDigits y1 y2, twoDigits y3 y4, twoDigits m1 m2, twoDigits a1 a2 with
        | Some yh, Some yl, Some m, Some d =>
            let y := 100 * yh + yl in
            if (1 <=? m) && (m <=? 12) && (1 <=? d) && (d <=? daysInMonth y (m - 1))
            then Some (MakeDate (MakeDay y (m - 1) d) 0)
            else None
        | _, _, _, _ => None
        end
      else None
  | _ => None
  end.

(** [new Date(s)] for a string [s] *)
Definition Date_parse (h : Host) (s : string) : option Z :=
  match parseDateOnly s with
  | Some t => Some t
  | None => legacyParse h s
  end.

(** [n] decimal digits of [v], the most significant first. *)
Fixpoint padDigits (n : nat) (v : Z) : string :=
  match n with
  | O => EmptyString
  | S k => String.append (padDigits k (v / 10))
             (String (ascii_of_N (Z.to_N (48 + v mod 10))) EmptyString)
  end.

(** [d.toISOString()] (ECMAScript 21.4.4.36): a year outside 0 to 9999 is
    written with a sign and six digits. *)
Definition toISOString (t : Z) : string :=
  let y := YearFromTime t in
  let year :=
    if (0 <=? y) && (y <=? 9999) then padDigits 4 y
    else String.append (if y <? 0 then "-" else "+") (padDigits 6 (Z.abs y)) in
  String.concat ""
    [year; "-"; padDigits 2 (MonthFromTime t + 1); "-"; padDigits 2 (DateFromTime t);
     "T"; padDigits 2 (HourFromTime t); ":"; padDigits 2 (MinFromTime t); ":";
     padDigits 2 (SecFromTime t); "."; padDigits 3 (msFromTime t); "Z"]%string.

(** *** Objects used as maps

    [const map = {}] is an ordinary object whose prototype is
    [Object.prototype].  Its own properties are kept in the order of their
    creation.  What a property of the totals object holds is a Number, or a
    String that the engine made by appending a Number to a member inherited
    from [Object.prototype]; the characters of such a String depend on the
    engine and are not modelled, only that it is not empty and not numeric. *)

Inductive slot : Type :=
  | SNum (n : number)
  | SText.

Definition object : Type := list (string * slot).

(** The property names of [Object.prototype] (ECMAScript 20.1.3 and B.2.2). *)
Definition ObjectPrototype : list string :=
  ["constructor"; "hasOwnProperty"; "isPrototypeOf"; "propertyIsEnumerable";
   "toLocaleString"; "toString"; "valueOf"; "__proto__";
   "__defineGetter__"; "__defineSetter__"; "__lookupGetter__";
   "__lookupSetter__"]%string.

Definition inherited (k : string) : bool := existsb (String.eqb k) ObjectPrototype.

Fixpoint own (o : object) (k : string) : option slot :=
  match o with
  | [] => None
  | (k', v) :: o' => if String.eqb k k' then Some v else own o' k
  end.

(** The result of reading [o[k]]. *)
Inductive read : Type :=
  | RUndefined
  | ROwn (v : slot)
  | RBuiltin.

Definition Get (o : object) (k : string) : read :=
  match own o k with
  | Some v => ROwn v
  | None => if inherited k then RBuiltin else RUndefined
  end.

Fixpoint define (o : object) (k : string) (v : slot) : object :=
  match o with
  | [] => [(k, v)]
  | (k', v') :: o' =>
      if String.eqb k k' then (k', v) :: o' else (k', v') :: define o' k v
  end.

(** [o[k] = v] for a [v] that is not an object: the setter of [__proto__]
    ignores it, any other name becomes or stays an own property. *)
Definition Set_ (o : object) (k : string) (v : slot) : object :=
  if String.eqb k "__proto__" then o else define o k v.

(** An array index is the canonical text of an integer from 0 to 2^32 - 2
    (ECMAScript 6.1.7). *)
Definition arrayIndex (k : string) : option Z :=
  let '(v, cnt, rest) := readDigits k 0 0 in
  match rest, k with
  | EmptyString, String c k' =>
      if ((negb (code c =? 48)) || String.eqb k' EmptyString)
         && (v <=? 4294967294)
      then Some v else None
  | _, _ => None
  end.

Definition indexed (p : string * slot) : option (Z * (string * slot)) :=
  match arrayIndex (fst p) with
  | Some i => Some (i, p)
  | None => None
  end.

Definition indexLe (a b : Z * (string * slot)) : Prop := fst a <= fst b.

#[export] Instance indexLe_dec a b : Decision (indexLe a b).
Proof. unfold indexLe. apply _. Defined.

(** [Object.entries(o)]: the own properties whose names are array indices,
    in ascending order of index, then the others in order of creation
    (ECMAScript 10.1.11). *)
Definition Object_entries (o : object) : list (string * slot) :=
  map snd (merge_sort indexLe (omap indexed o))
  ++ List.filter (fun p => match arrayIndex (fst p) with None => true | Some _ => false end) o.

Definition slotNumber (v : slot) : number :=
  match v with
  | SNum n => n
  | SText => NaN
  end.

End JS.

(** ** The table

    [expenses (id INTEGER PRIMARY KEY AUTOINCREMENT, amount REAL NOT NULL,
    category TEXT NOT NULL, note TEXT, date TEXT NOT NULL)]: a finite map from
    row id to the other four columns, and the largest id ever given out,
    which AUTOINCREMENT keeps in [sqlite_sequence]. *)

Module Sqlite.

Record row : Type := {
  amount : JS.number;
  category : string;
  note : option string;
  date : string
}.

Record database : Type := {
  expenses : gmap Z row;
  sequence : Z
}.

Definition empty : database := {| expenses := ∅; sequence := 0 |}.

Definition maxRowid : Z := 2 ^ 63 - 1.

Definition largestRowid (t : gmap Z row) : Z :=
  map_fold (fun k _ m => Z.max k m) 0 t.

(** [INSERT INTO expenses (amount, category, note, date) VALUES (?, ?, ?, ?)].
    A NaN is bound as NULL, which [amount] refuses; when the ids are used up
    the insertion fails too.  [None] is a rejected statement. *)
Definition insert (db : database) (r : row) : option database :=
  let id := Z.max (sequence db) (largestRowid (expenses db)) + 1 in
  if JS.isNaN (amount r) then None
  else if maxRowid <? id then None
  else Some {| expenses := <[id := r]> (expenses db); sequence := id |}.

(** [UPDATE expenses SET amount = ?, category = ?, note = ?, date = ? WHERE id = ?] *)
Definition update (db : database) (id : Z) (r : row) : option database :=
  match expenses db !! id with
  | None => Some db
  | Some _ =>
      if JS.isNaN (amount r) then None
      else Some {| expenses := <[id := r]> (expenses db); sequence := sequence db |}
  end.

(** [DELETE FROM expenses WHERE id = ?] *)
Definition delete (db : database) (id : Z) : database :=
  {| expenses := base.delete id (expenses db); sequence := sequence db |}.

(** [ORDER BY date DESC, id DESC]: text compares code unit by code unit (the
    BINARY collation), ids as integers. *)
Definition orderedBefore (a b : Z * row) : Prop :=
  String.ltb (date (snd b)) (date (snd a)) = true
  \/ (date (snd a) = date (snd b) /\ fst b <= fst a).

#[export] Instance orderedBefore_dec a b : Decision (orderedBefore a b).
Proof. unfold orderedBefore. apply _. Defined.

(** [SELECT id, amount, category, note, date FROM expenses ORDER BY date DESC, id DESC] *)
Definition selectAll (db : database) : list (Z * row) :=
  merge_sort orderedBefore (map_to_list (expenses db)).

End Sqlite.

(** ** The screen *)

Module ExpenseScreen.

Import JS.

(** A row object, as [getAllAsync] returns it and as the filters and the
    aggregations read it.  A field that a record lacks reads as
    [undefined]: [JUndefined] for the amount, [None] for a category or a
    note (where [null] is [None] as well). *)
Module Expense.
Record t : Type := {
  id : Z;
  amount : value;
  category : option string;
  note : option string;
  date : string
}.
End Expense.

Definition rowObject (p : Z * Sqlite.row) : Expense.t :=
  {| Expense.id := fst p;
     Expense.amount := JNum (Sqlite.amount (snd p));
     Expense.category := Some (Sqlite.category (snd p));
     Expense.note := Sqlite.note (snd p);
     Expense.date := Sqlite.date (snd p) |}.

(** The state of the component: the database behind [db], the [useState]
    variables, and the messages shown by [alert] so far. *)
Record state : Type := {
  db : Sqlite.database;
  expenses : list Expense.t;
  amount : string;
  category : string;
  note : string;
  filter : string;
  editingExpense : option Expense.t;
  editAmount : string;
  editCategory : string;
  editNote : string;
  editDate : string;
  alerts : list string
}.

Definition initialState : state :=
  {| db := Sqlite.empty; expenses := []; amount := ""; category := "";
     note := ""; filter := "ALL"; editingExpense := None; editAmount := "";
     editCategory := ""; editNote := ""; editDate := ""; alerts := [] |}.

Definition alert (st : state) (msg : string) : state :=
  {| db := db st; expenses := expenses st; amount := amount st;
     category := category st; note := note st; filter := filter st;
     editingExpense := editingExpense st; editAmount := editAmount st;
     editCategory := editCategory st; editNote := editNote st;
     editDate := editDate st; alerts := alerts st ++ [msg] |}.

Definition loadExpenses (st : state) : state :=
  let rows := map rowObject (Sqlite.selectAll (db st)) in
  {| db := db st; expenses := rows; amount := amount st;
     category := category st; note := note st; filter := filter st;
     editingExpense := editingExpense st; editAmount := editAmount st;
     editCategory := editCategory st; editNote := editNote st;
     editDate := editDate st; alerts := alerts st |}.

(** [s || null] for a string [s] *)
Definition orNull (s : string) : option string :=
  if String.eqb s "" then None else Some s.

(** A statement that the database rejects leaves the function at its
    [await]: the setters after it do not run. *)
Definition addExpense (h : Host) (st : state) : state :=
  let amountNumber := parseFloat (amount st) in
  if isNaN amountNumber || le amountNumber zero then st
  else
    let trimmedCategory := trim (category st) in
    let trimmedNote := trim (note st) in
    if String.eqb trimmedCategory "" then st
    else
      let today := now h in
      let isoDate := slice0 10 (toISOString today) in
      match Sqlite.insert (db st)
              {| Sqlite.amount := amountNumber;
                 Sqlite.category := trimmedCategory;
                 Sqlite.note := orNull trimmedNote;
                 Sqlite.date := isoDate |} with
      | None => st
      | Some db' =>
          loadExpenses
            {| db := db'; expenses := expenses st; amount := "";
               category := ""; note := ""; filter := filter st;
               editingExpense := editingExpense st; editAmount := editAmount st;
               editCategory := editCategory st; editNote := editNote st;
               editDate := editDate st; alerts := alerts st |}
      end.

Definition deleteExpense (st : state) (id : Z) : state :=
  loadExpenses
    {| db := Sqlite.delete (db st) id; expenses := expenses st;
       amount := amount st; category := category st; note := note st;
       filter := filter st; editingExpense := editingExpense st;
       editAmount := editAmount st; editCategory := editCategory st;
       editNote := editNote st; editDate := editDate st; alerts := alerts st |}.

Definition isInCurrentWeek (h : Host) (dateStr : string) : bool :=
  match Date_parse h dateStr with
  | None => false
  | Some d =>
      let today := now h in
      let startOfWeek := today in
      let startOfWeek := setHours h startOfWeek 0 0 0 0 in
      let startOfWeek := setDate h startOfWeek (getDate h today - getDay h today) in
      let endOfWeek := startOfWeek in
      let endOfWeek := setDate h endOfWeek (getDate h startOfWeek + 7) in
      (startOfWeek <=? d) && (d <? endOfWeek)
  end.

Definition isInCurrentMonth (h : Host) (dateStr : string) : bool :=
  match Date_parse h dateStr with
  | None => false
  | Some d =>
      let today := now h in
      (getFullYear h d =? getFullYear h today)
      && (getMonth h d =? getMonth h today)
  end.

Definition filteredExpenses (h : Host) (expenses : list Expense.t) (filter : string)
  : list Expense.t :=
  if String.eqb filter "ALL" then expenses
  else if String.eqb filter "WEEK" then
    List.filter (fun e => isInCurrentWeek h (Expense.date e)) expenses
  else if String.eqb filter "MONTH" then
    List.filter (fun e => isInCurrentMonth h (Expense.date e)) expenses
  else expenses.

(** [e.amount ? Number(e.amount) : 0] *)
Definition amountOf (e : Expense.t) : number :=
  if ToBoolean (Expense.amount e) then ToNumber (Expense.amount e) else zero.

Definition totalSpending (filteredExpenses : list Expense.t) : number :=
  fold_left (fun sum e => add sum (amountOf e)) filteredExpenses zero.

(** [e.category || 'Uncategorized'] *)
Definition categoryOf (e : Expense.t) : string :=
  match Expense.category e with
  | Some c => if String.eqb c "" then "Uncategorized" else c
  | None => "Uncategorized"
  end.

(** [(map[cat] || 0) + amt]: a Number is added to; a String, or a member
    of the prototype, is appended to and gives a String. *)
Definition accumulate (r : read) (amt : number) : slot :=
  match r with
  | RUndefined => SNum (add zero amt)
  | ROwn (SNum n) => SNum (add (if truthy n then n else zero) amt)
  | ROwn SText => SText
  | RBuiltin => SText
  end.

Definition totalsByCategory (filteredExpenses : list Expense.t) : object :=
  fold_left
    (fun map e =>
       let cat := categoryOf e in
       let amt := amountOf e in
       Set_ map cat (accumulate (Get map cat) amt))
    filteredExpenses [].

Record chart : Type := {
  entries : list (string * slot);
  maxAmount : number
}.

(** [Math.max] converts its arguments to Numbers; [amounts] holds them
    converted. *)
Definition chartData (totalsByCategory : object) : chart :=
  let entries := Object_entries totalsByCategory in
  let amounts := map (fun p => slotNumber (snd p)) entries in
  let maxAmount := if (0 <? Z.of_nat (length amounts)) then Math_max amounts else zero in
  {| entries := entries; maxAmount := maxAmount |}.

(** The height of the bar of an entry with amount [amt]:
    [chartData.maxAmount > 0 ? (amt / chartData.maxAmount) * 120 : 0]. *)
Definition barHeight (chartData : chart) (amt : slot) : number :=
  if gt (maxAmount chartData) zero
  then mul (div (slotNumber amt) (maxAmount chartData)) (ofZ 120)
  else zero.

Definition handleSaveEdit (st : state) : state :=
  match editingExpense st with
  | None => st
  | Some editing =>
      let amountNumber := parseFloat (editAmount st) in
      if isNaN amountNumber || le amountNumber zero
      then alert st "Please enter a valid positive amount."
      else
        let trimmedCategory := trim (editCategory st) in
        if String.eqb trimmedCategory "" then alert st "Category is required"
        else
          let trimmedDate := trim (editDate st) in
          if String.eqb trimmedDate "" then alert st "Date is required (YYYY-MM-DD)."
          else
            match Sqlite.update (db st) (Expense.id editing)
                    {| Sqlite.amount := amountNumber;
                       Sqlite.category := trimmedCategory;
                       Sqlite.note := orNull (trim (editNote st));
                       Sqlite.date := trimmedDate |} with
            | None => st
            | Some db' =>
                loadExpenses
                  {| db := db'; expenses := expenses st; amount := amount st;
                     category := category st; note := note st; filter := filter st;
                     editingExpense := None; editAmount := editAmount st;
                     editCategory := editCategory st; editNote := editNote st;
                     editDate := editDate st; alerts := alerts st |}
            end
  end.

(** The setters of the [useState] variables that the text fields, the
    filter buttons and the editor call. *)
Definition setAmount (st : state) (text : string) : state :=
  {| db := db st; expenses := expenses st; amount := text;
     category := category st; note := note st; filter := filter st;
     editingExpense := editingExpense st; editAmount := editAmount st;
     editCategory := editCategory st; editNote := editNote st;
     editDate := editDate st; alerts := alerts st |}.

Definition setCategory (st : state) (text : string) : state :=
  {| db := db st; expenses := expenses st; amount := amount st;
     category := text; note := note st; filter := filter st;
     editingExpense := editingExpense st; editAmount := editAmount st;
     editCategory := editCategory st; editNote := editNote st;
     editDate := editDate st; alerts := alerts st |}.

Definition setNote (st : state) (text : string) : state :=
  {| db := db st; expenses := expenses st; amount := amount st;
     category := category st; note := text; filter := filter st;
     editingExpense := editingExpense st; editAmount := editAmount st;
     editCategory := editCategory st; editNote := editNote st;
     editDate := editDate st; alerts := alerts st |}.

Definition setFilter (st : state) (value : string) : state :=
  {| db := db st; expenses := expenses st; amount := amount st;
     category := category st; note := note st; filter := value;
     editingExpense := editingExpense st; editAmount := editAmount st;
     editCategory := editCategory st; editNote := editNote st;
     editDate := editDate st; alerts := alerts st |}.

Definition setEditingExpense (st : state) (value : option Expense.t) : state :=
  {| db := db st; expenses := expenses st; amount := amount st;
     category := category st; note := note st; filter := filter st;
     editingExpense := value; editAmount := editAmount st;
     editCategory := editCategory st; editNote := editNote st;
     editDate := editDate st; alerts := alerts st |}.

Definition setEditAmount (st : state) (text : string) : state :=
  {| db := db st; expenses := expenses st; amount := amount st;
     category := category st; note := note st; filter := filter st;
     editingExpense := editingExpense st; editAmount := text;
     editCategory := editCategory st; editNote := editNote st;
     editDate := editDate st; alerts := alerts st |}.

Definition setEditCategory (st : state) (text : string) : state :=
  {| db := db st; expenses := expenses st; amount := amount st;
     category := category st; note := note st; filter := filter st;
     editingExpense := editingExpense st; editAmount := editAmount st;
     editCategory := text; editNote := editNote st;
     editDate := editDate st; alerts := alerts st |}.

Definition setEditNote (st : state) (text : string) : state :=
  {| db := db st; expenses := expenses st; amount := amount st;
     category := category st; note := note st; filter := filter st;
     editingExpense := editingExpense st; editAmount := editAmount st;
     editCategory := editCategory st; editNote := text;
     editDate := editDate st; alerts := alerts st |}.

Definition setEditDate (st : state) (text : string) : state :=
  {| db := db st; expenses := expenses st; amount := amount st;
     category := category st; note := note st; filter := filter st;
     editingExpense := editingExpense st; editAmount := editAmount st;
     editCategory := editCategory st; editNote := editNote st;
     editDate := text; alerts := alerts st |}.

(** [startEdit(expense)].  [renderExpense] calls it on a record of the list,
    which is a row of the table: its amount is a Number and its category a
    text.  [String(expense.amount)] is the engine's conversion of a Number to
    text (ECMAScript 6.1.6.1.20), taken here as [NumberToString]. *)
Definition startEdit (NumberToString : number -> string) (st : state)
    (expense : Z * Sqlite.row) : state :=
  let st := setEditingExpense st (Some (rowObject expense)) in
  let st := setEditAmount st (NumberToString (Sqlite.amount (snd expense))) in
  let st := setEditCategory st (Sqlite.category (snd expense)) in
  let st := setEditNote st (match Sqlite.note (snd expense) with
                            | Some n => n
                            | None => ""
                            end) in
  if negb (String.eqb (Sqlite.date (snd expense)) "")
     && (10 <=? Z.of_nat (String.length (Sqlite.date (snd expense))))
  then setEditDate st (slice0 10 (Sqlite.date (snd expense)))
  else setEditDate st "".

(** The effect that runs when the screen is mounted over the database [d]
    of the device: [CREATE TABLE IF NOT EXISTS] leaves a table that exists as
    it is and gives a new database the empty table, then [loadExpenses]. *)
Definition setup (d : Sqlite.database) : state :=
  loadExpenses
    {| db := d; expenses := []; amount := ""; category := ""; note := "";
       filter := "ALL"; editingExpense := None; editAmount := "";
       editCategory := ""; editNote := ""; editDate := ""; alerts := [] |}.

End ExpenseScreen.

(** * The vocabulary of the properties

    Hosts, states and records to state the properties at, and the notions
    of the specification that the properties relate the screen to. *)

Import JS ExpenseScreen.

Local Open Scope string_scope.
Local Open Scope list_scope.
Local Open Scope Z_scope.

(** ** Hosts, forms and records *)

(** A device on UTC the year round, at noon of the given day, whose engine
    reads no date outside the date-only form. *)
Definition clockAt (y m d : Z) : Host :=
  {| now := MakeDate (MakeDay y (m - 1) d) (MakeTime 12 0 0 0);
     LocalTZA := fun _ _ => 0;
     legacyParse := fun _ => None |}.

(** Noon of 2024-06-15 on a device five hours behind UTC the year round. *)
Definition westOfUTC : Host :=
  {| now := MakeDate (MakeDay 2024 5 15) (MakeTime 17 0 0 0);
     LocalTZA := fun _ _ => - 5 * msPerHour;
     legacyParse := fun _ => None |}.

(** The state once the three fields of the add form have been typed in. *)
Definition typed (st : state) (amount category note : string) : state :=
  {| db := db st; expenses := expenses st; amount := amount;
     category := category; note := note; filter := filter st;
     editingExpense := editingExpense st; editAmount := editAmount st;
     editCategory := editCategory st; editNote := editNote st;
     editDate := editDate st; alerts := alerts st |}.

(** The state once the editor is open on the record of id 1 and its fields
    have been typed in, the date as 2024-01-01. *)
Definition editing (st : state) (amount category note : string) : state :=
  {| db := db st; expenses := expenses st; amount := ExpenseScreen.amount st;
     category := ExpenseScreen.category st; note := ExpenseScreen.note st;
     filter := filter st;
     editingExpense :=
       Some {| Expense.id := 1; Expense.amount := JNum (ofZ 1);
               Expense.category := Some "Food"; Expense.note := None;
               Expense.date := "2024-01-01" |};
     editAmount := amount; editCategory := category; editNote := note;
     editDate := "2024-01-01"; alerts := alerts st |}.

(** The table of the specification's example: an expense added on
    2024-01-01, then one added on 2024-01-02. *)
Definition twoDays : state :=
  addExpense (clockAt 2024 1 2)
    (typed (addExpense (clockAt 2024 1 1) (typed initialState "12.50" "Food" ""))
       "3" "Books" "pens").

(** The [n]-th record on the screen. *)
Definition rowAt (st : state) (n : nat) : Expense.t :=
  nth n (expenses st)
    {| Expense.id := 0; Expense.amount := JUndefined; Expense.category := None;
       Expense.note := None; Expense.date := "" |}.

(** A record with the given id and date. *)
Definition dated (id : Z) (date : string) : Expense.t :=
  {| Expense.id := id; Expense.amount := JNum (ofZ 5); Expense.category := Some "Food";
     Expense.note := None; Expense.date := date |}.

(** A record whose date no engine of [clockAt] reads. *)
Definition undated : Expense.t := dated 7 "yesterday".

(** A record with the given category and amount. *)
Definition spent (category : option string) (amount : value) : Expense.t :=
  {| Expense.id := 0; Expense.amount := amount; Expense.category := category;
     Expense.note := None; Expense.date := "2024-01-01" |}.

(** ** Forms *)

Fixpoint allWhiteSpace (s : string) : bool :=
  match s with
  | EmptyString => true
  | String c s' => isWhiteSpace c && allWhiteSpace s'
  end.

Definition startsWithWhiteSpace (s : string) : bool :=
  match s with
  | String c _ => isWhiteSpace c
  | EmptyString => false
  end.

Fixpoint endsWithWhiteSpace (s : string) : bool :=
  match s with
  | EmptyString => false
  | String c EmptyString => isWhiteSpace c
  | String _ s' => endsWithWhiteSpace s'
  end.

(** The note that the store receives for a typed note: none when the typed
    note is white space throughout (or empty), what is left of it once
    trimmed otherwise. *)
Definition storedNote (typedNote : string) : option string :=
  if allWhiteSpace typedNote then None else Some (trim typedNote).

(** A typed amount that passes the validation of both forms. *)
Definition validAmount (s : string) : Prop :=
  isNaN (parseFloat s) = false /\ le (parseFloat s) zero = false.

(** ** The week *)

(** The start of the week of the specification: local midnight of today,
    less as many days as today's day of the week. *)
Definition startOfWeek (h : Host) : Z :=
  let today := LocalTime h (now h) in
  UTC h (msPerDay * (Day today - WeekDay today)).

(** A device whose offset is [off] at every time value within eight days of
    now, read as UTC or as local time: no change of offset falls in or next
    to the current week. *)
Definition steady (h : Host) (off : Z) : Prop :=
  forall (t : Z) (isUTC : bool),
    now h - 8 * msPerDay <= t <= now h + 8 * msPerDay -> LocalTZA h t isUTC = off.

(** ** Amounts *)

(** An amount that is missing: the record has none, or has [null]. *)
Definition missing (v : value) : Prop := v = JUndefined \/ v = JNull.

(** An amount that is not numeric: converting it gives no number. *)
Definition nonNumeric (v : value) : Prop := isNaN (ToNumber v) = true.

(** A Number that is +0, positive or +Infinity. *)
Definition nonneg (x : number) : bool :=
  match x with
  | S754_zero false | S754_infinity false | S754_finite false _ _ => true
  | _ => false
  end.

(** A Number, not NaN, whose sign bit is [s]. *)
Definition signed (s : bool) (x : number) : Prop :=
  match x with
  | S754_zero s' | S754_infinity s' | S754_finite s' _ _ => s' = s
  | S754_nan => False
  end.

(** ** Categories *)

(** One turn of the loop of [totalsByCategory]. *)
Definition step (map : object) (e : Expense.t) : object :=
  Set_ map (categoryOf e) (accumulate (Get map (categoryOf e)) (amountOf e)).

(** The labels in the order of their first appearance. *)
Fixpoint firstSeen (l : list string) : list string :=
  match l with
  | [] => []
  | x :: l' => x :: List.filter (fun y => negb (String.eqb y x)) (firstSeen l')
  end.

Definition isIndex (k : string) : bool :=
  match arrayIndex k with Some _ => true | None => false end.

(** Ascending order of array index. *)
Definition indexOrder (a b : string) : Prop :=
  exists i j, arrayIndex a = Some i /\ arrayIndex b = Some j /\ i <= j.

(** The records that bear the label [c]. *)
Definition bearing (c : string) (rs : list Expense.t) : list Expense.t :=
  List.filter (fun e => String.eqb (categoryOf e) c) rs.

Definition mem (k : string) (l : list string) : bool := existsb (String.eqb k) l.

(** What one more record of a category makes of the category's entry. *)
Definition accOpt (acc : option slot) (e : Expense.t) : option slot :=
  Some (accumulate (match acc with Some v => ROwn v | None => RUndefined end)
          (amountOf e)).

(** A mapping whose totals are Numbers that are not negative. *)
Definition plainTotals (t : object) : Prop :=
  Forall (fun p => exists n, snd p = SNum n /\ nonneg n = true) t.

(** The amounts of the entries of a chart, in their order. *)
Definition amountsOf (c : chart) : list number :=
  map (fun p => slotNumber (snd p)) (entries c).

(** ** Sums without rounding *)

(** The real number that a finite Number stands for. *)
Definition toQ (x : number) : Q :=
  match x with
  | S754_finite s m e => (inject_Z (if s then Zneg m else Zpos m) * Qpower 2 e)%Q
  | _ => 0%Q
  end.

Definition finite (x : number) : bool :=
  match x with
  | S754_zero _ | S754_finite _ _ _ => true
  | _ => false
  end.

(** An addition that does not round: the sum is finite and stands for the
    sum of what the operands stand for. *)
Definition exactAdd (x y : number) : Prop :=
  finite (add x y) = true /\ (toQ (add x y) == toQ x + toQ y)%Q.

(** No addition rounds when the Numbers of [l] are added to [start] from
    left to right. *)
Fixpoint exactSum (l : list number) (start : number) : Prop :=
  match l with
  | [] => True
  | a :: l' => exactAdd start a /\ exactSum l' (add start a)
  end.

(** No addition rounds, and no label meets a member of [Object.prototype],
    when the loop of [totalsByCategory] runs over [rs] from [map]. *)
Fixpoint exactTotals (rs : list Expense.t) (map : object) : Prop :=
  match rs with
  | [] => True
  | e :: rs' =>
      match Get map (categoryOf e) with
      | RUndefined => exactAdd zero (amountOf e)
      | ROwn (SNum n) => exactAdd (if truthy n then n else zero) (amountOf e)
      | _ => False
      end
      /\ exactTotals rs' (step map e)
  end.

(** The sum of the values of a totals object, added in the order of its
    entries. *)
Definition sumOfValues (t : object) : number :=
  fold_left (fun sum p => add sum (slotNumber (snd p))) (Object_entries t) zero.

(** The sum of the real numbers that the Numbers of a list stand for. *)
Definition sumQ (l : list number) : Q := fold_right (fun a q => (toQ a + q)%Q) 0%Q l.

Definition valuesQ (o : object) : Q := sumQ (map (fun p => slotNumber (snd p)) o).

(** ** Sums with rounding *)

(** The unit roundoff of binary64: half the distance from 1 to the next
    Number, 2^-53.  One addition rounded to nearest changes its exact
    result by no more than this fraction of it. *)
Definition roundoff : Q := 1 # (2 ^ 53).

(** A Number whose exponent is not below that of the least subnormal,
    2^-1074, as is the exponent of every binary64 value. *)
Definition lowest (x : number) : Prop :=
  match x with
  | S754_finite _ _ e => -1074 <= e
  | _ => True
  end.

Fixpoint power (q : Q) (n : nat) : Q :=
  match n with
  | O => 1%Q
  | S n' => (q * power q n')%Q
  end.

(** [x] is a Number not below zero that, when finite, stands for [s] up to
    [k] roundings: it lies between [s (1 - roundoff)^k] and
    [s (1 + roundoff)^k]. *)
Definition within (k : nat) (x : number) (s : Q) : Prop :=
  nonneg x = true /\ lowest x /\ (0 <= s)%Q
  /\ (finite x = true ->
      (s * power (1 - roundoff) k <= toQ x <= s * power (1 + roundoff) k)%Q).

Definition total (l : list Q) : Q := fold_right Qplus 0%Q l.

(** An entry of a totals object whose value is within [k] roundings of [s]. *)
Definition near (k : nat) (p : string * slot) (s : Q) : Prop :=
  within k (slotNumber (snd p)) s.

(** What [k] right shifts of [M] leave: the quotient, the bit shifted out
    last and whether a bit shifted out before it was set. *)
Definition shifted (M k : Z) (mrs : shr_record) : Prop :=
  0 <= shr_m mrs
  /\ 0 <= M - shr_m mrs * 2 ^ k
  /\ (shr_r mrs = false -> 2 * (M - shr_m mrs * 2 ^ k) < 2 ^ k)
  /\ (shr_r mrs = true -> 2 ^ k <= 2 * (M - shr_m mrs * 2 ^ k) < 2 * 2 ^ k)
  /\ (shr_s mrs = false ->
      2 * (M - shr_m mrs * 2 ^ k) = if shr_r mrs then 2 ^ k else 0).

(** ** The screen in use *)

(** What the user and the device can do to the screen: type in a field of
    the add form, press a filter button, press Add (the clock of the press
    is the host's), press the cross of a record, press Edit on a record,
    type in a field of the editor, leave the editor, press Save, and start
    the application again over the database as it is. *)
Inductive action : Type :=
  | TypeAmount (text : string)
  | TypeCategory (text : string)
  | TypeNote (text : string)
  | PressFilter (value : string)
  | PressAdd (h : Host)
  | PressDelete (id : Z)
  | PressEdit (expense : Z * Sqlite.row)
  | TypeEditAmount (text : string)
  | TypeEditCategory (text : string)
  | TypeEditNote (text : string)
  | TypeEditDate (text : string)
  | PressCancel
  | PressSave
  | Launch.

Section Use.

Variable NumberToString : number -> string.

Definition perform (st : state) (a : action) : state :=
  match a with
  | TypeAmount text => setAmount st text
  | TypeCategory text => setCategory st text
  | TypeNote text => setNote st text
  | PressFilter value => setFilter st value
  | PressAdd h => addExpense h st
  | PressDelete id => deleteExpense st id
  | PressEdit expense => startEdit NumberToString st expense
  | TypeEditAmount text => setEditAmount st text
  | TypeEditCategory text => setEditCategory st text
  | TypeEditNote text => setEditNote st text
  | TypeEditDate text => setEditDate st text
  | PressCancel => setEditingExpense st None
  | PressSave => handleSaveEdit st
  | Launch => setup (db st)
  end.

(** The state after a run of actions on a new device. *)
Definition after (l : list action) : state :=
  fold_left perform l (setup Sqlite.empty).

End Use.

(** Text that neither starts nor ends with white space. *)
Definition trimmed (s : string) : Prop :=
  startsWithWhiteSpace s = false /\ endsWithWhiteSpace s = false.

(** A row as the two forms write it: an amount above zero, a category and a
    date that are not empty and are trimmed, and a note that is absent or
    is not empty and is trimmed. *)
Definition wellFormed (r : Sqlite.row) : Prop :=
  gt (Sqlite.amount r) zero = true
  /\ (Sqlite.category r <> "" /\ trimmed (Sqlite.category r))
  /\ (forall n, Sqlite.note r = Some n -> n <> "" /\ trimmed n)
  /\ (Sqlite.date r <> "" /\ trimmed (Sqlite.date r)).

(** The id that the next insertion gives. *)
Definition nextId (d : Sqlite.database) : Z :=
  Z.max (Sqlite.sequence d) (Sqlite.largestRowid (Sqlite.expenses d)) + 1.

(** The order of the list: the later date first, the larger id first among
    records of one date. *)
Definition listedBefore (a b : Expense.t) : Prop :=
  String.ltb (Expense.date b) (Expense.date a) = true
  \/ (Expense.date a = Expense.date b /\ Expense.id b < Expense.id a).

(** The first ten characters of [toISOString], which [addExpense] writes
    to the date column. *)
Definition isoDate (t : Z) : string := slice0 10 (toISOString t).

(** A decimal digit of [padDigits]. *)
Definition digit (v : Z) : ascii := ascii_of_N (Z.to_N (48 + v mod 10)).

(** An add form that passes the validation of [addExpense]. *)
Definition validAdd (st : state) : Prop :=
  validAmount (amount st) /\ trim (category st) <> "".

(** An edit form that passes the validation of [handleSaveEdit]. *)
Definition validEdit (st : state) : Prop :=
  validAmount (editAmount st)
  /\ trim (editCategory st) <> ""
  /\ trim (editDate st) <> "".

(** The row that [addExpense] binds to its INSERT, and the row that
    [handleSaveEdit] binds to its UPDATE. *)
Definition addedRow (h : Host) (st : state) : Sqlite.row :=
  {| Sqlite.amount := parseFloat (amount st);
     Sqlite.category := trim (category st);
     Sqlite.note := orNull (trim (note st));
     Sqlite.date := isoDate (now h) |}.

Definition editedRow (st : state) : Sqlite.row :=
  {| Sqlite.amount := parseFloat (editAmount st);
     Sqlite.category := trim (editCategory st);
     Sqlite.note := orNull (trim (editNote st));
     Sqlite.date := trim (editDate st) |}.

(** A database whose rows are all well formed and whose ids all lie
    between 1 and the largest id given out. *)
Definition sound (d : Sqlite.database) : Prop :=
  0 <= Sqlite.sequence d
  /\ forall id r, Sqlite.expenses d !! id = Some r ->
                  wellFormed r /\ 1 <= id <= Sqlite.sequence d.

(** A state whose list is the table as [loadExpenses] reads it. *)
Definition shown (st : state) : Prop :=
  expenses st = map rowObject (Sqlite.selectAll (db st)).

(** Ten in the morning of the given day on a device five hours behind UTC
    the year round, whose engine reads no date outside the date-only
    form. *)
Definition clockWestAt (y m d : Z) : Host :=
  {| now := MakeDate (MakeDay y (m - 1) d) (MakeTime 15 0 0 0);
     LocalTZA := fun _ _ => - 5 * msPerHour;
     legacyParse := fun _ => None |}.

(** Noon UTC of Wednesday 2024-04-03 on a device in the Azores: an hour
    behind UTC until 01:00 UTC of Sunday 2024-03-31 and on UTC from then on.
    The local hour from midnight that the change skips has the offset of
    before the change (ECMAScript 21.4.1.26). *)
Definition changeSunday : Host :=
  let change := MakeDate (MakeDay 2024 2 31) (MakeTime 1 0 0 0) in
  {| now := MakeDate (MakeDay 2024 3 3) (MakeTime 12 0 0 0);
     LocalTZA := fun t _ => if t <? change then - msPerHour else 0;
     legacyParse := fun _ => None |}.

(** The screen after two additions on one day: 5 under Food, then 12.5
    under a category typed as [constructor]. *)
Definition constructorTyped : state :=
  after (fun _ => "")
    [TypeAmount "5"; TypeCategory "Food"; PressAdd (clockAt 2024 1 1);
     TypeAmount "12.5"; TypeCategory "constructor"; PressAdd (clockAt 2024 1 1)].

(** A row whose date an edit has left shorter than ten characters. *)
Definition shortDate : Sqlite.row :=
  {| Sqlite.amount := ofZ 3; Sqlite.category := "Books"; Sqlite.note := None;
     Sqlite.date := "2024-1-5" |}.

(** * Properties *)

(** ** Text: order and trimming *)

Section TextOrder.

Lemma ascii_compare_refl (c : ascii) : Ascii.compare c c = Eq.
Proof. unfold Ascii.compare. apply N.compare_refl. Qed.

Lemma string_compare_refl (s : string) : String.compare s s = Eq.
Proof.
  induction s as [|c s IH]; simpl; [reflexivity|].
  now rewrite ascii_compare_refl.
Qed.

Lemma string_ltb_irrefl (s : string) : String.ltb s s = false.
Proof. unfold String.ltb. now rewrite string_compare_refl. Qed.

Lemma string_compare_lt_trans (a b c : string) :
  String.compare a b = Lt -> String.compare b c = Lt -> String.compare a c = Lt.
Proof.
  revert b c.
  induction a as [|x a IH]; intros [|y b] [|z c]; simpl; try congruence.
  unfold Ascii.compare.
  destruct (N.compare_spec (N_of_ascii x) (N_of_ascii y)) as [Hxy|Hxy|Hxy];
    destruct (N.compare_spec (N_of_ascii y) (N_of_ascii z)) as [Hyz|Hyz|Hyz];
    try congruence; intros H1 H2.
  - rewrite Hxy, Hyz, N.compare_refl. eauto.
  - rewrite Hxy. now apply N.compare_lt_iff in Hyz as ->.
  - rewrite <- Hyz. now apply N.compare_lt_iff in Hxy as ->.
  - assert (N_of_ascii x < N_of_ascii z)%N as Hxz by lia.
    now apply N.compare_lt_iff in Hxz as ->.
Qed.

Lemma string_ltb_trans (a b c : string) :
  String.ltb a b = true -> String.ltb b c = true -> String.ltb a c = true.
Proof.
  unfold String.ltb. intros H1 H2.
  destruct (String.compare a b) eqn:E1; try discriminate.
  destruct (String.compare b c) eqn:E2; try discriminate.
  now rewrite (string_compare_lt_trans a b c).
Qed.

Lemma string_ltb_total (a b : string) :
  String.ltb a b = true \/ a = b \/ String.ltb b a = true.
Proof.
  unfold String.ltb. rewrite (String.compare_antisym b a).
  destruct (String.compare a b) eqn:E; simpl; auto.
  right; left. now apply String.compare_eq_iff.
Qed.

Lemma string_ltb_asym (a b : string) :
  String.ltb a b = true -> String.ltb b a = false.
Proof.
  unfold String.ltb. rewrite (String.compare_antisym b a).
  now destruct (String.compare a b).
Qed.

End TextOrder.

(** ** The store: [SELECT ... ORDER BY date DESC, id DESC] *)

Section Ordering.

(** [map] of the Standard Library and the [fmap] of lists are the same
    function. *)
Lemma map_fmap {A B} (f : A -> B) (l : list A) : map f l = f <$> l.
Proof. reflexivity. Qed.

#[local] Instance orderedBefore_trans : Transitive Sqlite.orderedBefore.
Proof.
  intros a b c [Hab|[Hab Iab]] [Hbc|[Hbc Ibc]]; unfold Sqlite.orderedBefore.
  - left. eapply string_ltb_trans; eauto.
  - left. now rewrite <- Hbc.
  - left. now rewrite Hab.
  - right. split; [congruence | lia].
Qed.

#[local] Instance orderedBefore_total : Total Sqlite.orderedBefore.
Proof.
  intros a b. unfold Sqlite.orderedBefore.
  destruct (string_ltb_total (Sqlite.date (snd a)) (Sqlite.date (snd b)))
    as [H|[H|H]]; auto.
  destruct (Z.le_ge_cases (fst a) (fst b)); [right | left]; right; split;
    first [ assumption | symmetry; assumption | lia ].
Qed.

Lemma selectAll_sorted (d : Sqlite.database) :
  StronglySorted Sqlite.orderedBefore (Sqlite.selectAll d).
Proof. apply StronglySorted_merge_sort; apply _. Qed.

Lemma selectAll_rows (d : Sqlite.database) (id : Z) (r : Sqlite.row) :
  (id, r) ∈ Sqlite.selectAll d <-> Sqlite.expenses d !! id = Some r.
Proof.
  unfold Sqlite.selectAll. rewrite merge_sort_Permutation.
  apply elem_of_map_to_list.
Qed.

Lemma selectAll_NoDup (d : Sqlite.database) :
  NoDup (map fst (Sqlite.selectAll d)).
Proof.
  unfold Sqlite.selectAll.
  rewrite map_fmap, merge_sort_Permutation.
  apply NoDup_fst_map_to_list.
Qed.

(** In a strongly sorted list, an earlier element is related to every later
    one. *)
Lemma StronglySorted_lookup {A} (R : relation A) (l : list A) (i j : nat) (x y : A) :
  StronglySorted R l -> (i < j)%nat -> l !! i = Some x -> l !! j = Some y -> R x y.
Proof.
  intros Hs. revert i j. induction Hs as [|a l Hs IH Hall]; intros i j Hij Hi Hj.
  - discriminate.
  - destruct j as [|j]; [lia|]. simpl in Hj.
    destruct i as [|i]; simpl in Hi.
    + injection Hi as ->. rewrite Forall_forall in Hall.
      apply Hall. eapply list_elem_of_lookup_2; eauto.
    + apply (IH i j); [lia | assumption | assumption].
Qed.

Lemma selectAll_ordered (d : Sqlite.database) (i j : nat) (a b : Z * Sqlite.row) :
  (i < j)%nat ->
  Sqlite.selectAll d !! i = Some a ->
  Sqlite.selectAll d !! j = Some b ->
  String.ltb (Sqlite.date (snd b)) (Sqlite.date (snd a)) = true
  \/ (Sqlite.date (snd a) = Sqlite.date (snd b) /\ fst b < fst a).
Proof.
  intros Hij Hi Hj.
  destruct (StronglySorted_lookup _ _ i j a b (selectAll_sorted d) Hij Hi Hj)
    as [H|[H1 H2]]; [now left | right; split; [assumption|]].
  assert (fst a <> fst b) as Hne.
  { intros Heq.
    pose proof (selectAll_NoDup d) as Hnd.
    assert (i = j); [|lia].
    rewrite map_fmap in Hnd.
    eapply (NoDup_lookup _ i j (fst a) Hnd).
    - rewrite list_lookup_fmap, Hi. reflexivity.
    - rewrite list_lookup_fmap, Hj. simpl. now rewrite Heq. }
  lia.
Qed.

End Ordering.

(** C1. [loadExpenses] returns the rows of the table, each once, by date
    descending and then id descending: of two returned records the earlier
    one has the later date, or the same date and the larger id.  The two
    records dated 2024-01-01 (id 1) and 2024-01-02 (id 2) come back as id 2,
    id 1. *)
Theorem listAll_sorted_by_date_then_id :
  (forall (st : state) (i j : nat) (r1 r2 : Expense.t),
      (i < j)%nat ->
      expenses (loadExpenses st) !! i = Some r1 ->
      expenses (loadExpenses st) !! j = Some r2 ->
      String.ltb (Expense.date r2) (Expense.date r1) = true
      \/ (Expense.date r1 = Expense.date r2 /\ Expense.id r2 < Expense.id r1))
  /\ (forall (st : state) (e : Expense.t),
         e ∈ expenses (loadExpenses st) <->
         exists id r, Sqlite.expenses (db st) !! id = Some r /\ e = rowObject (id, r))
  /\ map (fun e => (Expense.id e, Expense.date e)) (expenses twoDays)
     = [(2, "2024-01-02"); (1, "2024-01-01")].
Proof.
  split; [|split].
  - intros st i j r1 r2 Hij H1 H2. simpl in H1, H2.
    rewrite map_fmap, list_lookup_fmap in H1, H2.
    destruct (Sqlite.selectAll (db st) !! i) as [a|] eqn:Ha; [|discriminate].
    destruct (Sqlite.selectAll (db st) !! j) as [b|] eqn:Hb; [|discriminate].
    injection H1 as <-. injection H2 as <-. simpl.
    eapply selectAll_ordered; eauto.
  - intros st e. simpl. rewrite map_fmap, list_elem_of_fmap. split.
    + intros [[id r] [-> Hin]]. exists id, r. split; [|reflexivity].
      now apply selectAll_rows.
    + intros (id & r & Hl & ->). exists (id, r). split; [reflexivity|].
      now apply selectAll_rows.
  - vm_compute. reflexivity.
Qed.

Lemma listAll_sorted_witness :
  String.ltb (Expense.date (rowAt twoDays 1)) (Expense.date (rowAt twoDays 0)) = true
  \/ (Expense.date (rowAt twoDays 0) = Expense.date (rowAt twoDays 1)
      /\ Expense.id (rowAt twoDays 1) < Expense.id (rowAt twoDays 0)).
Proof.
  apply (proj1 listAll_sorted_by_date_then_id twoDays 0%nat 1%nat);
    [ lia | vm_compute; reflexivity | vm_compute; reflexivity ].
Defined.

(** ** Adding: validation comes before the store *)

(** C2, as stated, fails: the text [12abc] is not numeric, yet [addExpense]
    reads the number it begins with and writes a row with the amount 12; so
    it is with [1.2.3], which is stored as 1.2. *)
Lemma addExpense_accepts_a_numeric_prefix :
  ~ (forall (h : Host) (st : state),
        nonNumeric (JStr (amount st)) ->
        Sqlite.expenses (db (addExpense h st)) = Sqlite.expenses (db st))
  /\ nonNumeric (JStr "12abc")
  /\ size (Sqlite.expenses (db twoDays)) = 2%nat
  /\ size (Sqlite.expenses
             (db (addExpense (clockAt 2024 1 3) (typed twoDays "12abc" "Food" "")))) = 3%nat
  /\ Sqlite.expenses
       (db (addExpense (clockAt 2024 1 3) (typed twoDays "12abc" "Food" ""))) !! 3
     = Some {| Sqlite.amount := ofZ 12; Sqlite.category := "Food";
               Sqlite.note := None; Sqlite.date := "2024-01-03" |}
  /\ alerts (addExpense (clockAt 2024 1 3) (typed twoDays "12abc" "Food" "")) = []
  /\ nonNumeric (JStr "1.2.3")
  /\ Sqlite.expenses
       (db (addExpense (clockAt 2024 1 3) (typed twoDays "1.2.3" "Food" ""))) !! 3
     = Some {| Sqlite.amount := parseFloat "1.2"; Sqlite.category := "Food";
               Sqlite.note := None; Sqlite.date := "2024-01-03" |}.
Proof.
  split; [|repeat split; vm_compute; reflexivity].
  intros H.
  specialize (H (clockAt 2024 1 3) (typed twoDays "12abc" "Food" "")).
  assert (nonNumeric (JStr (amount (typed twoDays "12abc" "Food" "")))) as Hn
      by (vm_compute; reflexivity).
  specialize (H Hn). apply (f_equal size) in H. vm_compute in H. discriminate.
Qed.

(** C2, amended.  When [parseFloat] of the typed amount is NaN (the text
    does not begin, after white space, with a number), or is not above zero,
    or the typed category is empty once trimmed, [addExpense] changes
    nothing: the table, and so the number of rows, is what it was, and no
    alert is shown.  So it is for the amounts 0, -5 and abc and for a blank
    category. *)
Theorem addExpense_invalid_is_ignored :
  (forall (h : Host) (st : state),
      isNaN (parseFloat (amount st)) = true
      \/ le (parseFloat (amount st)) zero = true
      \/ trim (category st) = "" ->
      addExpense h st = st
      /\ Sqlite.expenses (db (addExpense h st)) = Sqlite.expenses (db st)
      /\ size (Sqlite.expenses (db (addExpense h st))) = size (Sqlite.expenses (db st))
      /\ alerts (addExpense h st) = alerts st)
  /\ (forall (h : Host) (st : state) (category note : string),
         addExpense h (typed st "0" category note) = typed st "0" category note
         /\ addExpense h (typed st "-5" category note) = typed st "-5" category note
         /\ addExpense h (typed st "abc" category note) = typed st "abc" category note)
  /\ (forall (h : Host) (st : state) (amount note : string),
         addExpense h (typed st amount "" note) = typed st amount "" note
         /\ addExpense h (typed st amount "   " note) = typed st amount "   " note).
Proof.
  assert (forall h st,
             isNaN (parseFloat (amount st)) = true
             \/ le (parseFloat (amount st)) zero = true
             \/ trim (category st) = "" -> addExpense h st = st) as Hmain.
  { intros h st H. unfold addExpense.
    destruct (isNaN (parseFloat (amount st))) eqn:E1; [reflexivity|].
    destruct (le (parseFloat (amount st)) zero) eqn:E2; [reflexivity|].
    destruct H as [H|[H|H]]; try discriminate.
    simpl. now rewrite H. }
  split; [|split].
  - intros h st H. rewrite (Hmain h st H). auto.
  - intros h st c n. split; [|split]; apply Hmain.
    + right; left. reflexivity.
    + right; left. reflexivity.
    + left. reflexivity.
  - intros h st a n. split; apply Hmain; right; right; reflexivity.
Qed.

Lemma addExpense_invalid_witness :
  addExpense (clockAt 2024 1 1) (typed twoDays "0" "Food" "") = typed twoDays "0" "Food" ""
  /\ Sqlite.expenses (db (addExpense (clockAt 2024 1 1) (typed twoDays "0" "Food" "")))
     = Sqlite.expenses (db (typed twoDays "0" "Food" ""))
  /\ size (Sqlite.expenses (db (addExpense (clockAt 2024 1 1) (typed twoDays "0" "Food" ""))))
     = size (Sqlite.expenses (db (typed twoDays "0" "Food" "")))
  /\ alerts (addExpense (clockAt 2024 1 1) (typed twoDays "0" "Food" ""))
     = alerts (typed twoDays "0" "Food" "").
Proof.
  apply (proj1 addExpense_invalid_is_ignored (clockAt 2024 1 1) (typed twoDays "0" "Food" "")).
  right; left. vm_compute. reflexivity.
Defined.

(** ** Trimming *)

Section Trim.

Lemma append_cons (c : ascii) (a b : string) :
  String.append (String c a) b = String c (String.append a b).
Proof. reflexivity. Qed.

Lemma append_nil (b : string) : String.append "" b = b.
Proof. reflexivity. Qed.

Lemma trimStart_split (s : string) :
  exists l, s = String.append l (trimStart s) /\ allWhiteSpace l = true.
Proof.
  induction s as [|c s [l [Hl Hw]]]; simpl.
  - exists "". auto.
  - destruct (isWhiteSpace c) eqn:E.
    + exists (String c l). rewrite append_cons. simpl. rewrite E, Hw.
      split; [congruence | reflexivity].
    + exists "". auto.
Qed.

Lemma trimStart_starts (s : string) : startsWithWhiteSpace (trimStart s) = false.
Proof.
  induction s as [|c s IH]; simpl; [reflexivity|].
  destruct (isWhiteSpace c) eqn:E; [assumption | simpl; assumption].
Qed.

Lemma trimEnd_empty (s : string) : trimEnd s = "" <-> allWhiteSpace s = true.
Proof.
  induction s as [|c s IH]; simpl; [tauto|].
  destruct (trimEnd s) eqn:E.
  - destruct (isWhiteSpace c); simpl; [tauto|]. split; discriminate.
  - split; [discriminate|]. intros H. apply andb_true_iff in H as [_ H].
    apply IH in H. discriminate.
Qed.

Lemma trimEnd_split (s : string) :
  exists r, s = String.append (trimEnd s) r /\ allWhiteSpace r = true.
Proof.
  induction s as [|c s [r [Hr Hw]]]; simpl.
  - exists "". auto.
  - destruct (trimEnd s) eqn:E; rewrite ?append_cons, ?append_nil in Hr.
    + destruct (isWhiteSpace c) eqn:Ec.
      * exists (String c r). rewrite append_nil. simpl. rewrite Ec, Hw.
        split; [congruence | reflexivity].
      * exists r. rewrite append_cons, append_nil. split; [congruence | assumption].
    + exists r. rewrite !append_cons. split; [congruence | assumption].
Qed.

Lemma trimEnd_ends (s : string) : endsWithWhiteSpace (trimEnd s) = false.
Proof.
  induction s as [|c s IH]; simpl; [reflexivity|].
  destruct (trimEnd s) eqn:E.
  - destruct (isWhiteSpace c) eqn:Ec; simpl; [reflexivity | assumption].
  - simpl in *. assumption.
Qed.

Lemma trimEnd_starts (s : string) :
  startsWithWhiteSpace s = false -> startsWithWhiteSpace (trimEnd s) = false.
Proof.
  destruct s as [|c s]; simpl; [reflexivity|]. intros H.
  destruct (trimEnd s); [rewrite H|]; simpl; assumption.
Qed.

Lemma allWhiteSpace_append (a b : string) :
  allWhiteSpace (String.append a b) = allWhiteSpace a && allWhiteSpace b.
Proof.
  induction a as [|c a IH]; [reflexivity|].
  rewrite append_cons. simpl. now rewrite IH, andb_assoc.
Qed.

(** What [trim] does: it removes white space at both ends and nothing
    else, and what it leaves neither starts nor ends with white space. *)
Lemma trim_spec (s : string) :
  (exists l r, s = String.append l (String.append (trim s) r)
               /\ allWhiteSpace l = true /\ allWhiteSpace r = true)
  /\ startsWithWhiteSpace (trim s) = false
  /\ endsWithWhiteSpace (trim s) = false.
Proof.
  unfold trim. split; [|split].
  - destruct (trimStart_split s) as [l [Hl Hwl]].
    destruct (trimEnd_split (trimStart s)) as [r [Hr Hwr]].
    exists l, r. rewrite <- Hr. auto.
  - apply trimEnd_starts, trimStart_starts.
  - apply trimEnd_ends.
Qed.

Lemma trim_empty (s : string) : trim s = "" <-> allWhiteSpace s = true.
Proof.
  unfold trim. rewrite trimEnd_empty.
  destruct (trimStart_split s) as [l [Hl Hw]].
  rewrite Hl at 2. rewrite allWhiteSpace_append, Hw. simpl. tauto.
Qed.

End Trim.

(** ** What is written to the note column *)

Section Notes.

Lemma orNull_trim (s : string) : orNull (trim s) = storedNote s.
Proof.
  unfold orNull, storedNote.
  destruct (String.eqb_spec (trim s) "") as [H|H].
  - apply trim_empty in H. now rewrite H.
  - destruct (allWhiteSpace s) eqn:E; [|reflexivity].
    apply trim_empty in E. contradiction.
Qed.

Lemma largestRowid_bound (t : gmap Z Sqlite.row) (k : Z) :
  is_Some (t !! k) -> k <= Sqlite.largestRowid t.
Proof.
  unfold Sqlite.largestRowid. revert k.
  apply (map_fold_weak_ind
           (fun (b : Z) (m : gmap Z Sqlite.row) => forall k, is_Some (m !! k) -> k <= b)).
  - intros k [x Hx]. rewrite lookup_empty in Hx. discriminate.
  - intros i x m b Hi IH k Hk.
    destruct (decide (i = k)) as [->|Hne]; [lia|].
    rewrite lookup_insert_ne in Hk by assumption.
    specialize (IH k Hk). lia.
Qed.

Lemma insert_spec (d d' : Sqlite.database) (r : Sqlite.row) :
  Sqlite.insert d r = Some d' ->
  exists id, Sqlite.expenses d !! id = None
             /\ Sqlite.expenses d' = <[id := r]> (Sqlite.expenses d).
Proof.
  unfold Sqlite.insert. intros H.
  destruct (isNaN (Sqlite.amount r)); [discriminate|].
  destruct (Sqlite.maxRowid <? _); [discriminate|].
  injection H as <-. simpl.
  eexists. split; [|reflexivity].
  destruct (Sqlite.expenses d !! _) eqn:E; [|reflexivity].
  pose proof (largestRowid_bound _ _ (mk_is_Some _ _ E)). lia.
Qed.

Lemma update_spec (d d' : Sqlite.database) (id : Z) (r : Sqlite.row) :
  Sqlite.update d id r = Some d' ->
  (Sqlite.expenses d !! id = None /\ d' = d)
  \/ (is_Some (Sqlite.expenses d !! id)
      /\ Sqlite.expenses d' = <[id := r]> (Sqlite.expenses d)).
Proof.
  unfold Sqlite.update. intros H.
  destruct (Sqlite.expenses d !! id) eqn:E.
  - destruct (isNaN (Sqlite.amount r)); [discriminate|].
    injection H as <-. right. split; [eauto | reflexivity].
  - injection H as <-. auto.
Qed.

End Notes.

(** C10. On the add path and on the edit path the note is trimmed before
    it is bound, and a note that is empty or white space throughout is
    bound as null, never as an empty text: every row of the table after
    [addExpense] or [handleSaveEdit] either was there before, unchanged, or
    carries [storedNote] of the typed note; and a form that passes
    validation does write such a row.  White space is the code units 9 to
    13, 32 and 160.  So the notes of three spaces, and of a tab, a line feed
    and a space, are stored as null on both paths, and the note
    [  with milk  ] is stored as [with milk]. *)
Theorem note_is_trimmed_or_null :
  (forall (h : Host) (st : state) (id : Z) (r : Sqlite.row),
      Sqlite.expenses (db (addExpense h st)) !! id = Some r ->
      Sqlite.expenses (db st) !! id = Some r
      \/ (Sqlite.expenses (db st) !! id = None
          /\ Sqlite.note r = storedNote (note st)))
  /\ (forall (h : Host) (st : state),
         validAmount (amount st) ->
         trim (category st) <> "" ->
         Z.max (Sqlite.sequence (db st)) (Sqlite.largestRowid (Sqlite.expenses (db st))) + 1
           <= Sqlite.maxRowid ->
         exists id,
           Sqlite.expenses (db st) !! id = None
           /\ Sqlite.expenses (db (addExpense h st)) !! id
              = Some {| Sqlite.amount := parseFloat (amount st);
                        Sqlite.category := trim (category st);
                        Sqlite.note := storedNote (note st);
                        Sqlite.date := slice0 10 (toISOString (now h)) |})
  /\ (forall (st : state) (id : Z) (r : Sqlite.row),
         Sqlite.expenses (db (handleSaveEdit st)) !! id = Some r ->
         Sqlite.expenses (db st) !! id = Some r
         \/ Sqlite.note r = storedNote (editNote st))
  /\ (forall (st : state) (e : Expense.t) (old : Sqlite.row),
         editingExpense st = Some e ->
         Sqlite.expenses (db st) !! Expense.id e = Some old ->
         validAmount (editAmount st) ->
         trim (editCategory st) <> "" ->
         trim (editDate st) <> "" ->
         Sqlite.expenses (db (handleSaveEdit st)) !! Expense.id e
         = Some {| Sqlite.amount := parseFloat (editAmount st);
                   Sqlite.category := trim (editCategory st);
                   Sqlite.note := storedNote (editNote st);
                   Sqlite.date := trim (editDate st) |})
  /\ (forall s : string,
         storedNote s <> Some ""
         /\ (allWhiteSpace s = true -> storedNote s = None)
         /\ (forall n, storedNote s = Some n ->
                       n = trim s
                       /\ startsWithWhiteSpace n = false
                       /\ endsWithWhiteSpace n = false))
  /\ (forall c : ascii,
         isWhiteSpace c = true <-> In (code c) [9; 10; 11; 12; 13; 32; 160])
  /\ (storedNote "" = None
      /\ storedNote "   " = None
      /\ storedNote (String (ascii_of_N 9) (String (ascii_of_N 10) " ")) = None
      /\ storedNote "  with milk  " = Some "with milk"
      /\ storedNote " a  b " = Some "a  b")
  /\ (Sqlite.expenses
        (db (addExpense (clockAt 2024 1 3) (typed twoDays "4.20" " Coffee " "   "))) !! 3
      = Some {| Sqlite.amount := parseFloat "4.20"; Sqlite.category := "Coffee";
                Sqlite.note := None; Sqlite.date := "2024-01-03" |}
      /\ Sqlite.expenses
           (db (addExpense (clockAt 2024 1 3)
                  (typed twoDays "4.20" " Coffee " "  with milk  "))) !! 3
         = Some {| Sqlite.amount := parseFloat "4.20"; Sqlite.category := "Coffee";
                   Sqlite.note := Some "with milk"; Sqlite.date := "2024-01-03" |})
  /\ (Sqlite.expenses (db (handleSaveEdit (editing twoDays "8" "Food" "   "))) !! 1
      = Some {| Sqlite.amount := ofZ 8; Sqlite.category := "Food";
                Sqlite.note := None; Sqlite.date := "2024-01-01" |}
      /\ Sqlite.expenses
           (db (handleSaveEdit
                  (editing twoDays "8" "Food"
                     (String (ascii_of_N 9) (String (ascii_of_N 10) " "))))) !! 1
         = Some {| Sqlite.amount := ofZ 8; Sqlite.category := "Food";
                   Sqlite.note := None; Sqlite.date := "2024-01-01" |}
      /\ Sqlite.expenses (db (handleSaveEdit (editing twoDays "8" "Food" " lunch "))) !! 1
         = Some {| Sqlite.amount := ofZ 8; Sqlite.category := "Food";
                   Sqlite.note := Some "lunch"; Sqlite.date := "2024-01-01" |}).
Proof.
  split; [|split; [|split; [|split; [|split; [|split; [|split; [|split]]]]]]];
    [ | | | | | | repeat split; vm_compute; reflexivity
      | repeat split; vm_compute; reflexivity
      | repeat split; vm_compute; reflexivity ].
  - intros h st id r. unfold addExpense.
    destruct (isNaN _ || le _ _); [auto|].
    destruct (String.eqb _ _); [auto|].
    destruct (Sqlite.insert _ _) as [d'|] eqn:E; [|auto].
    apply insert_spec in E as (k & Hk & Hd'). simpl. rewrite Hd'.
    destruct (decide (k = id)) as [->|Hne].
    + rewrite lookup_insert_eq. intros [= <-]. right. split; [assumption|].
      simpl. apply orNull_trim.
    + rewrite lookup_insert_ne by assumption. auto.
  - intros h st [Hn Hp] Hc Hid. unfold addExpense. rewrite Hn, Hp. simpl.
    destruct (String.eqb_spec (trim (category st)) "") as [|_]; [contradiction|].
    unfold Sqlite.insert. simpl. rewrite Hn.
    destruct (Z.ltb_spec Sqlite.maxRowid
                (Z.max (Sqlite.sequence (db st))
                   (Sqlite.largestRowid (Sqlite.expenses (db st))) + 1)); [lia|].
    simpl. eexists. split; [|rewrite lookup_insert_eq, orNull_trim; reflexivity].
    destruct (Sqlite.expenses (db st) !! _) eqn:E; [|reflexivity].
    pose proof (largestRowid_bound _ _ (mk_is_Some _ _ E)). lia.
  - intros st id r. unfold handleSaveEdit.
    destruct (editingExpense st) as [e|]; [|auto].
    destruct (isNaN _ || le _ _); [auto|].
    destruct (String.eqb _ _); [auto|].
    destruct (String.eqb _ _); [auto|].
    destruct (Sqlite.update _ _ _) as [d'|] eqn:E; [|auto].
    apply update_spec in E as [[_ ->]|[_ Hd']]; [auto|].
    simpl. rewrite Hd'.
    destruct (decide (Expense.id e = id)) as [->|Hne].
    + rewrite lookup_insert_eq. intros [= <-]. right. simpl. apply orNull_trim.
    + rewrite lookup_insert_ne by assumption. auto.
  - intros st e old He Hold [Hn Hp] Hc Hd. unfold handleSaveEdit.
    rewrite He, Hn, Hp. simpl.
    destruct (String.eqb_spec (trim (editCategory st)) "") as [|_]; [contradiction|].
    destruct (String.eqb_spec (trim (editDate st)) "") as [|_]; [contradiction|].
    unfold Sqlite.update. rewrite Hold. simpl. rewrite Hn. simpl.
    now rewrite lookup_insert_eq, orNull_trim.
  - intros s. unfold storedNote. destruct (allWhiteSpace s) eqn:E.
    + repeat split; try discriminate.
    + split; [|split; [discriminate|]].
      * intros [= H]. apply trim_empty in H. congruence.
      * intros n [= <-]. split; [reflexivity|]. apply trim_spec.
  - intros c. unfold isWhiteSpace. cbv zeta.
    rewrite !orb_true_iff, !Z.eqb_eq. simpl. intuition lia.
Qed.

Lemma note_is_trimmed_or_null_witness :
  exists id,
    Sqlite.expenses (db (typed twoDays "4.20" " Coffee " "  with milk  ")) !! id = None
    /\ Sqlite.expenses (db (addExpense (clockAt 2024 1 3)
                              (typed twoDays "4.20" " Coffee " "  with milk  "))) !! id
       = Some {| Sqlite.amount := parseFloat "4.20";
                 Sqlite.category := "Coffee";
                 Sqlite.note := Some "with milk";
                 Sqlite.date := "2024-01-03" |}.
Proof.
  apply (proj1 (proj2 note_is_trimmed_or_null) (clockAt 2024 1 3)
           (typed twoDays "4.20" " Coffee " "  with milk  ")).
  - split; vm_compute; reflexivity.
  - vm_compute. discriminate.
  - vm_compute. discriminate.
Defined.

(** ** Dates that do not parse *)

(** C7. A record whose date does not parse is left out by the WEEK and the
    MONTH filter and kept by the ALL filter; the two tests answer false for
    it, they do not fail. *)
Theorem unparseable_date_is_filtered (h : Host) (expenses : list Expense.t) (e : Expense.t) :
  Date_parse h (Expense.date e) = None ->
  isInCurrentWeek h (Expense.date e) = false
  /\ isInCurrentMonth h (Expense.date e) = false
  /\ ~ In e (filteredExpenses h expenses "WEEK")
  /\ ~ In e (filteredExpenses h expenses "MONTH")
  /\ (In e expenses -> In e (filteredExpenses h expenses "ALL")).
Proof.
  intros H.
  assert (isInCurrentWeek h (Expense.date e) = false) as Hw
      by (unfold isInCurrentWeek; now rewrite H).
  assert (isInCurrentMonth h (Expense.date e) = false) as Hm
      by (unfold isInCurrentMonth; now rewrite H).
  repeat split; try assumption.
  - unfold filteredExpenses. simpl. rewrite filter_In. intros [_ Hf]. congruence.
  - unfold filteredExpenses. simpl. rewrite filter_In. intros [_ Hf]. congruence.
  - intros Hin. exact Hin.
Qed.

Lemma unparseable_date_witness :
  isInCurrentWeek (clockAt 2024 1 3) (Expense.date undated) = false
  /\ isInCurrentMonth (clockAt 2024 1 3) (Expense.date undated) = false
  /\ ~ In undated (filteredExpenses (clockAt 2024 1 3) [undated] "WEEK")
  /\ ~ In undated (filteredExpenses (clockAt 2024 1 3) [undated] "MONTH")
  /\ (In undated [undated] -> In undated (filteredExpenses (clockAt 2024 1 3) [undated] "ALL")).
Proof.
  apply (unparseable_date_is_filtered (clockAt 2024 1 3) [undated] undated).
  reflexivity.
Defined.

(** ** The calendar *)

Ltac zdiv := Z.div_mod_to_equations; lia.

Section Calendar.

Lemma DayFromYear_step (y : Z) : DayFromYear (y + 1) = DayFromYear y + DaysInYear y.
Proof.
  unfold DayFromYear, DaysInYear.
  destruct (Z.eqb_spec (y mod 4) 0), (Z.eqb_spec (y mod 100) 0), (Z.eqb_spec (y mod 400) 0); simpl; zdiv.
Qed.

Lemma YearFromTime_spec (t : Z) :
  DayFromYear (YearFromTime t) <= Day t < DayFromYear (YearFromTime t + 1).
Proof.
  unfold YearFromTime. set (d := Day t). clearbody d.
  destruct (Z.leb_spec (DayFromYear (1970 + d * 400 / 146097 + 1)) d) as [H1|H1].
  - split; [assumption|]. unfold DayFromYear in *. zdiv.
  - destruct (Z.leb_spec (DayFromYear (1970 + d * 400 / 146097)) d) as [H2|H2].
    + split; assumption.
    + replace (1970 + d * 400 / 146097 - 1 + 1) with (1970 + d * 400 / 146097) by lia.
      split; [|assumption]. unfold DayFromYear in *. zdiv.
Qed.

Lemma MonthFromTime_range (t : Z) : 0 <= MonthFromTime t <= 11.
Proof.
  unfold MonthFromTime.
  repeat match goal with |- context [if ?b then _ else _] => destruct b end; lia.
Qed.

Lemma MakeDay_of_time (t dt : Z) :
  MakeDay (YearFromTime t) (MonthFromTime t) dt = Day t - DateFromTime t + dt.
Proof.
  pose proof (MonthFromTime_range t) as Hm.
  unfold MakeDay, DateFromTime, DayWithinYear, InLeapYear.
  rewrite Z.div_small, Z.mod_small, Z.add_0_r by lia. lia.
Qed.

Lemma Day_MakeDate (d t : Z) : 0 <= t < msPerDay -> Day (MakeDate d t) = d.
Proof. unfold Day, MakeDate, msPerDay. intros H. zdiv. Qed.

Lemma TimeWithinDay_MakeDate (d t : Z) : 0 <= t < msPerDay -> TimeWithinDay (MakeDate d t) = t.
Proof. unfold TimeWithinDay, MakeDate, msPerDay. intros H. zdiv. Qed.

Lemma YearFromTime_Day (t u : Z) : Day t = Day u -> YearFromTime t = YearFromTime u.
Proof. unfold YearFromTime. now intros ->. Qed.

Lemma MonthFromTime_Day (t u : Z) : Day t = Day u -> MonthFromTime t = MonthFromTime u.
Proof.
  intros H. unfold MonthFromTime, DayWithinYear, InLeapYear.
  now rewrite (YearFromTime_Day t u H), H.
Qed.

Lemma DateFromTime_Day (t u : Z) : Day t = Day u -> DateFromTime t = DateFromTime u.
Proof.
  intros H. unfold DateFromTime, DayWithinYear, InLeapYear.
  now rewrite (MonthFromTime_Day t u H), (YearFromTime_Day t u H), H.
Qed.

Lemma setDate_days (h : Host) (t k : Z) :
  setDate h t (getDate h t + k) = UTC h (LocalTime h t + k * msPerDay).
Proof.
  unfold setDate, getDate. rewrite MakeDay_of_time. f_equal.
  unfold MakeDate, TimeWithinDay, Day, msPerDay. zdiv.
Qed.

End Calendar.

Section Week.

Lemma steady_LocalTime (h : Host) (off t : Z) :
  steady h off -> now h - 8 * msPerDay <= t <= now h + 8 * msPerDay ->
  LocalTime h t = t + off.
Proof. intros Hs Ht. unfold LocalTime. now rewrite (Hs t true Ht). Qed.

Lemma steady_UTC (h : Host) (off t : Z) :
  steady h off -> now h - 8 * msPerDay <= t <= now h + 8 * msPerDay ->
  UTC h t = t - off.
Proof. intros Hs Ht. unfold UTC. now rewrite (Hs t false Ht). Qed.

Lemma WeekDay_range (t : Z) : 0 <= WeekDay t <= 6.
Proof. unfold WeekDay. zdiv. Qed.

Lemma Day_bounds (t : Z) : msPerDay * Day t <= t < msPerDay * Day t + msPerDay.
Proof. unfold Day, msPerDay. zdiv. Qed.

(** On a device whose offset does not change around the week, the start of
    the week is local midnight of the week's Sunday taken back by the
    offset, and [isInCurrentWeek] keeps the seven days from it. *)
Lemma startOfWeek_steady (h : Host) (off : Z) :
  steady h off -> - msPerDay < off < msPerDay ->
  LocalTime h (now h) = now h + off
  /\ startOfWeek h
     = msPerDay * (Day (now h + off) - WeekDay (now h + off)) - off.
Proof.
  intros Hs Hoff.
  assert (LocalTime h (now h) = now h + off) as Hl.
  { apply steady_LocalTime; [assumption | unfold msPerDay; lia]. }
  split; [assumption|]. unfold startOfWeek. rewrite Hl.
  pose proof (WeekDay_range (now h + off)). pose proof (Day_bounds (now h + off)).
  apply steady_UTC; [assumption | unfold msPerDay in *; lia].
Qed.

Lemma isInCurrentWeek_spec (h : Host) (off : Z) (dateStr : string) (d : Z) :
  steady h off -> - msPerDay < off < msPerDay ->
  Date_parse h dateStr = Some d ->
  isInCurrentWeek h dateStr = true <-> startOfWeek h <= d < startOfWeek h + 7 * msPerDay.
Proof.
  intros Hs Hoff Hd. unfold isInCurrentWeek. rewrite Hd.
  destruct (startOfWeek_steady h off Hs Hoff) as [Hl Hstart].
  pose proof (WeekDay_range (now h + off)) as Hw.
  pose proof (Day_bounds (now h + off)) as Hb.
  set (sh := setHours h (now h) 0 0 0 0).
  assert (sh = msPerDay * Day (now h + off) - off) as Esh.
  { unfold sh, setHours. rewrite Hl.
    replace (MakeDate (Day (now h + off)) (MakeTime 0 0 0 0))
      with (msPerDay * Day (now h + off)) by (unfold MakeDate, MakeTime; lia).
    apply steady_UTC; [assumption | unfold msPerDay in *; lia]. }
  assert (LocalTime h sh = msPerDay * Day (now h + off)) as Hsh.
  { rewrite (steady_LocalTime h off sh Hs); [lia | unfold msPerDay in *; lia]. }
  assert (Day (LocalTime h sh) = Day (LocalTime h (now h))) as Hday.
  { rewrite Hsh, Hl. unfold Day, msPerDay. zdiv. }
  assert (getDate h (now h) = getDate h sh) as Hgd.
  { unfold getDate. symmetry. now apply DateFromTime_Day. }
  rewrite Hgd.
  replace (getDate h sh - getDay h (now h)) with (getDate h sh + (- getDay h (now h))) by lia.
  rewrite setDate_days.
  assert (UTC h (LocalTime h sh + - getDay h (now h) * msPerDay) = startOfWeek h) as ->.
  { unfold startOfWeek, getDay. rewrite Hsh, Hl. f_equal. lia. }
  rewrite setDate_days.
  assert (LocalTime h (startOfWeek h) = startOfWeek h + off) as Hls.
  { apply steady_LocalTime; [assumption | unfold msPerDay in *; lia]. }
  assert (UTC h (LocalTime h (startOfWeek h) + 7 * msPerDay)
          = startOfWeek h + 7 * msPerDay) as ->.
  { rewrite Hls, (steady_UTC h off); [lia | assumption | unfold msPerDay in *; lia]. }
  rewrite andb_true_iff, Z.leb_le, Z.ltb_lt. lia.
Qed.

End Week.

Section Civil.

Lemma DayFromYear_mono (a b : Z) : a <= b -> DayFromYear a + 365 * (b - a) <= DayFromYear b.
Proof. unfold DayFromYear. intros H. zdiv. Qed.

Lemma YearFromTime_unique (t y : Z) :
  DayFromYear y <= Day t < DayFromYear (y + 1) -> YearFromTime t = y.
Proof.
  intros H. pose proof (YearFromTime_spec t) as Hs.
  destruct (Z.lt_trichotomy (YearFromTime t) y) as [Hlt|[Heq|Hgt]]; [|assumption|].
  - pose proof (DayFromYear_mono (YearFromTime t + 1) y). lia.
  - pose proof (DayFromYear_mono (y + 1) (YearFromTime t)). lia.
Qed.

Lemma DaysInYear_cases (y : Z) : DaysInYear y = 365 \/ DaysInYear y = 366.
Proof. unfold DaysInYear. repeat destruct (negb _); auto. Qed.

(** The year, the month and the day of the month of the day that [MakeDay]
    numbers are the ones it was given, for a day that exists. *)
Lemma civil_MakeDay (y m d t : Z) :
  0 <= m <= 11 -> 1 <= d <= daysInMonth y m -> 0 <= t < msPerDay ->
  YearFromTime (MakeDate (MakeDay y m d) t) = y
  /\ MonthFromTime (MakeDate (MakeDay y m d) t) = m
  /\ DateFromTime (MakeDate (MakeDay y m d) t) = d.
Proof.
  intros Hm Hd Ht.
  set (l := if DaysInYear y =? 366 then 1 else 0) in *.
  assert (MakeDay y m d = DayFromYear y + daysBeforeMonth m l + d - 1) as HD.
  { unfold MakeDay. rewrite Z.div_small, Z.mod_small, Z.add_0_r by lia. reflexivity. }
  assert (DaysInYear y = 365 + l /\ 0 <= l <= 1) as [Hy Hl].
  { subst l. destruct (DaysInYear_cases y) as [-> | ->]; simpl; lia. }
  unfold daysInMonth in Hd. fold l in Hd. clearbody l.
  assert (m = 0 \/ m = 1 \/ m = 2 \/ m = 3 \/ m = 4 \/ m = 5 \/ m = 6 \/ m = 7
          \/ m = 8 \/ m = 9 \/ m = 10 \/ m = 11) as Hcases by lia.
  assert (0 <= daysBeforeMonth m l /\ daysBeforeMonth m l + d <= 365 + l) as (Hb0 & Hb1).
  { repeat destruct Hcases as [-> | Hcases]; try subst m;
      unfold daysBeforeMonth in *; simpl in *; lia. }
  assert (YearFromTime (MakeDate (MakeDay y m d) t) = y) as HY.
  { apply YearFromTime_unique. rewrite Day_MakeDate by assumption.
    rewrite DayFromYear_step, HD. lia. }
  split; [assumption|].
  assert (InLeapYear (MakeDate (MakeDay y m d) t) = l) as HL.
  { unfold InLeapYear. rewrite HY, Hy.
    destruct (Z.eqb_spec (365 + l) 366); lia. }
  assert (MonthFromTime (MakeDate (MakeDay y m d) t) = m) as HM.
  { unfold MonthFromTime, DayWithinYear. rewrite HL, HY, Day_MakeDate, HD by assumption.
    repeat destruct Hcases as [-> | Hcases]; try subst m;
      unfold daysBeforeMonth in *; simpl in *;
      repeat match goal with
             | |- context [if ?a <? ?b then _ else _] => destruct (Z.ltb_spec a b); try lia
             end. }
  split; [assumption|].
  unfold DateFromTime, DayWithinYear. rewrite HM, HL, HY, Day_MakeDate, HD by assumption.
  lia.
Qed.

End Civil.

(** ** The week filter west of UTC *)

(** C5, at a device west of UTC.  It is Wednesday 2024-06-12 there, day 3 of
    a week whose day 0 is Sunday 2024-06-09: the week of the claim runs from
    2024-06-09 to 2024-06-15.  The start of the week is local midnight of
    that Sunday, 05:00 UTC.  The date 2024-06-09 parses to midnight UTC,
    five hours before it, so [isInCurrentWeek] leaves the record of the
    opening Sunday out, and keeps the record dated 2024-06-16, the Sunday
    after the week.  On a device on UTC the same list gives the week of the
    claim.  On a device in the Azores in the week whose Sunday the clocks
    went forward, the local midnight that opens the week does not exist: the
    week of [isInCurrentWeek] runs from 01:00 UTC of Sunday 2024-03-31 to
    01:00 UTC of Sunday 2024-04-07, and again the opening Sunday is left out
    and the Sunday after is kept, although the device is on UTC that
    Wednesday. *)
Theorem week_filter_west_of_UTC :
  (getFullYear (clockWestAt 2024 6 12) (now (clockWestAt 2024 6 12)),
   getMonth (clockWestAt 2024 6 12) (now (clockWestAt 2024 6 12)),
   getDate (clockWestAt 2024 6 12) (now (clockWestAt 2024 6 12)),
   getDay (clockWestAt 2024 6 12) (now (clockWestAt 2024 6 12))) = (2024, 5, 12, 3)
  /\ startOfWeek (clockWestAt 2024 6 12)
     = MakeDate (MakeDay 2024 5 9) (MakeTime 5 0 0 0)
  /\ (getDate (clockWestAt 2024 6 12) (startOfWeek (clockWestAt 2024 6 12)),
      getDay (clockWestAt 2024 6 12) (startOfWeek (clockWestAt 2024 6 12))) = (9, 0)
  /\ Date_parse (clockWestAt 2024 6 12) "2024-06-09" = Some (MakeDate (MakeDay 2024 5 9) 0)
  /\ isInCurrentWeek (clockWestAt 2024 6 12) "2024-06-09" = false
  /\ isInCurrentWeek (clockWestAt 2024 6 12) "2024-06-16" = true
  /\ filteredExpenses (clockWestAt 2024 6 12)
       [dated 4 "2024-06-16"; dated 3 "2024-06-15"; dated 2 "2024-06-09";
        dated 1 "2024-06-08"] "WEEK"
     = [dated 4 "2024-06-16"; dated 3 "2024-06-15"]
  /\ filteredExpenses (clockAt 2024 6 12)
       [dated 4 "2024-06-16"; dated 3 "2024-06-15"; dated 2 "2024-06-09";
        dated 1 "2024-06-08"] "WEEK"
     = [dated 3 "2024-06-15"; dated 2 "2024-06-09"]
  /\ (getDate changeSunday (now changeSunday), getDay changeSunday (now changeSunday),
      LocalTZA changeSunday (now changeSunday) true) = (3, 3, 0)
  /\ (let h := changeSunday in
      let startOfWeek := setHours h (now h) 0 0 0 0 in
      let startOfWeek := setDate h startOfWeek (getDate h (now h) - getDay h (now h)) in
      let endOfWeek := setDate h startOfWeek (getDate h startOfWeek + 7) in
      (startOfWeek, endOfWeek)
      = (MakeDate (MakeDay 2024 2 31) (MakeTime 1 0 0 0),
         MakeDate (MakeDay 2024 3 7) (MakeTime 1 0 0 0)))
  /\ filteredExpenses changeSunday
       [dated 4 "2024-04-07"; dated 3 "2024-04-06"; dated 2 "2024-03-31";
        dated 1 "2024-03-30"] "WEEK"
     = [dated 4 "2024-04-07"; dated 3 "2024-04-06"].
Proof. repeat split; vm_compute; reflexivity. Qed.

(** ** The month filter west of UTC *)

(** C6, at a device west of UTC.  Today is 2024-06-15 there.  The date
    2024-06-01 parses to midnight UTC, which is 19:00 of 2024-05-31 on the
    device, so [isInCurrentMonth] reads May for the record and the MONTH
    filter drops it; the record dated 2024-07-01 is kept instead. *)
Theorem month_filter_west_of_UTC :
  (getFullYear westOfUTC (now westOfUTC), getMonth westOfUTC (now westOfUTC),
   getDate westOfUTC (now westOfUTC)) = (2024, 5, 15)
  /\ Date_parse westOfUTC "2024-06-01" = Some (MakeDate (MakeDay 2024 5 1) 0)
  /\ (getFullYear westOfUTC (MakeDate (MakeDay 2024 5 1) 0),
      getMonth westOfUTC (MakeDate (MakeDay 2024 5 1) 0),
      getDate westOfUTC (MakeDate (MakeDay 2024 5 1) 0)) = (2024, 4, 31)
  /\ isInCurrentMonth westOfUTC "2024-06-01" = false
  /\ isInCurrentMonth westOfUTC "2024-07-01" = true
  /\ filteredExpenses westOfUTC
       [dated 3 "2024-07-01"; dated 2 "2024-06-01"; dated 1 "2024-05-31"] "MONTH"
     = [dated 3 "2024-07-01"].
Proof. repeat split; vm_compute; reflexivity. Qed.

Section Zones.

Lemma parseDateOnly_spec (s : string) (t : Z) :
  parseDateOnly s = Some t ->
  exists y m d,
    0 <= m <= 11 /\ 1 <= d <= daysInMonth y m /\ t = MakeDate (MakeDay y m d) 0.
Proof.
  unfold parseDateOnly.
  repeat (destruct s as [|? s]; try discriminate).
  destruct (_ && _); [|discriminate].
  repeat match goal with
         | |- context [match twoDigits ?a ?b with _ => _ end] =>
             destruct (twoDigits a b); try discriminate
         end.
  match goal with |- context [if ?b then _ else _] => destruct b eqn:E end;
    [|discriminate].
  intros [= <-]. do 3 eexists. split; [|split; [|reflexivity]]; lia.
Qed.

(** Where the device is at or east of UTC, by less than a day, at midnight
    UTC of a date, local midnight is not after it: the date-only text is
    read on the device as the date it names, and the MONTH filter keeps it
    exactly when its year and month are today's. *)
Lemma month_filter_at_or_east_of_UTC (h : Host) (s : string) (y m d : Z) :
  0 <= LocalTZA h (MakeDate (MakeDay y m d) 0) true < msPerDay ->
  0 <= m <= 11 -> 1 <= d <= daysInMonth y m ->
  parseDateOnly s = Some (MakeDate (MakeDay y m d) 0) ->
  isInCurrentMonth h s = true
  <-> y = getFullYear h (now h) /\ m = getMonth h (now h).
Proof.
  intros Hz Hm Hd Hp. unfold isInCurrentMonth, Date_parse. rewrite Hp.
  unfold getFullYear at 1, getMonth at 1, LocalTime.
  set (off := LocalTZA h (MakeDate (MakeDay y m d) 0) true) in *.
  replace (MakeDate (MakeDay y m d) 0 + off)
    with (MakeDate (MakeDay y m d) off) by (unfold MakeDate; lia).
  destruct (civil_MakeDay y m d off Hm Hd Hz) as (-> & -> & _).
  rewrite andb_true_iff, !Z.eqb_eq. tauto.
Qed.

(** The week of [isInCurrentWeek] in days, on a device whose offset does
    not change around the week, for a record whose date is midnight UTC of
    day [n]: at or east of UTC it is the seven days from Sunday; west of UTC
    it is the seven days from Monday. *)
Lemma week_interval_in_days (h : Host) (off n : Z) :
  steady h off -> - msPerDay < off < msPerDay ->
  let sunday := Day (LocalTime h (now h)) - WeekDay (LocalTime h (now h)) in
  (0 <= off ->
   startOfWeek h <= MakeDate n 0 < startOfWeek h + 7 * msPerDay
   <-> sunday <= n < sunday + 7)
  /\ (off < 0 ->
      startOfWeek h <= MakeDate n 0 < startOfWeek h + 7 * msPerDay
      <-> sunday + 1 <= n < sunday + 8).
Proof.
  intros Hs Hoff. destruct (startOfWeek_steady h off Hs Hoff) as [-> ->].
  intros sunday. subst sunday. unfold MakeDate, msPerDay in *. split; intros Hz; lia.
Qed.

End Zones.

(** ** Numbers: the sign of a sum *)

Section Sign.

Lemma shr_1_nonneg (mrs : shr_record) : 0 <= shr_m mrs -> 0 <= shr_m (shr_1 mrs).
Proof.
  destruct mrs as [m r s]. simpl.
  destruct m as [|p|p]; [| destruct p | ]; simpl; lia.
Qed.

Lemma iter_shr_1_nonneg (p : positive) (mrs : shr_record) :
  0 <= shr_m mrs -> 0 <= shr_m (SpecFloat.iter_pos shr_1 p mrs).
Proof.
  revert mrs. induction p as [p IH|p IH|]; intros mrs H; simpl.
  - apply IH, IH, shr_1_nonneg, H.
  - apply IH, IH, H.
  - apply shr_1_nonneg, H.
Qed.

Lemma shr_fexp_nonneg (m e : Z) (l : location) :
  0 <= m -> 0 <= shr_m (fst (shr_fexp prec emax m e l)).
Proof.
  intros H. unfold shr_fexp, shr.
  assert (0 <= shr_m (shr_record_of_loc m l)) as H0.
  { destruct l as [|[]]; simpl; assumption. }
  destruct (_ - e) as [|p|p]; simpl; try assumption.
  now apply iter_shr_1_nonneg.
Qed.

Lemma round_nearest_even_nonneg (m : Z) (l : location) :
  0 <= m -> 0 <= round_nearest_even m l.
Proof.
  intros H. destruct l as [|[]]; simpl; try lia.
  destruct (Z.even m); lia.
Qed.

Lemma binary_round_aux_signed (s : bool) (m e : Z) (l : location) :
  0 <= m -> signed s (binary_round_aux prec emax s m e l).
Proof.
  intros H. unfold binary_round_aux.
  pose proof (shr_fexp_nonneg m e l H) as H1.
  destruct (shr_fexp prec emax m e l) as [mrs' e'] eqn:E1. simpl in H1.
  pose proof (shr_fexp_nonneg _ e' loc_Exact
                (round_nearest_even_nonneg _ (loc_of_shr_record mrs') H1)) as H2.
  destruct (shr_fexp prec emax (round_nearest_even _ _) e' loc_Exact) as [mrs'' e''].
  simpl in H2.
  destruct (shr_m mrs'') as [|p|p]; simpl; [reflexivity | | lia].
  destruct (e'' <=? _); reflexivity.
Qed.

Lemma binary_round_signed (s : bool) (m : positive) (e : Z) :
  signed s (binary_round prec emax s m e).
Proof.
  unfold binary_round.
  destruct (shl_align m e _) as [mz ez].
  apply binary_round_aux_signed. lia.
Qed.

Lemma nonneg_signed (x : number) : nonneg x = true <-> signed false x.
Proof. destruct x as [[]|[]| |[] m e]; simpl; split; congruence || tauto. Qed.

Lemma add_nonneg (x y : number) :
  nonneg x = true -> nonneg y = true -> nonneg (add x y) = true.
Proof.
  destruct x as [[]|[]| |[] mx ex]; try discriminate;
    destruct y as [[]|[]| |[] my ey]; try discriminate; intros _ _; try reflexivity.
  unfold add, SFadd. simpl cond_Zopp.
  apply nonneg_signed.
  unfold binary_normalize.
  destruct (_ + _) as [|p|p] eqn:E; [reflexivity | apply binary_round_signed | lia].
Qed.

Lemma truthy_or_zero (n : number) :
  nonneg n = true -> (if truthy n then n else zero) = n.
Proof. destruct n as [[]|[]| |[] m e]; try discriminate; reflexivity. Qed.

End Sign.

(** ** The total *)

Lemma fold_left_snoc {A B} (f : A -> B -> A) (l : list B) (x : B) (a : A) :
  fold_left f (l ++ [x]) a = f (fold_left f l a) x.
Proof. now rewrite fold_left_app. Qed.

(** C3, as stated, fails: the text [abc] is not numeric, and a record whose
    amount is that text does not contribute 0; it turns the total into NaN. *)
Lemma totalSpending_non_numeric_text :
  ~ (forall (rs : list Expense.t) (e : Expense.t),
        missing (Expense.amount e) \/ nonNumeric (Expense.amount e) ->
        totalSpending (rs ++ [e]) = add (totalSpending rs) zero).
Proof.
  intros H.
  specialize (H [] (spent (Some "Food") (JStr "abc"))).
  assert (nonNumeric (Expense.amount (spent (Some "Food") (JStr "abc")))) as Hn
      by reflexivity.
  specialize (H (or_intror Hn)). vm_compute in H. discriminate.
Qed.

(** C3, amended.  [totalSpending] adds the amounts of the records from left
    to right, starting from 0.  An amount that is missing, the empty text,
    a zero or NaN contributes 0; another Number contributes itself; a text
    that is not empty contributes [Number] of the text, which is NaN when
    the text is not numeric.  The total of no record is 0 and the total of
    10 and 5.5 is 15.5. *)
Theorem totalSpending_sums_amounts :
  totalSpending [] = zero
  /\ (forall (rs : list Expense.t) (e : Expense.t),
         totalSpending (rs ++ [e]) = add (totalSpending rs) (amountOf e))
  /\ (forall e : Expense.t,
         missing (Expense.amount e)
         \/ Expense.amount e = JStr ""
         \/ (exists s, Expense.amount e = JNum (S754_zero s))
         \/ Expense.amount e = JNum NaN ->
         amountOf e = zero)
  /\ (forall (e : Expense.t) (n : number),
         Expense.amount e = JNum n -> truthy n = true -> amountOf e = n)
  /\ (forall (e : Expense.t) (s : string),
         Expense.amount e = JStr s -> s <> "" -> amountOf e = StringToNumber s)
  /\ totalSpending [spent (Some "Food") (JNum (parseFloat "10"));
                    spent (Some "Books") (JNum (parseFloat "5.5"))]
     = parseFloat "15.5".
Proof.
  split; [reflexivity|]. split; [|split; [|split; [|split; [|vm_compute; reflexivity]]]].
  - intros rs e. unfold totalSpending.
    exact (fold_left_snoc (fun sum e => add sum (amountOf e)) rs e zero).
  - unfold amountOf. intros e [[H|H]|[H|[[s H]|H]]]; rewrite H; reflexivity.
  - unfold amountOf. intros e n H Ht. rewrite H. simpl. now rewrite Ht.
  - unfold amountOf. intros e s H Hs. rewrite H. simpl.
    destruct (String.eqb_spec s ""); [contradiction | reflexivity].
Qed.

Lemma totalSpending_witness :
  amountOf (spent (Some "Food") (JNum (parseFloat "12.50"))) = parseFloat "12.50".
Proof.
  apply (proj1 (proj2 (proj2 (proj2 totalSpending_sums_amounts)))
           (spent (Some "Food") (JNum (parseFloat "12.50"))) (parseFloat "12.50")).
  - reflexivity.
  - vm_compute. reflexivity.
Defined.

(** ** Totals by category *)

Section Objects.

Local Arguments add : simpl never.

Lemma own_define_eq (o : object) (k : string) (v : slot) : own (define o k v) k = Some v.
Proof.
  induction o as [|[k' v'] o IH]; simpl.
  - now rewrite String.eqb_refl.
  - destruct (String.eqb_spec k k') as [->|Hne]; simpl.
    + now rewrite String.eqb_refl.
    + destruct (String.eqb_spec k k'); [contradiction | assumption].
Qed.

Lemma own_define_ne (o : object) (k k' : string) (v : slot) :
  k <> k' -> own (define o k v) k' = own o k'.
Proof.
  intros Hne. induction o as [|[k0 v0] o IH]; simpl.
  - destruct (String.eqb_spec k' k); [congruence | reflexivity].
  - destruct (String.eqb_spec k k0) as [->|H0]; simpl.
    + destruct (String.eqb_spec k' k0); [congruence | reflexivity].
    + destruct (String.eqb_spec k' k0); [reflexivity | assumption].
Qed.

Lemma own_mem (o : object) (k : string) :
  mem k (map fst o) = match own o k with Some _ => true | None => false end.
Proof.
  induction o as [|[k' v'] o IH]; simpl; [reflexivity|].
  destruct (String.eqb k k'); [reflexivity | assumption].
Qed.

Lemma keys_define (o : object) (k : string) (v : slot) :
  map fst (define o k v)
  = if mem k (map fst o) then map fst o else map fst o ++ [k].
Proof.
  induction o as [|[k' v'] o IH]; simpl; [reflexivity|].
  destruct (String.eqb_spec k k') as [->|Hne]; simpl; [reflexivity|].
  rewrite IH. unfold mem. now destruct (existsb _ _).
Qed.

Lemma inherited_proto (c : string) : inherited c = false -> String.eqb c "__proto__" = false.
Proof.
  intros H. destruct (String.eqb_spec c "__proto__") as [->|]; [discriminate | reflexivity].
Qed.

Lemma own_step_same (o : object) (e : Expense.t) :
  inherited (categoryOf e) = false ->
  own (step o e) (categoryOf e) = accOpt (own o (categoryOf e)) e.
Proof.
  intros H. unfold step, Set_, Get, accOpt.
  rewrite (inherited_proto _ H), own_define_eq, H.
  now destruct (own o (categoryOf e)).
Qed.

Lemma own_step_other (o : object) (e : Expense.t) (c : string) :
  categoryOf e <> c -> own (step o e) c = own o c.
Proof.
  intros H. unfold step, Set_.
  destruct (String.eqb (categoryOf e) "__proto__"); [reflexivity|].
  now apply own_define_ne.
Qed.

Lemma own_totals (c : string) (rs : list Expense.t) (o : object) :
  inherited c = false ->
  own (fold_left step rs o) c = fold_left accOpt (bearing c rs) (own o c).
Proof.
  intros Hc. revert o. induction rs as [|e rs IH]; intros o; simpl; [reflexivity|].
  rewrite IH. destruct (String.eqb_spec (categoryOf e) c) as [<-|Hne]; simpl.
  - now rewrite own_step_same.
  - now rewrite own_step_other.
Qed.

Lemma accOpt_sum (l : list Expense.t) (n : number) :
  Forall (fun e => nonneg (amountOf e) = true) l ->
  nonneg n = true ->
  fold_left accOpt l (Some (SNum n))
  = Some (SNum (fold_left (fun sum e => add sum (amountOf e)) l n)).
Proof.
  intros Hl. revert n. induction Hl as [|e l He Hl IH]; intros n Hn; simpl; [reflexivity|].
  unfold accOpt at 2. simpl. rewrite (truthy_or_zero n Hn).
  apply IH. now apply add_nonneg.
Qed.

Lemma accOpt_total (l : list Expense.t) :
  Forall (fun e => nonneg (amountOf e) = true) l ->
  fold_left accOpt l None
  = match l with [] => None | _ => Some (SNum (totalSpending l)) end.
Proof.
  intros Hl. destruct Hl as [|e l He Hl]; [reflexivity|]. simpl.
  unfold accOpt at 2. simpl.
  apply accOpt_sum; [assumption|]. now apply add_nonneg.
Qed.

Lemma mem_app (k : string) (l1 l2 : list string) : mem k (l1 ++ l2) = mem k l1 || mem k l2.
Proof. unfold mem. apply existsb_app. Qed.

Lemma filter_compose {A} (p q : A -> bool) (l : list A) :
  List.filter p (List.filter q l) = List.filter (fun x => p x && q x) l.
Proof.
  induction l as [|x l IH]; simpl; [reflexivity|].
  destruct (q x) eqn:Eq; simpl; rewrite ?andb_true_r, ?andb_false_r.
  - destruct (p x); simpl; now rewrite IH.
  - assumption.
Qed.

Lemma keys_step (o : object) (e : Expense.t) :
  inherited (categoryOf e) = false ->
  map fst (step o e)
  = if mem (categoryOf e) (map fst o) then map fst o else map fst o ++ [categoryOf e].
Proof.
  intros H. unfold step, Set_. rewrite (inherited_proto _ H). apply keys_define.
Qed.

Lemma keys_fold (rs : list Expense.t) (o : object) :
  Forall (fun e => inherited (categoryOf e) = false) rs ->
  map fst (fold_left step rs o)
  = map fst o
    ++ List.filter (fun k => negb (mem k (map fst o))) (firstSeen (map categoryOf rs)).
Proof.
  intros Hrs. revert o. induction Hrs as [|e rs He Hrs IH]; intros o; simpl.
  - now rewrite app_nil_r.
  - rewrite IH, (keys_step o e He), filter_compose.
    destruct (mem (categoryOf e) (map fst o)) eqn:Em; simpl.
    + f_equal. apply filter_ext_in. intros k _.
      destruct (String.eqb_spec k (categoryOf e)) as [->|]; simpl.
      * now rewrite Em.
      * now rewrite andb_true_r.
    + rewrite <- app_assoc. simpl. do 2 f_equal. apply filter_ext. intros k.
      rewrite mem_app. simpl. rewrite orb_false_r, negb_orb. reflexivity.
Qed.

Lemma firstSeen_keys (rs : list Expense.t) :
  Forall (fun e => inherited (categoryOf e) = false) rs ->
  map fst (totalsByCategory rs) = firstSeen (map categoryOf rs).
Proof.
  intros H. unfold totalsByCategory.
  change (map fst (fold_left step rs []) = firstSeen (map categoryOf rs)).
  rewrite (keys_fold rs [] H). simpl.
  induction (firstSeen _) as [|x l IH]; simpl; congruence.
Qed.

Lemma firstSeen_NoDup (l : list string) : List.NoDup (firstSeen l).
Proof.
  induction l as [|x l IH]; simpl; constructor.
  - rewrite filter_In. intros [_ H]. now rewrite String.eqb_refl in H.
  - now apply List.NoDup_filter.
Qed.

Lemma firstSeen_In (l : list string) (k : string) : In k (firstSeen l) <-> In k l.
Proof.
  induction l as [|x l IH]; simpl; [tauto|].
  rewrite filter_In, IH.
  destruct (String.eqb_spec k x) as [->|Hne]; simpl; [tauto|].
  split; [tauto|]. intros [H|H]; [congruence | tauto].
Qed.

Lemma own_In (o : object) (k : string) (v : slot) :
  List.NoDup (map fst o) -> In (k, v) o <-> own o k = Some v.
Proof.
  induction o as [|[k' v'] o IH]; simpl; intros Hnd.
  - split; [tauto | discriminate].
  - inversion Hnd as [|? ? Hk' Hnd']; subst.
    destruct (String.eqb_spec k k') as [->|Hne].
    + split.
      * intros [[= ->]|Hin]; [reflexivity|].
        exfalso. apply Hk'. apply (in_map fst) in Hin. exact Hin.
      * intros [= ->]. now left.
    + rewrite <- (IH Hnd'). split; [|tauto].
      intros [[= ? ?]|H]; [congruence | assumption].
Qed.

Lemma indexed_filter (o : object) :
  map snd (omap indexed o) = List.filter (fun p => isIndex (fst p)) o.
Proof.
  induction o as [|p o IH]; simpl; [reflexivity|].
  unfold indexed at 1, isIndex at 1.
  destruct (arrayIndex (fst p)); simpl; [f_equal|]; exact IH.
Qed.

Lemma indexed_Forall (o : object) :
  Forall (fun x => arrayIndex (fst (snd x)) = Some (fst x)) (omap indexed o).
Proof.
  induction o as [|p o IH]; simpl; [constructor|].
  unfold indexed at 1.
  destruct (arrayIndex (fst p)) eqn:E; [constructor|]; assumption.
Qed.

Lemma filter_split {A} (p : A -> bool) (l : list A) :
  Permutation (List.filter p l ++ List.filter (fun x => negb (p x)) l) l.
Proof.
  induction l as [|x l IH]; simpl; [constructor|].
  destruct (p x); simpl.
  - now constructor.
  - rewrite <- Permutation_middle. now constructor.
Qed.

#[local] Instance indexLe_trans : Transitive indexLe.
Proof. intros a b c. unfold indexLe. lia. Qed.

#[local] Instance indexLe_total : Total indexLe.
Proof. intros a b. unfold indexLe. lia. Qed.

Lemma Object_entries_Permutation (o : object) : Permutation (Object_entries o) o.
Proof.
  unfold Object_entries.
  rewrite <- (filter_split (fun p => isIndex (fst p)) o) at 3.
  apply Permutation_app.
  - rewrite <- indexed_filter. apply Permutation_map, merge_sort_Permutation.
  - erewrite filter_ext; [reflexivity|]. intros p. unfold isIndex.
    now destruct (arrayIndex (fst p)).
Qed.

Lemma sorted_indices (l : list (Z * (string * slot))) :
  StronglySorted indexLe l ->
  Forall (fun x => arrayIndex (fst (snd x)) = Some (fst x)) l ->
  StronglySorted indexOrder (map (fun x => fst (snd x)) l).
Proof.
  induction 1 as [|x l Hs IH Hx]; intros Hf; simpl; constructor.
  - apply IH. now inversion Hf.
  - inversion Hf as [|? ? Hx0 Hl]; subst.
    apply Forall_forall. intros k Hk.
    apply list_elem_of_In, in_map_iff in Hk as [y [<- Hy]].
    apply list_elem_of_In in Hy.
    exists (fst x), (fst y). split; [assumption|]. split.
    + eapply Forall_forall in Hl; eauto.
    + eapply Forall_forall in Hx; eauto.
Qed.

(** The names of the entries of an object: the names that are array
    indices by ascending index, then the other names in the order of their
    creation. *)
Lemma Object_entries_keys (o : object) :
  exists idx,
    map fst (Object_entries o)
    = idx ++ List.filter (fun k => negb (isIndex k)) (map fst o)
    /\ Permutation idx (List.filter isIndex (map fst o))
    /\ StronglySorted indexOrder idx.
Proof.
  exists (map (fun x => fst (snd x)) (merge_sort indexLe (omap indexed o))).
  split; [|split].
  - unfold Object_entries. rewrite map_app, map_map. f_equal.
    induction o as [|p o IH]; simpl; [reflexivity|].
    unfold isIndex at 1. destruct (arrayIndex (fst p)); simpl; now rewrite IH.
  - rewrite merge_sort_Permutation, <- map_map, indexed_filter.
    induction o as [|p o IH]; simpl; [constructor|].
    destruct (isIndex (fst p)); simpl; [now constructor | assumption].
  - apply sorted_indices.
    + apply StronglySorted_merge_sort; apply _.
    + rewrite merge_sort_Permutation. apply indexed_Forall.
Qed.

End Objects.

Section Totals.

Lemma totalsByCategory_fold (rs : list Expense.t) :
  totalsByCategory rs = fold_left step rs [].
Proof. reflexivity. Qed.

Lemma own_totals_absent (c : string) (rs : list Expense.t) (o : object) :
  bearing c rs = [] -> own (fold_left step rs o) c = own o c.
Proof.
  revert o. induction rs as [|e rs IH]; intros o; simpl; [reflexivity|].
  destruct (String.eqb_spec (categoryOf e) c) as [|Hne]; [discriminate|].
  intros H. rewrite (IH _ H). now apply own_step_other.
Qed.

Lemma bearing_Forall {P : Expense.t -> Prop} (c : string) (rs : list Expense.t) :
  Forall P rs -> Forall P (bearing c rs).
Proof.
  intros H. apply Forall_forall. intros e He.
  apply list_elem_of_In, filter_In in He as [He _].
  eapply Forall_forall in H; eauto. now apply list_elem_of_In.
Qed.

Lemma bearing_inherited (c : string) (rs : list Expense.t) :
  Forall (fun e => inherited (categoryOf e) = false) rs ->
  inherited c = true -> bearing c rs = [].
Proof.
  intros H Hc. induction H as [|e rs He H IH]; simpl; [reflexivity|].
  destruct (String.eqb_spec (categoryOf e) c) as [Heq|]; [congruence | assumption].
Qed.

End Totals.

(** C4, as stated, fails on the order of the entries: a label that is the
    text of an array index comes before the labels that are not, whatever
    came first. *)
Lemma totalsByCategory_index_first :
  ~ (forall rs : list Expense.t,
        map fst (Object_entries (totalsByCategory rs)) = firstSeen (map categoryOf rs)).
Proof.
  intros H.
  specialize (H [spent (Some "Food") (JNum (ofZ 3)); spent (Some "7") (JNum (ofZ 2))]).
  vm_compute in H. discriminate.
Qed.

(** C4, amended.  The entry of a label is made of the records that bear
    it, in their order, and of nothing else.  For records whose labels are
    not names of members of [Object.prototype], [totalsByCategory] has an
    entry for a label exactly when a record bears it, and its entries come
    with the labels that are array indices first, by ascending index, then
    the other labels in the order of their first appearance; when the
    amounts count as Numbers that are not negative, the entry of a label
    holds the total of the records that bear it.  A record with no category
    or an empty one bears [Uncategorized].  Two Food records of 3 and 2 give
    the one entry Food: 5. *)
Theorem totalsByCategory_groups :
  (forall (rs : list Expense.t) (c : string),
      inherited c = false ->
      own (totalsByCategory rs) c = fold_left accOpt (bearing c rs) None)
  /\ (forall rs : list Expense.t,
         Forall (fun e => inherited (categoryOf e) = false) rs ->
         (forall c : string,
             own (totalsByCategory rs) c <> None <-> In c (map categoryOf rs))
         /\ (forall (c : string) (v : slot),
                In (c, v) (Object_entries (totalsByCategory rs))
                <-> own (totalsByCategory rs) c = Some v)
         /\ exists idx : list string,
             map fst (Object_entries (totalsByCategory rs))
             = idx ++ List.filter (fun k => negb (isIndex k)) (firstSeen (map categoryOf rs))
             /\ Permutation idx (List.filter isIndex (firstSeen (map categoryOf rs)))
             /\ StronglySorted indexOrder idx)
  /\ (forall rs : list Expense.t,
         Forall (fun e => inherited (categoryOf e) = false) rs ->
         Forall (fun e => nonneg (amountOf e) = true) rs ->
         forall c : string,
           own (totalsByCategory rs) c
           = match bearing c rs with
             | [] => None
             | l => Some (SNum (totalSpending l))
             end)
  /\ (forall e : Expense.t,
         Expense.category e = None \/ Expense.category e = Some "" ->
         categoryOf e = "Uncategorized")
  /\ (forall (e : Expense.t) (c : string),
         Expense.category e = Some c -> c <> "" -> categoryOf e = c)
  /\ Object_entries
       (totalsByCategory [spent (Some "Food") (JNum (ofZ 3));
                          spent (Some "Food") (JNum (ofZ 2))])
     = [("Food", SNum (ofZ 5))]
  /\ Object_entries
       (totalsByCategory [spent None (JNum (ofZ 1)); spent (Some "") (JNum (ofZ 2))])
     = [("Uncategorized", SNum (ofZ 3))].
Proof.
  split; [|split; [|split; [|split; [|split; [|split]]]]].
  - intros rs c Hc. rewrite totalsByCategory_fold. now rewrite (own_totals c rs [] Hc).
  - intros rs H1. split; [|split].
    + intros c. rewrite <- firstSeen_In, <- (firstSeen_keys rs H1).
      pose proof (own_mem (totalsByCategory rs) c) as Hm. unfold mem in Hm.
      destruct (own (totalsByCategory rs) c) eqn:E.
      * split; [intros _ | discriminate].
        apply existsb_exists in Hm as [k [Hk Heq]].
        apply String.eqb_eq in Heq. now subst.
      * split; [congruence|]. intros Hin. exfalso.
        assert (existsb (String.eqb c) (map fst (totalsByCategory rs)) = true) as Ht.
        { apply existsb_exists. exists c. split; [assumption | apply String.eqb_refl]. }
        congruence.
    + intros c v. rewrite <- own_In.
      * split; apply Permutation_in; [|symmetry]; apply Object_entries_Permutation.
      * rewrite (firstSeen_keys rs H1). apply firstSeen_NoDup.
    + rewrite <- (firstSeen_keys rs H1). apply Object_entries_keys.
  - intros rs H1 H2 c. rewrite totalsByCategory_fold.
    destruct (inherited c) eqn:Ec.
    + rewrite (bearing_inherited c rs H1 Ec). now apply own_totals_absent, bearing_inherited.
    + rewrite (own_totals c rs [] Ec). simpl.
      rewrite accOpt_total by now apply bearing_Forall.
      now destruct (bearing c rs).
  - intros e [H|H]; unfold categoryOf; now rewrite H.
  - intros e c H Hc. unfold categoryOf. rewrite H.
    destruct (String.eqb_spec c ""); [contradiction | reflexivity].
  - vm_compute. reflexivity.
  - vm_compute. reflexivity.
Qed.

Lemma totalsByCategory_witness :
  own (totalsByCategory [spent (Some "Food") (JNum (ofZ 3));
                         spent (Some "7") (JNum (ofZ 2));
                         spent (Some "Food") (JNum (ofZ 2))]) "Food"
  = match bearing "Food" [spent (Some "Food") (JNum (ofZ 3));
                          spent (Some "7") (JNum (ofZ 2));
                          spent (Some "Food") (JNum (ofZ 2))] with
    | [] => None
    | l => Some (SNum (totalSpending l))
    end.
Proof.
  apply (proj1 (proj2 (proj2 totalsByCategory_groups))
           [spent (Some "Food") (JNum (ofZ 3));
            spent (Some "7") (JNum (ofZ 2));
            spent (Some "Food") (JNum (ofZ 2))]
           ltac:(repeat constructor) ltac:(repeat constructor)).
Defined.

(** What the amended C4 leaves out.  A label that names a member of
    [Object.prototype] gets a text, not a total, and the label [__proto__]
    gets no entry at all; and a total that has become NaN starts again from
    0 at the next record of its label, while [totalSpending] stays NaN. *)
Lemma labels_and_amounts_left_out :
  totalsByCategory [spent (Some "constructor") (JNum (ofZ 5))] = [("constructor", SText)]
  /\ totalsByCategory [spent (Some "__proto__") (JNum (ofZ 5))] = []
  /\ totalsByCategory [spent (Some "Food") (JStr "abc"); spent (Some "Food") (JNum (ofZ 1))]
     = [("Food", SNum (ofZ 1))]
  /\ totalSpending [spent (Some "Food") (JStr "abc"); spent (Some "Food") (JNum (ofZ 1))]
     = NaN.
Proof. repeat split; vm_compute; reflexivity. Qed.

(** ** The highest total *)

Section Order.

Lemma le_refl_nonneg (x : number) : nonneg x = true -> le x x = true.
Proof.
  destruct x as [[]|[]| |[] m e]; try discriminate; intros _; try reflexivity.
  unfold le, SFleb, SFcompare. rewrite Z.compare_refl.
  change (Pos.compare_cont Eq m m) with (Pos.compare m m).
  now rewrite Pos.compare_refl.
Qed.

Lemma le_trans_nonneg (x y z : number) :
  nonneg x = true -> nonneg y = true -> nonneg z = true ->
  le x y = true -> le y z = true -> le x z = true.
Proof.
  destruct x as [[]|[]| |[] mx ex]; try discriminate;
    destruct y as [[]|[]| |[] my ey]; try discriminate;
    destruct z as [[]|[]| |[] mz ez]; try discriminate;
    intros _ _ _; try reflexivity; try discriminate.
  unfold le, SFleb, SFcompare.
  change (Pos.compare_cont Eq ?a ?b) with (Pos.compare a b).
  destruct (Z.compare_spec ex ey), (Z.compare_spec ey ez), (Z.compare_spec ex ez);
    try lia; try discriminate; try reflexivity.
  destruct (Pos.compare_spec mx my), (Pos.compare_spec my mz), (Pos.compare_spec mx mz);
    try lia; try discriminate; reflexivity.
Qed.

Lemma not_gt_le_nonneg (x y : number) :
  nonneg x = true -> nonneg y = true -> gt x y = false -> le x y = true.
Proof.
  destruct x as [[]|[]| |[] mx ex]; try discriminate;
    destruct y as [[]|[]| |[] my ey]; try discriminate;
    intros _ _; try reflexivity; try discriminate.
  unfold gt, le, SFltb, SFleb, SFcompare.
  change (Pos.compare_cont Eq ?a ?b) with (Pos.compare a b).
  destruct (Z.compare_spec ex ey), (Z.compare_spec ey ex); try lia; try discriminate; try reflexivity.
  destruct (Pos.compare_spec mx my), (Pos.compare_spec my mx); try lia; try discriminate; reflexivity.
Qed.

Lemma gt_le_nonneg (x y : number) :
  nonneg x = true -> nonneg y = true -> gt x y = true -> le y x = true.
Proof.
  unfold gt, le, SFltb, SFleb. intros _ _. now destruct (SFcompare y x) as [[]|].
Qed.

(** [higher] keeps the higher of two Numbers that are not negative. *)
Lemma higher_nonneg (h n : number) :
  nonneg h = true -> nonneg n = true ->
  (higher h n = h \/ higher h n = n)
  /\ le h (higher h n) = true /\ le n (higher h n) = true.
Proof.
  intros Hh Hn.
  assert (higher h n = if gt n h then n else h) as ->.
  { unfold higher. destruct n as [[]|[]| |[] mn en]; try discriminate;
      destruct h as [[]|[]| |[] mh eh]; try discriminate; reflexivity. }
  destruct (gt n h) eqn:E.
  - split; [now right|]. split; [now apply gt_le_nonneg | now apply le_refl_nonneg].
  - split; [now left|]. split; [now apply le_refl_nonneg | now apply not_gt_le_nonneg].
Qed.

Lemma fold_higher_nonneg (l : list number) (h : number) :
  Forall (fun x => nonneg x = true) l -> nonneg h = true ->
  nonneg (fold_left higher l h) = true
  /\ (fold_left higher l h = h \/ In (fold_left higher l h) l)
  /\ le h (fold_left higher l h) = true
  /\ Forall (fun x => le x (fold_left higher l h) = true) l.
Proof.
  intros Hl. revert h. induction Hl as [|x l Hx Hl IH]; intros h Hh; simpl.
  - repeat split; auto. now apply le_refl_nonneg.
  - destruct (higher_nonneg h x Hh Hx) as (Hor & Hle1 & Hle2).
    assert (nonneg (higher h x) = true) as Hhx by (destruct Hor as [-> | ->]; assumption).
    destruct (IH _ Hhx) as (Hnn & Hin & Hle & Hall).
    split; [assumption|]. split; [|split].
    + destruct Hin as [->|Hin]; [|right; right; exact Hin].
      destruct Hor as [-> | ->]; [left | right; left]; reflexivity.
    + apply (le_trans_nonneg h (higher h x) _); assumption.
    + constructor; [|assumption].
      apply (le_trans_nonneg x (higher h x) _); assumption.
Qed.

Lemma existsb_isNaN_nonneg (l : list number) :
  Forall (fun x => nonneg x = true) l -> existsb isNaN l = false.
Proof.
  induction 1 as [|x l Hx Hl IH]; simpl; [reflexivity|].
  rewrite IH. now destruct x.
Qed.

(** [Math.max] of Numbers that are not negative, at least one: it is one of
    them and none is above it. *)
Lemma Math_max_nonneg (l : list number) :
  l <> [] ->
  Forall (fun x => nonneg x = true) l ->
  nonneg (Math_max l) = true
  /\ In (Math_max l) l
  /\ Forall (fun x => le x (Math_max l) = true) l.
Proof.
  intros Hne Hl. unfold Math_max. rewrite (existsb_isNaN_nonneg l Hl).
  destruct Hl as [|x l Hx Hl]; [contradiction|]. simpl.
  assert (higher (S754_infinity true) x = x) as ->.
  { destruct x as [[]|[]| |[] m e]; try discriminate; reflexivity. }
  destruct (fold_higher_nonneg l x Hl Hx) as (Hnn & Hin & Hle & Hall).
  split; [assumption|]. split.
  - destruct Hin as [->|Hin]; [now left | now right].
  - now constructor.
Qed.

End Order.

(** ** The chart *)

Section Chart.

Lemma plain_amounts (t : object) :
  plainTotals t -> Forall (fun x => nonneg x = true) (amountsOf (chartData t)).
Proof.
  intros H. unfold amountsOf. simpl.
  apply Forall_forall. intros x Hx.
  apply list_elem_of_In, in_map_iff in Hx as [p [<- Hp]].
  apply (Permutation_in _ (Object_entries_Permutation t)) in Hp.
  eapply Forall_forall in H; [|apply list_elem_of_In; exact Hp].
  destruct H as [n [-> Hn]]. exact Hn.
Qed.

Lemma entries_nil (t : object) : Object_entries t = [] <-> t = [].
Proof.
  split; intros H.
  - apply Permutation_nil. rewrite <- H. apply Object_entries_Permutation.
  - subst. reflexivity.
Qed.

Lemma maxAmount_plain (t : object) :
  plainTotals t ->
  nonneg (maxAmount (chartData t)) = true
  /\ (t = [] -> maxAmount (chartData t) = zero)
  /\ (t <> [] ->
      In (maxAmount (chartData t)) (amountsOf (chartData t))
      /\ Forall (fun x => le x (maxAmount (chartData t)) = true) (amountsOf (chartData t))).
Proof.
  intros H. pose proof (plain_amounts t H) as Ha.
  unfold amountsOf in *. simpl in *.
  destruct (Object_entries t) as [|p es] eqn:E.
  - simpl. split; [reflexivity|]. split; [reflexivity|].
    intros Hne. exfalso. exact (Hne (proj1 (entries_nil t) E)).
  - set (l := map (fun p => slotNumber (snd p)) (p :: es)) in *.
    assert (l <> []) as Hl by discriminate.
    destruct (Math_max_nonneg l Hl Ha) as (Hnn & Hin & Hall).
    change (0 <? Z.of_nat (length l)) with true. cbv iota.
    split; [assumption|]. split; [|auto].
    intros ->. discriminate.
Qed.

Lemma barHeight_nonneg_max (c : chart) (amt : slot) :
  nonneg (maxAmount c) = true ->
  (maxAmount c = zero -> barHeight c amt = zero)
  /\ (maxAmount c <> zero ->
      barHeight c amt = mul (div (slotNumber amt) (maxAmount c)) (ofZ 120)).
Proof.
  unfold barHeight. destruct (maxAmount c) as [[]|[]| |[] m e]; try discriminate; intros _.
  - split; [reflexivity | intros H; exfalso; apply H; reflexivity].
  - split; [discriminate | reflexivity].
  - split; [discriminate | reflexivity].
Qed.

End Chart.

Section ChartOfTotals.

Lemma sum_nonneg (l : list Expense.t) (n : number) :
  Forall (fun e => nonneg (amountOf e) = true) l ->
  nonneg n = true ->
  nonneg (fold_left (fun sum e => add sum (amountOf e)) l n) = true.
Proof.
  intros Hl. revert n. induction Hl as [|e l He Hl IH]; intros n Hn; simpl; [assumption|].
  apply IH. now apply add_nonneg.
Qed.

Lemma totals_plain (rs : list Expense.t) :
  Forall (fun e => inherited (categoryOf e) = false) rs ->
  Forall (fun e => nonneg (amountOf e) = true) rs ->
  plainTotals (totalsByCategory rs).
Proof.
  intros H1 H2. apply Forall_forall. intros [c v] Hin.
  apply list_elem_of_In, own_In in Hin;
    [|rewrite (firstSeen_keys rs H1); apply firstSeen_NoDup].
  rewrite totalsByCategory_fold in Hin.
  assert (inherited c = false) as Hc.
  { destruct (inherited c) eqn:E; [|reflexivity].
    rewrite own_totals_absent in Hin by now apply bearing_inherited.
    discriminate. }
  rewrite (own_totals c rs [] Hc) in Hin. simpl in Hin.
  rewrite accOpt_total in Hin by now apply bearing_Forall.
  destruct (bearing c rs) as [|e l] eqn:E; [discriminate|].
  injection Hin as <-. eexists. split; [reflexivity|].
  apply sum_nonneg; [|reflexivity].
  rewrite <- E. now apply bearing_Forall.
Qed.

End ChartOfTotals.

(** C8, as stated, fails.  A category typed as [constructor] meets a member
    of [Object.prototype]: its total is a text, [Math.max] gives NaN, which
    is not the highest amount (5 is not below it) and is not 0, and every bar
    is 0 where amount / maxAmount * 120 is NaN.  Totals below zero, which no
    stored row gives, have a [maxAmount] below zero and bars of 0 where the
    formula gives 300 and 120. *)
Lemma chartData_of_a_prototype_label :
  ~ (forall t : object,
        t <> [] ->
        Forall (fun x => le x (maxAmount (chartData t)) = true) (amountsOf (chartData t)))
  /\ ~ (forall (t : object) (amt : slot),
          maxAmount (chartData t) <> zero ->
          barHeight (chartData t) amt
          = mul (div (slotNumber amt) (maxAmount (chartData t))) (ofZ 120))
  /\ totalsByCategory (filteredExpenses (clockAt 2024 1 1) (expenses constructorTyped) "ALL")
     = [("constructor", SText); ("Food", SNum (ofZ 5))]
  /\ maxAmount
       (chartData
          (totalsByCategory
             (filteredExpenses (clockAt 2024 1 1) (expenses constructorTyped) "ALL")))
     = NaN
  /\ map (barHeight
            (chartData
               (totalsByCategory
                  (filteredExpenses (clockAt 2024 1 1) (expenses constructorTyped) "ALL"))))
       [SText; SNum (ofZ 5)]
     = [zero; zero]
  /\ mul (div (ofZ 5) NaN) (ofZ 120) = NaN
  /\ le (ofZ 5) NaN = false
  /\ maxAmount (chartData [("A", SNum (neg (ofZ 5))); ("B", SNum (neg (ofZ 2)))])
     = neg (ofZ 2)
  /\ map (barHeight (chartData [("A", SNum (neg (ofZ 5))); ("B", SNum (neg (ofZ 2)))]))
       [SNum (neg (ofZ 5)); SNum (neg (ofZ 2))]
     = [zero; zero]
  /\ map (fun amt => mul (div amt (neg (ofZ 2))) (ofZ 120)) [neg (ofZ 5); neg (ofZ 2)]
     = [ofZ 300; ofZ 120].
Proof.
  split; [|split; [|repeat split; vm_compute; reflexivity]].
  - intros H. specialize (H [("constructor", SText); ("Food", SNum (ofZ 5))]).
    assert ([("constructor", SText); ("Food", SNum (ofZ 5))] <> ([] : object)) as Hne
        by discriminate.
    specialize (H Hne). apply Forall_forall with (x := ofZ 5) in H.
    + vm_compute in H. discriminate.
    + vm_compute. right. left.
  - intros H. specialize (H [("constructor", SText)] (SNum (ofZ 5))).
    assert (maxAmount (chartData [("constructor", SText)]) <> zero) as Hne
        by (vm_compute; discriminate).
    specialize (H Hne). vm_compute in H. discriminate.
Qed.

(** C8, amended.  The chart lists the entries of the totals in the order of
    [Object.entries], the order in which the totals themselves are shown.
    [maxAmount] is 0 when there is no entry; for totals that are Numbers
    and not negative, as the totals of valid records whose labels meet no
    member of [Object.prototype] are, it is otherwise one of the amounts,
    with no amount above it, and the height of a bar is
    amount / maxAmount * 120 unless [maxAmount] is 0.  For every mapping the
    height of a bar is that when [maxAmount] is above 0, and 0 when it is
    not: when it is 0, below 0 or NaN.  No record gives no entry and a
    maximum of 0. *)
Theorem chartData_series :
  (forall t : object, entries (chartData t) = Object_entries t)
  /\ maxAmount (chartData []) = zero
  /\ (forall (t : object) (amt : slot),
         (maxAmount (chartData t) = zero -> barHeight (chartData t) amt = zero)
         /\ (gt (maxAmount (chartData t)) zero = true ->
             barHeight (chartData t) amt
             = mul (div (slotNumber amt) (maxAmount (chartData t))) (ofZ 120))
         /\ (gt (maxAmount (chartData t)) zero = false ->
             barHeight (chartData t) amt = zero))
  /\ (forall t : object,
         plainTotals t ->
         (t <> [] ->
          In (maxAmount (chartData t)) (amountsOf (chartData t))
          /\ Forall (fun x => le x (maxAmount (chartData t)) = true)
               (amountsOf (chartData t)))
         /\ (forall amt : slot,
                maxAmount (chartData t) <> zero ->
                barHeight (chartData t) amt
                = mul (div (slotNumber amt) (maxAmount (chartData t))) (ofZ 120)))
  /\ (forall rs : list Expense.t,
         Forall (fun e => inherited (categoryOf e) = false) rs ->
         Forall (fun e => nonneg (amountOf e) = true) rs ->
         plainTotals (totalsByCategory rs))
  /\ chartData (totalsByCategory []) = {| entries := []; maxAmount := zero |}
  /\ (let c := chartData (totalsByCategory
                            [spent (Some "Food") (JNum (ofZ 3));
                             spent (Some "Books") (JNum (ofZ 1));
                             spent (Some "Food") (JNum (ofZ 2))]) in
      entries c = [("Food", SNum (ofZ 5)); ("Books", SNum (ofZ 1))]
      /\ maxAmount c = ofZ 5
      /\ map (fun p => barHeight c (snd p)) (entries c) = [ofZ 120; ofZ 24]).
Proof.
  split; [reflexivity|]. split; [reflexivity|]. split; [|split; [|split; [|split]]].
  - intros t amt. unfold barHeight. split; [|split].
    + intros ->. reflexivity.
    + intros ->. reflexivity.
    + intros ->. reflexivity.
  - intros t H. destruct (maxAmount_plain t H) as (Hnn & H0 & H1).
    split; [assumption|].
    intros amt. now apply barHeight_nonneg_max.
  - exact totals_plain.
  - reflexivity.
  - vm_compute. repeat split.
Qed.

Lemma chartData_witness :
  (totalsByCategory [spent (Some "Food") (JNum (ofZ 3))] <> [] ->
   In (maxAmount (chartData (totalsByCategory [spent (Some "Food") (JNum (ofZ 3))])))
      (amountsOf (chartData (totalsByCategory [spent (Some "Food") (JNum (ofZ 3))])))
   /\ Forall (fun x => le x (maxAmount (chartData (totalsByCategory
                                [spent (Some "Food") (JNum (ofZ 3))]))) = true)
        (amountsOf (chartData (totalsByCategory [spent (Some "Food") (JNum (ofZ 3))]))))
  /\ (forall amt : slot,
         maxAmount (chartData (totalsByCategory [spent (Some "Food") (JNum (ofZ 3))])) <> zero ->
         barHeight (chartData (totalsByCategory [spent (Some "Food") (JNum (ofZ 3))])) amt
         = mul (div (slotNumber amt)
                  (maxAmount (chartData (totalsByCategory
                                           [spent (Some "Food") (JNum (ofZ 3))]))))
             (ofZ 120)).
Proof.
  apply (proj1 (proj2 (proj2 (proj2 chartData_series)))
           (totalsByCategory [spent (Some "Food") (JNum (ofZ 3))])).
  apply (proj1 (proj2 (proj2 (proj2 (proj2 chartData_series))))
           [spent (Some "Food") (JNum (ofZ 3))]).
  - repeat constructor.
  - repeat constructor.
Defined.

(** ** Totals by category against the total *)

Section Exact.

Local Arguments add : simpl never.

Lemma exactSum_toQ (l : list number) (s : number) :
  exactSum l s -> (toQ (fold_left add l s) == toQ s + sumQ l)%Q.
Proof.
  revert s. induction l as [|a l IH]; intros s; simpl.
  - intros _. lra.
  - intros [[_ Ha] Hl]. rewrite (IH _ Hl). lra.
Qed.

Lemma fold_left_map {A B C} (f : A -> B -> A) (g : C -> B) (l : list C) (a : A) :
  fold_left f (map g l) a = fold_left (fun x c => f x (g c)) l a.
Proof. revert a. induction l as [|c l IH]; intros a; simpl; [reflexivity | apply IH]. Qed.

Lemma sumQ_Permutation (l l' : list number) : Permutation l l' -> (sumQ l == sumQ l')%Q.
Proof.
  induction 1 as [|x l l' Hp IH|x y l|l l' l'' H1 IH1 H2 IH2]; simpl; lra.
Qed.

Lemma toQ_or_zero (n : number) : (toQ (if truthy n then n else zero) == toQ n)%Q.
Proof. destruct n as [[]|[]| |[] m e]; simpl; lra. Qed.

Lemma valuesQ_define_new (o : object) (k : string) (v : slot) :
  own o k = None -> (valuesQ (define o k v) == valuesQ o + toQ (slotNumber v))%Q.
Proof.
  unfold valuesQ. induction o as [|[k' v'] o IH]; simpl.
  - intros _. lra.
  - destruct (String.eqb k k'); [discriminate|]. intros H. simpl. rewrite (IH H). lra.
Qed.

Lemma valuesQ_define_old (o : object) (k : string) (v v0 : slot) :
  own o k = Some v0 ->
  (valuesQ (define o k v) == valuesQ o - toQ (slotNumber v0) + toQ (slotNumber v))%Q.
Proof.
  unfold valuesQ. induction o as [|[k' v'] o IH]; simpl; [discriminate|].
  destruct (String.eqb k k').
  - intros [= ->]. simpl. lra.
  - intros H. simpl. rewrite (IH H). lra.
Qed.

Lemma own_step_proto (o : object) (e : Expense.t) :
  own (step o e) "__proto__" = own o "__proto__".
Proof.
  unfold step, Set_.
  destruct (String.eqb_spec (categoryOf e) "__proto__") as [|Hne]; [reflexivity|].
  now apply own_define_ne.
Qed.

Lemma exactTotals_valuesQ (rs : list Expense.t) (o : object) :
  own o "__proto__" = None ->
  exactTotals rs o ->
  (valuesQ (fold_left step rs o) == valuesQ o + sumQ (map amountOf rs))%Q.
Proof.
  revert o. induction rs as [|e rs IH]; intros o Hp; simpl.
  - intros _. lra.
  - intros [He Hrs].
    rewrite (IH _ (eq_trans (own_step_proto o e) Hp) Hrs). clear IH Hrs.
    assert (valuesQ (step o e) == valuesQ o + toQ (amountOf e))%Q as ->; [|lra].
    unfold step, Set_, Get in *.
    destruct (own o (categoryOf e)) as [[n|]|] eqn:Eo; try contradiction.
    + destruct (String.eqb_spec (categoryOf e) "__proto__") as [Hc|_].
      * rewrite Hc in Eo. congruence.
      * rewrite (valuesQ_define_old _ _ _ _ Eo). simpl.
        destruct He as [_ ->]. rewrite toQ_or_zero. lra.
    + destruct (inherited (categoryOf e)) eqn:Ei; [contradiction|].
      rewrite (inherited_proto _ Ei), (valuesQ_define_new _ _ _ Eo). simpl.
      destruct He as [_ ->]. simpl. lra.
Qed.

End Exact.

(** When none of the additions rounds, in the total, in the totals by
    category (none of whose labels then meets a member of
    [Object.prototype]) and in the sum of these, the sum of the values of
    [totalsByCategory] and [totalSpending] stand for the same real number,
    the sum of the amounts. *)
Lemma totals_add_up_when_exact (rs : list Expense.t) :
  exactSum (map amountOf rs) zero ->
  exactTotals rs [] ->
  exactSum (map (fun p => slotNumber (snd p)) (Object_entries (totalsByCategory rs))) zero ->
  (toQ (sumOfValues (totalsByCategory rs)) == toQ (totalSpending rs))%Q
  /\ (toQ (totalSpending rs) == sumQ (map amountOf rs))%Q.
Proof.
  intros H1 H2 H3.
  assert (toQ (totalSpending rs) == sumQ (map amountOf rs))%Q as Ht.
  { unfold totalSpending. rewrite <- (fold_left_map add amountOf).
    rewrite (exactSum_toQ _ _ H1). simpl. lra. }
  split; [|exact Ht]. rewrite Ht.
  unfold sumOfValues.
  rewrite <- (fold_left_map add (fun p => slotNumber (snd p))).
  rewrite (exactSum_toQ _ _ H3). simpl.
  rewrite (sumQ_Permutation _ _
             (Permutation_map (fun p => slotNumber (snd p))
                (Object_entries_Permutation (totalsByCategory rs)))).
  fold (valuesQ (totalsByCategory rs)).
  rewrite totalsByCategory_fold, (exactTotals_valuesQ rs [] eq_refl H2).
  unfold valuesQ. simpl. lra.
Qed.

(** ** Rounding of one addition *)

Section Shift.

Lemma shifted_shr_1 (M k : Z) (mrs : shr_record) :
  0 <= k -> shifted M k mrs -> shifted M (k + 1) (shr_1 mrs).
Proof.
  intros Hk. unfold shifted. rewrite Z.pow_add_r, Z.pow_1_r by lia.
  assert (0 < 2 ^ k) as HP by (apply Z.pow_pos_nonneg; lia).
  generalize dependent (2 ^ k). intros P HP.
  destruct mrs as [m r s]. simpl.
  intros (Hm & H0 & Hf & Ht & Hs).
  destruct m as [|[p|p|]|p]; try lia; simpl;
    destruct r; destruct s; simpl in *;
      repeat match goal with
             | H : ?a = ?a -> _ |- _ => specialize (H eq_refl)
             | H : true = false -> _ |- _ => clear H
             | H : false = true -> _ |- _ => clear H
             end;
      (split; [lia|]); (split; [nia|]);
      (split; [intros; try discriminate; nia|]);
      (split; [intros; try discriminate; nia|]);
      intros; try discriminate; nia.
Qed.

Lemma shifted_iter (M : Z) (p : positive) (k : Z) (mrs : shr_record) :
  0 <= k -> shifted M k mrs -> shifted M (k + Zpos p) (SpecFloat.iter_pos shr_1 p mrs).
Proof.
  revert k mrs. induction p as [p IH|p IH|]; intros k mrs Hk H; simpl.
  - replace (k + Z.pos p~1) with (k + 1 + Z.pos p + Z.pos p) by lia.
    apply IH; [lia|]. apply IH; [lia|]. now apply shifted_shr_1.
  - replace (k + Z.pos p~0) with (k + Z.pos p + Z.pos p) by lia.
    apply IH; [lia|]. now apply IH.
  - now apply shifted_shr_1.
Qed.

Lemma digits2_bounds (m : positive) :
  2 ^ (Zpos (digits2_pos m) - 1) <= Zpos m < 2 ^ Zpos (digits2_pos m).
Proof.
  induction m as [m IH|m IH|]; simpl; [| |lia].
  - rewrite Pos2Z.inj_succ.
    replace (Z.succ (Z.pos (digits2_pos m)) - 1) with (Z.succ (Z.pos (digits2_pos m) - 1)) by lia.
    rewrite !Z.pow_succ_r by lia. lia.
  - rewrite Pos2Z.inj_succ.
    replace (Z.succ (Z.pos (digits2_pos m)) - 1) with (Z.succ (Z.pos (digits2_pos m) - 1)) by lia.
    rewrite !Z.pow_succ_r by lia. lia.
Qed.

Lemma digits2_unique (m : positive) (k : Z) :
  2 ^ (k - 1) <= Zpos m < 2 ^ k -> Zpos (digits2_pos m) = k.
Proof.
  intros H. pose proof (digits2_bounds m) as Hd.
  assert (0 < k).
  { destruct (Z.ltb_spec 0 k); [assumption|].
    destruct (Z.eqb_spec k 0) as [->|]; [simpl in H; lia|].
    rewrite (Z.pow_neg_r 2 k) in H by lia. lia. }
  destruct (Z.lt_trichotomy (Zpos (digits2_pos m)) k) as [Hl|[He|Hg]]; [|assumption|].
  - assert (2 ^ Zpos (digits2_pos m) <= 2 ^ (k - 1)) by (apply Z.pow_le_mono_r; lia). lia.
  - assert (2 ^ k <= 2 ^ (Zpos (digits2_pos m) - 1)) by (apply Z.pow_le_mono_r; lia). lia.
Qed.

End Shift.

Section Round.

Lemma round_nearest_even_shifted (M k : Z) (mrs : shr_record) :
  0 <= k -> shifted M k mrs ->
  let m1 := round_nearest_even (shr_m mrs) (loc_of_shr_record mrs) in
  shr_m mrs <= m1 <= shr_m mrs + 1
  /\ 2 * Z.abs (m1 * 2 ^ k - M) <= 2 ^ k.
Proof.
  intros Hk. unfold shifted.
  assert (0 < 2 ^ k) as HP by (apply Z.pow_pos_nonneg; lia).
  generalize dependent (2 ^ k). intros P HP.
  destruct mrs as [m r s]. simpl. intros (Hm & H0 & Hf & Ht & Hs).
  destruct r, s; simpl;
    repeat match goal with
           | H : ?a = ?a -> _ |- _ => specialize (H eq_refl)
           | H : true = false -> _ |- _ => clear H
           | H : false = true -> _ |- _ => clear H
           end; try destruct (Z.even m); split; try lia; nia.
Qed.

Lemma fexp_53 (x : Z) : fexp prec emax x = Z.max (x - 53) (-1074).
Proof. reflexivity. Qed.

(** The second shift of [binary_round_aux], which takes up the carry of the
    rounding. *)
Lemma shr_carry (m1 e1 : Z) (mrs : shr_record) (e2 : Z) :
  -1074 <= e1 ->
  0 < m1 <= 2 ^ 53 ->
  (m1 < 2 ^ 52 -> Z.max (Zdigits2 m1 + e1 - 53) (-1074) - e1 <= 0) ->
  shr (shr_record_of_loc m1 loc_Exact) e1 (fexp prec emax (Zdigits2 m1 + e1) - e1)
  = (mrs, e2) ->
  e1 <= e2 /\ shr_m mrs * 2 ^ (e2 - e1) = m1.
Proof.
  intros He Hm Hsmall. rewrite fexp_53.
  change (2 ^ 53) with 9007199254740992 in *. change (2 ^ 52) with 4503599627370496 in *.
  destruct (Z.eq_dec m1 9007199254740992) as [->|Hne].
  - change (Zdigits2 9007199254740992) with 54.
    replace (Z.max (54 + e1 - 53) (-1074) - e1) with 1 by lia.
    simpl. intros [= <- <-]. simpl. split; [lia|].
    replace (e1 + 1 - e1) with 1 by lia. reflexivity.
  - destruct (Z.ltb_spec m1 4503599627370496) as [Hlt|Hge].
    + specialize (Hsmall Hlt).
      destruct (Z.max (Zdigits2 m1 + e1 - 53) (-1074) - e1) as [|p|p]; try lia;
        simpl; intros [= <- <-]; simpl; rewrite Z.sub_diag; simpl; lia.
    + destruct m1 as [|q|q]; try lia.
      simpl Zdigits2. rewrite (digits2_unique q 53) by (simpl; lia).
      replace (Z.max (53 + e1 - 53) (-1074) - e1) with 0 by lia.
      simpl. intros [= <- <-]. simpl. rewrite Z.sub_diag. simpl. lia.
Qed.

Lemma round_aux_error (m : positive) (e : Z) :
  -1074 <= e ->
  match binary_round_aux prec emax false (Zpos m) e loc_Exact with
  | S754_finite s m' e' =>
      s = false /\ e <= e'
      /\ 2 ^ 53 * Z.abs (Zpos m' * 2 ^ (e' - e) - Zpos m) <= Zpos m
  | S754_zero _ => False
  | _ => True
  end.
Proof.
  intros He. unfold binary_round_aux, shr_fexp.
  destruct (shr (shr_record_of_loc (Zpos m) loc_Exact) e
              (fexp prec emax (Zdigits2 (Zpos m) + e) - e)) as [mrs1 e1] eqn:E1.
  set (m1 := round_nearest_even (shr_m mrs1) (loc_of_shr_record mrs1)).
  destruct (shr (shr_record_of_loc m1 loc_Exact) e1
              (fexp prec emax (Zdigits2 m1 + e1) - e1)) as [mrs2 e2] eqn:E2.
  rewrite fexp_53 in E1.
  pose proof (digits2_bounds m) as Hd. simpl Zdigits2 in E1.
  set (d := Zpos (digits2_pos m)) in *.
  assert (0 < d) as Hd0 by (subst d; lia).
  assert (e <= e1 /\ 2 ^ 53 * Z.abs (m1 * 2 ^ (e1 - e) - Zpos m) <= Zpos m
          /\ 0 < m1 <= 2 ^ 53 /\ -1074 <= e1
          /\ (m1 < 2 ^ 52 -> Z.max (Zdigits2 m1 + e1 - 53) (-1074) - e1 <= 0))
    as (Hee & Herr & Hm1 & He1 & Hsmall).
  { destruct (Z.max (d + e - 53) (-1074) - e) as [|p|p] eqn:En; simpl in E1.
    - injection E1 as <- <-. subst m1. simpl. rewrite Z.sub_diag. simpl.
      split; [lia|]. split; [lia|].
      assert (d <= 53) by lia.
      assert (2 ^ d <= 2 ^ 53) by (apply Z.pow_le_mono_r; lia).
      split; [lia|]. split; [lia|]. intros _. fold d. lia.
    - assert (Zpos p = d - 53) as Hp by lia.
      injection E1 as <- <-.
      pose proof (shifted_iter (Zpos m) p 0
                    {| shr_m := Zpos m; shr_r := false; shr_s := false |} ltac:(lia)) as Hs.
      assert (shifted (Z.pos m) 0 {| shr_m := Z.pos m; shr_r := false; shr_s := false |})
        as H0.
      { unfold shifted. simpl. repeat split; try lia; discriminate. }
      specialize (Hs H0). clear H0. change (0 + Z.pos p) with (Z.pos p) in Hs.
      set (mrs := SpecFloat.iter_pos shr_1 p
                    {| shr_m := Z.pos m; shr_r := false; shr_s := false |}) in *.
      destruct (round_nearest_even_shifted (Zpos m) (Zpos p) mrs ltac:(lia) Hs)
        as [Hm1 Herr]. fold m1 in Hm1, Herr.
      assert (0 < 2 ^ Zpos p) as HP by (apply Z.pow_pos_nonneg; lia).
      assert (2 ^ (d - 1) = 2 ^ 52 * 2 ^ Zpos p) as E1.
      { rewrite <- Z.pow_add_r by lia. f_equal. lia. }
      assert (2 ^ d = 2 ^ 53 * 2 ^ Zpos p) as E3.
      { rewrite <- Z.pow_add_r by lia. f_equal. lia. }
      rewrite E1, E3 in Hd.
      destruct Hs as (Hq0 & Hr0 & Hrf & Hrt & _).
      replace (e + Z.pos p - e) with (Zpos p) by lia.
      change (2 ^ 53) with 9007199254740992 in *.
      change (2 ^ 52) with 4503599627370496 in *.
      set (P := 2 ^ Zpos p) in *. clearbody P.
      assert (Z.pos m - shr_m mrs * P < P).
      { destruct (shr_r mrs); [specialize (Hrt eq_refl)|specialize (Hrf eq_refl)]; lia. }
      assert (4503599627370496 <= shr_m mrs < 9007199254740992) by (split; nia).
      split; [lia|]. split; [lia|]. split; [lia|]. split; [lia|]. lia.
    - injection E1 as <- <-. subst m1. simpl. rewrite Z.sub_diag. simpl.
      split; [lia|]. split; [lia|].
      assert (d <= 53) by lia.
      assert (2 ^ d <= 2 ^ 53) by (apply Z.pow_le_mono_r; lia).
      split; [lia|]. split; [lia|]. intros _. fold d. lia. }
  destruct (shr_carry m1 e1 mrs2 e2 He1 Hm1 Hsmall E2) as [He2 Hval].
  destruct (shr_m mrs2) as [|q|q] eqn:Eq; [lia| |exact I].
  destruct (e2 <=? emax - prec); [|exact I].
  split; [reflexivity|]. split; [lia|].
  replace (e2 - e) with ((e2 - e1) + (e1 - e)) by lia.
  rewrite Z.pow_add_r by lia. rewrite Z.mul_assoc, Hval. exact Herr.
Qed.

End Round.

(** The same over the rationals. *)

Section RoundQ.

Local Arguments add : simpl never.

Lemma pow2_pos (e : Z) : (0 < Qpower 2 e)%Q.
Proof. apply Qpower_0_lt. reflexivity. Qed.

Lemma pow2_add (a b : Z) : (Qpower 2 (a + b) == Qpower 2 a * Qpower 2 b)%Q.
Proof. apply Qpower_plus. discriminate. Qed.

Lemma pow2_Z (k : Z) : 0 <= k -> (inject_Z (2 ^ k) == Qpower 2 k)%Q.
Proof. intros H. now rewrite Zpower_Qpower. Qed.

Lemma val_shift (m e k : Z) :
  0 <= k ->
  (inject_Z (m * 2 ^ k) * Qpower 2 e == inject_Z m * Qpower 2 (e + k))%Q.
Proof.
  intros H. rewrite inject_Z_mult, pow2_Z, pow2_add by assumption. ring.
Qed.

Lemma iter_xO (m d : positive) : Zpos (Pos.iter xO m d) = Zpos m * 2 ^ Zpos d.
Proof.
  induction d as [|d IH] using Pos.peano_ind.
  - simpl. lia.
  - rewrite Pos.iter_succ, Pos2Z.inj_succ, Z.pow_succ_r, Pos2Z.inj_xO, IH by lia. lia.
Qed.

Lemma shl_align_spec (m : positive) (e e' : Z) :
  snd (shl_align m e e') = Z.min e e'
  /\ Zpos (fst (shl_align m e e')) = Zpos m * 2 ^ (e - Z.min e e').
Proof.
  unfold shl_align. destruct (e' - e) as [|d|d] eqn:E; simpl.
  - replace (Z.min e e') with e by lia. rewrite Z.sub_diag. simpl. lia.
  - replace (Z.min e e') with e by lia. rewrite Z.sub_diag. simpl. lia.
  - replace (Z.min e e') with e' by lia.
    replace (e - e') with (Zpos d) by lia. rewrite iter_xO. lia.
Qed.

Lemma round_error (m : positive) (e : Z) :
  -1074 <= e ->
  match binary_round prec emax false m e with
  | S754_finite s m' e' =>
      s = false /\ -1074 <= e'
      /\ (inject_Z (Zpos m) * Qpower 2 e * (1 - roundoff)
          <= inject_Z (Zpos m') * Qpower 2 e'
          <= inject_Z (Zpos m) * Qpower 2 e * (1 + roundoff))%Q
  | S754_zero _ => False
  | _ => True
  end.
Proof.
  intros He. unfold binary_round.
  pose proof (shl_align_spec m e (fexp prec emax (Zpos (digits2_pos m) + e)))
    as (H1 & H2).
  destruct (shl_align m e (fexp prec emax (Zpos (digits2_pos m) + e))) as [mz ez].
  simpl in H1, H2. rewrite <- H1 in H2.
  assert (-1074 <= ez <= e) as Hez by (rewrite fexp_53 in H1; lia).
  pose proof (round_aux_error mz ez (proj1 Hez)) as H.
  destruct (binary_round_aux prec emax false (Zpos mz) ez loc_Exact)
    as [s|s| |s m' e']; try exact H.
  destruct H as (-> & Hle & Herr).
  split; [reflexivity|]. split; [lia|].
  assert (inject_Z (Zpos m) * Qpower 2 e == inject_Z (Zpos mz) * Qpower 2 ez)%Q as ->.
  { rewrite H2, val_shift by lia. replace (ez + (e - ez)) with e by lia. reflexivity. }
  assert (inject_Z (Zpos m') * Qpower 2 e'
          == inject_Z (Zpos m' * 2 ^ (e' - ez)) * Qpower 2 ez)%Q as ->.
  { rewrite val_shift by lia. replace (ez + (e' - ez)) with e' by lia. reflexivity. }
  set (a := Zpos m' * 2 ^ (e' - ez)) in *.
  assert (2 ^ 53 * a <= Zpos mz + 2 ^ 53 * Zpos mz
          /\ 2 ^ 53 * Zpos mz <= Zpos mz + 2 ^ 53 * a) as [Ha Hb] by lia.
  rewrite Zle_Qle in Ha, Hb. rewrite inject_Z_plus, !inject_Z_mult in Ha, Hb.
  change (inject_Z (2 ^ 53)) with (9007199254740992 # 1)%Q in *.
  pose proof (pow2_pos ez) as HP.
  assert (inject_Z (Zpos mz) * (1 - roundoff) <= inject_Z a
          <= inject_Z (Zpos mz) * (1 + roundoff))%Q as [Hl Hu].
  { unfold roundoff. change (2 ^ 53)%positive with 9007199254740992%positive. split; lra. }
  split.
  - apply (Qmult_le_compat_r _ _ (Qpower 2 ez)) in Hl; [|lra]. lra.
  - apply (Qmult_le_compat_r _ _ (Qpower 2 ez)) in Hu; [|lra]. lra.
Qed.

Lemma toQ_nonneg (x : number) : nonneg x = true -> (0 <= toQ x)%Q.
Proof.
  destruct x as [[]|[]| |[] m e]; simpl; try discriminate; intros _; try lra.
  pose proof (pow2_pos e).
  assert (0 < inject_Z (Zpos m))%Q by (rewrite <- (Zlt_Qlt 0); lia).
  nra.
Qed.

Lemma add_error (x y : number) :
  nonneg x = true -> nonneg y = true -> lowest x -> lowest y ->
  lowest (add x y)
  /\ (finite (add x y) = true ->
      finite x = true /\ finite y = true
      /\ ((toQ x + toQ y) * (1 - roundoff) <= toQ (add x y)
          <= (toQ x + toQ y) * (1 + roundoff))%Q).
Proof.
  intros Hx Hy Lx Ly.
  assert (0 <= toQ x)%Q as Px by now apply toQ_nonneg.
  assert (0 <= toQ y)%Q as Py by now apply toQ_nonneg.
  assert (0 <= roundoff <= 1)%Q as Hu by (unfold roundoff; split; [discriminate|discriminate]).
  destruct x as [[]|[]| |[] mx ex]; try discriminate;
    destruct y as [[]|[]| |[] my ey]; try discriminate;
      try (split; [exact I|]; intros H; discriminate H);
      try (split; [exact I|]; intros _; split; [reflexivity|]; split; [reflexivity|];
           simpl; lra);
      try (split; [assumption|]; intros _; split; [reflexivity|]; split; [reflexivity|];
           unfold add, SFadd; split; nra).
  - change (add (S754_zero false) (S754_finite false my ey))
      with (S754_finite false my ey).
    split; [assumption|]. intros _. do 2 (split; [reflexivity|]).
    change (toQ (S754_zero false)) with 0%Q. split; nra.
  - change (add (S754_finite false mx ex) (S754_zero false))
      with (S754_finite false mx ex).
    split; [assumption|]. intros _. do 2 (split; [reflexivity|]).
    change (toQ (S754_zero false)) with 0%Q. split; nra.
  - unfold add, SFadd. simpl cond_Zopp.
  pose proof (shl_align_spec mx ex (Z.min ex ey)) as (_ & A2).
    pose proof (shl_align_spec my ey (Z.min ex ey)) as (_ & B2).
    set (ax := fst (shl_align mx ex (Z.min ex ey))) in *.
    set (ay := fst (shl_align my ey (Z.min ex ey))) in *.
    change (Zpos ax + Zpos ay) with (Zpos (ax + ay)).
    unfold binary_normalize. simpl in Lx, Ly.
    rewrite Z.min_assoc, Z.min_id in A2.
    rewrite (Z.min_comm ex ey), Z.min_assoc, Z.min_id, (Z.min_comm ey ex) in B2.
    set (z := Z.min ex ey) in *.
    assert (toQ (S754_finite false mx ex) + toQ (S754_finite false my ey)
            == inject_Z (Zpos (ax + ay)) * Qpower 2 z)%Q as Hsum.
    { simpl toQ. rewrite Pos2Z.inj_add, inject_Z_plus, A2, B2.
      rewrite Qmult_plus_distr_l, !val_shift by lia.
      replace (z + (ex - z)) with ex by lia. replace (z + (ey - z)) with ey by lia.
      reflexivity. }
    pose proof (round_error (ax + ay) z ltac:(lia)) as H.
  destruct (binary_round prec emax false (ax + ay) z) as [s|s| |s m e].
  + destruct H.
  + split; [exact I|]. intros H'; discriminate H'.
  + split; [exact I|]. intros H'; discriminate H'.
  + destruct H as (-> & Le & Hb).
    split; [exact Le|]. intros _. split; [reflexivity|]. split; [reflexivity|].
    rewrite Hsum. exact Hb.
Qed.

End RoundQ.

(** ** Rounding of the sums *)

Section Within.

Local Arguments add : simpl never.
Local Open Scope Q_scope.

Lemma roundoff_range : 0 <= roundoff <= 1.
Proof. unfold roundoff. split; discriminate. Qed.

Lemma power_down (k : nat) :
  0 <= power (1 - roundoff) (S k) <= power (1 - roundoff) k /\ power (1 - roundoff) k <= 1.
Proof.
  pose proof roundoff_range as Hu.
  induction k as [|k IH]; simpl in *; [lra|].
  set (p := power (1 - roundoff) k) in *. nra.
Qed.

Lemma power_up (k : nat) :
  1 <= power (1 + roundoff) k /\ power (1 + roundoff) k <= power (1 + roundoff) (S k).
Proof.
  pose proof roundoff_range as Hu.
  induction k as [|k IH]; simpl in *; [lra|].
  set (p := power (1 + roundoff) k) in *. nra.
Qed.

Lemma within_S (k : nat) (x : number) (s : Q) : within k x s -> within (S k) x s.
Proof.
  intros (H1 & H2 & H3 & H4). repeat split; try assumption.
  - specialize (H4 H). pose proof (power_down k). 
    set (p := power (1 - roundoff) k) in *. set (p' := power (1 - roundoff) (S k)) in *. nra.
  - specialize (H4 H). pose proof (power_up k).
    set (p := power (1 + roundoff) k) in *. set (p' := power (1 + roundoff) (S k)) in *. nra.
Qed.

Lemma within_le (k k' : nat) (x : number) (s : Q) :
  (k <= k')%nat -> within k x s -> within k' x s.
Proof. induction 1; [trivial|]. intros H'. now apply within_S, IHle. Qed.

Lemma within_eq (k k' : nat) (x : number) (s s' : Q) :
  k = k' -> s == s' -> within k x s -> within k' x s'.
Proof.
  intros <- E (H1 & H2 & H3 & H4).
  split; [assumption|]. split; [assumption|]. split; [lra|].
  intros F. rewrite <- E. exact (H4 F).
Qed.

Lemma within_exact (y : number) :
  nonneg y = true -> lowest y -> within 0 y (toQ y).
Proof.
  intros H1 H2. pose proof (toQ_nonneg y H1).
  repeat split; try assumption; simpl; lra.
Qed.

Lemma within_zero : within 0 zero 0.
Proof. repeat split; simpl; try lra. Qed.

Lemma within_add (k : nat) (x y : number) (s t : Q) :
  within k x s -> within k y t -> within (S k) (add x y) (s + t).
Proof.
  intros (X1 & X2 & X3 & X4) (Y1 & Y2 & Y3 & Y4).
  destruct (add_error x y X1 Y1 X2 Y2) as [L E].
  split; [now apply add_nonneg|]. split; [exact L|]. split; [lra|].
  intros F. destruct (E F) as (Fx & Fy & Hl & Hu).
  specialize (X4 Fx). specialize (Y4 Fy).
  pose proof roundoff_range as Hr.
  pose proof (power_down k) as Hd. pose proof (power_up k) as Hp.
  simpl power.
  set (a := power (1 - roundoff) k) in *. set (b := power (1 + roundoff) k) in *.
  set (u := roundoff) in *.
  assert ((s + t) * a <= toQ x + toQ y <= (s + t) * b) as [Ha Hb] by lra.
  split.
  - apply (Qmult_le_compat_r _ _ (1 - u)) in Ha; [|lra]. lra.
  - apply (Qmult_le_compat_r _ _ (1 + u)) in Hb; [|lra]. lra.
Qed.

Lemma total_Permutation (l l' : list Q) : Permutation l l' -> total l == total l'.
Proof.
  induction 1 as [|x l l' Hp IH|x y l|l l' l'' H1 IH1 H2 IH2]; simpl; lra.
Qed.

Lemma Forall2_Permutation {A B} (R : A -> B -> Prop) (o o' : list A) (l : list B) :
  Permutation o o' -> Forall2 R o l -> exists l', Permutation l l' /\ Forall2 R o' l'.
Proof.
  intros Hp. revert l.
  induction Hp as [|x o o' Hp IH|x y o|o o' o'' H1 IH1 H2 IH2]; intros l H.
  - exists l. split; [reflexivity|assumption].
  - inversion H as [|? s ? l0 Hx Hl]; subst.
    destruct (IH _ Hl) as (l' & P' & F'). exists (s :: l').
    split; [now constructor|now constructor].
  - inversion H as [|? s ? l0 Hy Hl]; subst.
    inversion Hl as [|? t ? l1 Hx Hl']; subst.
    exists (t :: s :: l1). split; [apply perm_swap|now repeat constructor].
  - destruct (IH1 _ H) as (l' & P' & F'). destruct (IH2 _ F') as (l'' & P'' & F'').
    exists l''. split; [now transitivity l'|assumption].
Qed.

(** The total so far, after the records [rs]. *)
Lemma totalSpending_within (rs : list Expense.t) (k : nat) (x : number) (s : Q) :
  Forall (fun e => nonneg (amountOf e) = true /\ lowest (amountOf e)) rs ->
  within k x s ->
  within (k + length rs) (fold_left (fun sum e => add sum (amountOf e)) rs x)
    (s + sumQ (map amountOf rs)).
Proof.
  revert k x s. induction rs as [|e rs IH]; intros k x s Hrs Hx; simpl.
  - apply (within_eq k _ _ s); [lia|lra|assumption].
  - inversion Hrs as [|? ? [He1 He2] Hrs']; subst.
    assert (within (S k) (add x (amountOf e)) (s + toQ (amountOf e))) as Hs.
    { apply within_add; [assumption|]. apply (within_le 0); [lia|]. now apply within_exact. }
    refine (within_eq _ _ _ _ _ _ _ (IH _ _ _ Hrs' Hs)); [lia|simpl; lra].
Qed.

Lemma near_S (k : nat) (o : object) (l : list Q) :
  Forall2 (near k) o l -> Forall2 (near (S k)) o l.
Proof. induction 1; constructor; [now apply within_S|assumption]. Qed.

Lemma near_le (k k' : nat) (o : object) (l : list Q) :
  (k <= k')%nat -> Forall2 (near k) o l -> Forall2 (near k') o l.
Proof. induction 1; [trivial|]. intros H'. now apply near_S, IHle. Qed.

Lemma define_near (k : nat) (o : object) (l : list Q) (c : string) (amt : number) :
  inherited c = false -> nonneg amt = true -> lowest amt ->
  Forall2 (near k) o l ->
  exists l', Forall2 (near (S k)) (define o c (accumulate (Get o c) amt)) l'
             /\ total l' == total l + toQ amt
             /\ (length l' <= S (length l))%nat.
Proof.
  intros Hc Ha La H.
  assert (within k amt (toQ amt)) as Hamt.
  { apply (within_le 0); [lia|]. now apply within_exact. }
  induction H as [|[c' v] s o l Hv Hol IH].
  - unfold Get. simpl. rewrite Hc. simpl.
    exists [0 + toQ amt]. split; [|split; [simpl; lra|simpl; lia]].
    constructor; [|constructor]. unfold near. simpl.
    apply within_add; [|assumption]. apply (within_le 0); [lia|]. exact within_zero.
  - unfold Get in *. simpl. destruct (String.eqb c c') eqn:E.
    + exists ((s + toQ amt) :: l). split; [|split; [simpl; lra|simpl; lia]].
      constructor; [|now apply near_S].
      unfold near in *. simpl in *.
      destruct v as [n|]; [|destruct Hv as [Hv _]; discriminate Hv].
      simpl in *. rewrite truthy_or_zero by apply Hv. now apply within_add.
    + destruct IH as (l' & F' & T' & N'). exists (s :: l').
      split; [|split; [simpl; lra|simpl; lia]].
      constructor; [now apply within_S|exact F'].
Qed.

Lemma totals_near (rs : list Expense.t) (k : nat) (o : object) (l : list Q) :
  Forall (fun e => inherited (categoryOf e) = false) rs ->
  Forall (fun e => nonneg (amountOf e) = true /\ lowest (amountOf e)) rs ->
  Forall2 (near k) o l ->
  exists l', Forall2 (near (k + length rs)) (fold_left step rs o) l'
             /\ total l' == total l + sumQ (map amountOf rs)
             /\ (length l' <= length l + length rs)%nat.
Proof.
  revert k o l. induction rs as [|e rs IH]; intros k o l Hc Ha H; simpl.
  - exists l. rewrite Nat.add_0_r. split; [assumption|]. split; [lra|lia].
  - inversion Hc as [|? ? Hc1 Hc']; subst. inversion Ha as [|? ? [Ha1 Ha2] Ha']; subst.
    destruct (define_near k o l (categoryOf e) (amountOf e) Hc1 Ha1 Ha2 H)
      as (l1 & F1 & T1 & N1).
    assert (step o e = define o (categoryOf e)
                         (accumulate (Get o (categoryOf e)) (amountOf e))) as ->.
    { unfold step, Set_. now rewrite (inherited_proto _ Hc1). }
    destruct (IH (S k) _ l1 Hc' Ha' F1) as (l' & F' & T' & N').
    exists l'. rewrite Nat.add_succ_r. split; [exact F'|]. split; [lra|lia].
Qed.

Lemma values_within (es : list (string * slot)) (l : list Q) (k j : nat)
      (x : number) (s : Q) :
  Forall2 (near k) es l -> within (k + j) x s ->
  within (k + j + length es)
    (fold_left (fun sum p => add sum (slotNumber (snd p))) es x) (s + total l).
Proof.
  intros H. revert j x s. induction H as [|p t es l Hp Hes IH]; intros j x s Hx; simpl.
  - refine (within_eq _ _ _ _ _ _ _ Hx); [lia|simpl; lra].
  - assert (within (k + S j) (add x (slotNumber (snd p))) (s + t)) as Hs.
    { rewrite Nat.add_succ_r. apply within_add; [assumption|].
      apply (within_le k); [lia|exact Hp]. }
    refine (within_eq _ _ _ _ _ _ _ (IH _ _ _ Hs)); [lia|simpl; lra].
Qed.

Lemma sums_within (rs : list Expense.t) :
  Forall (fun e => inherited (categoryOf e) = false) rs ->
  Forall (fun e => nonneg (amountOf e) = true /\ lowest (amountOf e)) rs ->
  within (length rs) (totalSpending rs) (sumQ (map amountOf rs))
  /\ within (2 * length rs) (sumOfValues (totalsByCategory rs)) (sumQ (map amountOf rs)).
Proof.
  intros Hc Ha. split.
  - refine (within_eq _ _ _ _ _ _ _ (totalSpending_within rs 0 zero 0 Ha within_zero)); [reflexivity|simpl; lra].
  - rewrite totalsByCategory_fold.
    destruct (totals_near rs 0 [] [] Hc Ha (List.Forall2_nil _)) as (l & F & T & N).
    simpl in F, T, N.
    destruct (Forall2_Permutation _ _ _ _
                (Permutation_sym (Object_entries_Permutation (fold_left step rs []))) F)
      as (l' & P' & F').
    pose proof (values_within _ _ (length rs) 0 zero 0 F') as H.
    rewrite Nat.add_0_r in H.
    specialize (H (within_le 0 _ _ _ ltac:(lia) within_zero)).
    apply (within_le _ (2 * length rs)) in H.
    + pose proof (total_Permutation _ _ P') as E.
      refine (within_eq _ _ _ _ _ _ _ H); [reflexivity|simpl; lra].
    + rewrite (Forall2_length _ _ _ F'), <- (Permutation_length P'). lia.
Qed.

End Within.

(** C9, as stated, fails.  Binary64 addition rounds, and the two sides add
    the same amounts in different groupings: for 0.1 under one label and 0.2
    and 0.3 under another, the total is 0.6000000000000001 and the totals by
    category add up to 0.6.  A label that meets a member of
    [Object.prototype] takes its amounts out of the totals by category: a
    record labelled [__proto__] leaves no entry, so that 5 under that label
    and 2 under another give the total 7 against 2, and one labelled
    [constructor] leaves a String, whose sum with the others is NaN. *)
Lemma totals_differ_by_rounding :
  ~ (forall rs : list Expense.t,
        strictEq (sumOfValues (totalsByCategory rs)) (totalSpending rs) = true)
  /\ totalSpending [spent (Some "Rent") (JNum (parseFloat "0.1"));
                    spent (Some "Food") (JNum (parseFloat "0.2"));
                    spent (Some "Food") (JNum (parseFloat "0.3"))]
     = parseFloat "0.6000000000000001"
  /\ sumOfValues
       (totalsByCategory [spent (Some "Rent") (JNum (parseFloat "0.1"));
                          spent (Some "Food") (JNum (parseFloat "0.2"));
                          spent (Some "Food") (JNum (parseFloat "0.3"))])
     = parseFloat "0.6"
  /\ totalsByCategory [spent (Some "__proto__") (JNum (ofZ 5));
                       spent (Some "Food") (JNum (ofZ 2))]
     = [("Food", SNum (ofZ 2))]
  /\ sumOfValues
       (totalsByCategory [spent (Some "__proto__") (JNum (ofZ 5));
                          spent (Some "Food") (JNum (ofZ 2))])
     = ofZ 2
  /\ totalSpending [spent (Some "__proto__") (JNum (ofZ 5));
                    spent (Some "Food") (JNum (ofZ 2))]
     = ofZ 7
  /\ isNaN (sumOfValues
              (totalsByCategory [spent (Some "constructor") (JNum (ofZ 5));
                                 spent (Some "Food") (JNum (ofZ 2))])) = true
  /\ totalSpending [spent (Some "constructor") (JNum (ofZ 5));
                    spent (Some "Food") (JNum (ofZ 2))]
     = ofZ 7.
Proof.
  split; [|repeat split; vm_compute; reflexivity].
  intros H.
  specialize (H [spent (Some "Rent") (JNum (parseFloat "0.1"));
                 spent (Some "Food") (JNum (parseFloat "0.2"));
                 spent (Some "Food") (JNum (parseFloat "0.3"))]).
  vm_compute in H. discriminate.
Qed.

(** C9, amended.  Take records whose labels are not names of members of
    [Object.prototype] and whose amounts are Numbers not below zero, [n] of
    them, and let [exact] be the sum of the real numbers their amounts stand
    for.  Then [totalSpending] and the sum of the values of
    [totalsByCategory] are Numbers not below zero (neither is NaN); the
    first, when finite, lies between [exact (1 - 2^-53)^n] and
    [exact (1 + 2^-53)^n], and the second, when finite, between
    [exact (1 - 2^-53)^(2n)] and [exact (1 + 2^-53)^(2n)]: each addition
    rounds by at most the unit roundoff 2^-53, the total is made by [n]
    additions, and a value of the totals by category by at most [n]
    additions followed by at most [n] more in the sum of the values.  When
    none of the additions rounds, the two stand for the same real number,
    [exact].  For 0.1 under one label and 0.2 and 0.3 under another the two
    are finite and differ by 2^-53. *)
Theorem totals_add_up_to_rounding :
  (forall rs : list Expense.t,
      Forall (fun e => inherited (categoryOf e) = false) rs ->
      Forall (fun e => nonneg (amountOf e) = true /\ lowest (amountOf e)) rs ->
      let exact := sumQ (map amountOf rs) in
      let n := length rs in
      nonneg (totalSpending rs) = true
      /\ nonneg (sumOfValues (totalsByCategory rs)) = true
      /\ (finite (totalSpending rs) = true ->
          exact * power (1 - roundoff) n <= toQ (totalSpending rs)
          /\ toQ (totalSpending rs) <= exact * power (1 + roundoff) n)%Q
      /\ (finite (sumOfValues (totalsByCategory rs)) = true ->
          exact * power (1 - roundoff) (2 * n) <= toQ (sumOfValues (totalsByCategory rs))
          /\ toQ (sumOfValues (totalsByCategory rs))
             <= exact * power (1 + roundoff) (2 * n))%Q)
  /\ (forall rs : list Expense.t,
         exactSum (map amountOf rs) zero ->
         exactTotals rs [] ->
         exactSum (map (fun p => slotNumber (snd p)) (Object_entries (totalsByCategory rs)))
           zero ->
         (toQ (sumOfValues (totalsByCategory rs)) == toQ (totalSpending rs))%Q
         /\ (toQ (totalSpending rs) == sumQ (map amountOf rs))%Q)
  /\ (roundoff == 1 # 9007199254740992)%Q
  /\ (power (1 + roundoff) 2 == (1 + roundoff) * (1 + roundoff))%Q
  /\ (forall (s : bool) (m : positive) (e : Z), lowest (S754_finite s m e) <-> -1074 <= e)
  /\ lowest zero /\ lowest Infinity
  /\ (toQ (parseFloat "12.25") == 49 # 4)%Q
  /\ finite (parseFloat "12.25") = true /\ finite Infinity = false /\ finite NaN = false
  /\ (let rs := [spent (Some "Rent") (JNum (parseFloat "0.1"));
                 spent (Some "Food") (JNum (parseFloat "0.2"));
                 spent (Some "Food") (JNum (parseFloat "0.3"))] in
      finite (totalSpending rs) = true
      /\ finite (sumOfValues (totalsByCategory rs)) = true
      /\ (toQ (totalSpending rs) - toQ (sumOfValues (totalsByCategory rs))
          == 1 # 9007199254740992)%Q).
Proof.
  split; [|split; [exact totals_add_up_when_exact|]].
  - intros rs Hc Ha exact n. destruct (sums_within rs Hc Ha) as [Ht Hv].
    destruct Ht as (T1 & _ & _ & T4). destruct Hv as (V1 & _ & _ & V4).
    split; [exact T1|]. split; [exact V1|]. split; [exact T4|exact V4].
  - split; [reflexivity|]. split; [simpl; ring|]. split; [intros s m e; reflexivity|].
    split; [exact I|]. split; [exact I|].
    repeat split; vm_compute; reflexivity.
Qed.

Lemma totals_add_up_to_rounding_witness :
  let rs := [spent (Some "Rent") (JNum (parseFloat "4.20"));
             spent (Some "Food") (JNum (parseFloat "3.99"));
             spent (Some "Rent") (JNum (parseFloat "19.99"))] in
  nonneg (totalSpending rs) = true
  /\ nonneg (sumOfValues (totalsByCategory rs)) = true
  /\ (sumQ (map amountOf rs) * power (1 - roundoff) 3 <= toQ (totalSpending rs)
      /\ toQ (totalSpending rs) <= sumQ (map amountOf rs) * power (1 + roundoff) 3)%Q
  /\ (sumQ (map amountOf rs) * power (1 - roundoff) 6
      <= toQ (sumOfValues (totalsByCategory rs))
      /\ toQ (sumOfValues (totalsByCategory rs))
         <= sumQ (map amountOf rs) * power (1 + roundoff) 6)%Q.
Proof.
  intros rs.
  assert (Forall (fun e => inherited (categoryOf e) = false) rs) as Hc
      by (repeat constructor).
  assert (Forall (fun e => nonneg (amountOf e) = true /\ lowest (amountOf e)) rs) as Ha
      by (repeat constructor; vm_compute; discriminate).
  destruct (proj1 totals_add_up_to_rounding rs Hc Ha) as (H1 & H2 & H3 & H4).
  split; [exact H1|]. split; [exact H2|]. split.
  - apply H3. vm_compute. reflexivity.
  - apply H4. vm_compute. reflexivity.
Defined.

(** * The screen in use

    The handlers taken together: what every run of actions keeps, how the
    handlers compose, and what the editor and the filters do at the edges. *)

(** ** Rows and dates as the forms write them *)

Section Stored.

Lemma above_zero (x : number) :
  isNaN x = false -> le x zero = false -> gt x zero = true.
Proof. destruct x as [[]|[]| |[] m e]; simpl; intros; try discriminate; reflexivity. Qed.

Lemma above_zero_nonneg (x : number) : gt x zero = true -> nonneg x = true.
Proof. destruct x as [[]|[]| |[] m e]; simpl; intros; try discriminate; reflexivity. Qed.

Lemma above_zero_number (x : number) : gt x zero = true -> isNaN x = false.
Proof. destruct x as [[]|[]| |[] m e]; simpl; intros; try discriminate; reflexivity. Qed.

Lemma trim_trimmed (s : string) : trimmed (trim s).
Proof. split; apply trim_spec. Qed.

Lemma orNull_trimmed (s n : string) : orNull (trim s) = Some n -> n <> "" /\ trimmed n.
Proof.
  unfold orNull. destruct (String.eqb_spec (trim s) "") as [|H]; [discriminate|].
  intros [= <-]. split; [assumption | apply trim_trimmed].
Qed.

Lemma insert_next (d : Sqlite.database) (r : Sqlite.row) :
  Sqlite.insert d r
  = if isNaN (Sqlite.amount r) || (Sqlite.maxRowid <? nextId d) then None
    else Some {| Sqlite.expenses := <[nextId d := r]> (Sqlite.expenses d);
                 Sqlite.sequence := nextId d |}.
Proof.
  unfold Sqlite.insert, nextId. destruct (isNaN (Sqlite.amount r)); [reflexivity|].
  simpl. reflexivity.
Qed.

Lemma nextId_fresh (d : Sqlite.database) : Sqlite.expenses d !! nextId d = None.
Proof.
  destruct (Sqlite.expenses d !! nextId d) eqn:E; [|reflexivity].
  pose proof (largestRowid_bound _ _ (mk_is_Some _ _ E)). unfold nextId in *. lia.
Qed.

Lemma size_selectAll (d : Sqlite.database) :
  length (Sqlite.selectAll d) = size (Sqlite.expenses d).
Proof.
  unfold Sqlite.selectAll.
  rewrite (Permutation_length (merge_sort_Permutation _ _)).
  apply length_map_to_list.
Qed.

End Stored.

(** ** The date of [addExpense] *)

Section IsoDate.

Lemma code_digit (v : Z) : code (digit v) = 48 + v mod 10.
Proof.
  unfold code, digit. rewrite N_ascii_embedding.
  - rewrite Z2N.id; [reflexivity|]. zdiv.
  - apply N2Z.inj_lt. rewrite Z2N.id by zdiv. change (Z.of_N 256) with 256. zdiv.
Qed.

Lemma digit_not_white (v : Z) : isWhiteSpace (digit v) = false.
Proof.
  unfold isWhiteSpace. rewrite code_digit.
  assert (0 <= v mod 10 < 10) by zdiv.
  repeat match goal with
         | |- context [?a =? ?b] => destruct (Z.eqb_spec a b); try lia
         end.
Qed.

Lemma twoDigits_digit (a b : Z) :
  twoDigits (digit a) (digit b) = Some (10 * (a mod 10) + b mod 10).
Proof.
  unfold twoDigits, isDigit. rewrite !code_digit.
  assert (0 <= a mod 10 < 10) by zdiv. assert (0 <= b mod 10 < 10) by zdiv.
  repeat match goal with
         | |- context [?x <=? ?y] => destruct (Z.leb_spec x y); try lia
         end.
  simpl. f_equal. lia.
Qed.

Lemma DateFromTime_range (t : Z) :
  1 <= DateFromTime t <= daysInMonth (YearFromTime t) (MonthFromTime t).
Proof.
  pose proof (YearFromTime_spec t) as Hy. rewrite DayFromYear_step in Hy.
  unfold DateFromTime, daysInMonth, MonthFromTime, InLeapYear, DayWithinYear.
  set (l := if DaysInYear (YearFromTime t) =? 366 then 1 else 0).
  assert (DaysInYear (YearFromTime t) = 365 + l /\ 0 <= l <= 1) as [Hl Hl'].
  { subst l. destruct (DaysInYear_cases (YearFromTime t)) as [-> | ->]; simpl; lia. }
  rewrite Hl in Hy. clearbody l.
  repeat match goal with
         | |- context [if ?a <? ?b then _ else _] => destruct (Z.ltb_spec a b)
         end; unfold daysBeforeMonth; simpl; lia.
Qed.

Lemma isoDate_digits (t : Z) :
  0 <= YearFromTime t <= 9999 ->
  isoDate t
  = String (digit (YearFromTime t / 1000))
      (String (digit (YearFromTime t / 100))
         (String (digit (YearFromTime t / 10))
            (String (digit (YearFromTime t))
               (String "-"
                  (String (digit ((MonthFromTime t + 1) / 10))
                     (String (digit (MonthFromTime t + 1))
                        (String "-"
                           (String (digit (DateFromTime t / 10))
                              (String (digit (DateFromTime t)) "")))))))))%char.
Proof.
  intros H. unfold isoDate, toISOString.
  destruct (Z.leb_spec 0 (YearFromTime t)); [|lia].
  destruct (Z.leb_spec (YearFromTime t) 9999); [|lia].
  cbv [andb String.concat padDigits String.append slice0 digit].
  rewrite !Z.div_div by lia. reflexivity.
Qed.

Lemma isoDate_parses (t : Z) :
  0 <= YearFromTime t <= 9999 ->
  parseDateOnly (isoDate t) = Some (MakeDate (Day t) 0).
Proof.
  intros H. rewrite isoDate_digits by assumption.
  pose proof (MonthFromTime_range t) as Hm.
  pose proof (DateFromTime_range t) as Hd.
  assert (daysInMonth (YearFromTime t) (MonthFromTime t) <= 31) as Hd'.
  { revert Hm. generalize (MonthFromTime t) as m. intros m Hm.
    assert (m = 0 \/ m = 1 \/ m = 2 \/ m = 3 \/ m = 4 \/ m = 5 \/ m = 6 \/ m = 7
            \/ m = 8 \/ m = 9 \/ m = 10 \/ m = 11) as Hc by lia.
    unfold daysInMonth, daysBeforeMonth.
    destruct (DaysInYear (YearFromTime t) =? 366);
      repeat destruct Hc as [-> | Hc]; try subst m; simpl; lia. }
  unfold parseDateOnly. change (code "-") with 45. simpl (_ && _).
  rewrite !twoDigits_digit.
  replace (100 * (10 * ((YearFromTime t / 1000) mod 10) + (YearFromTime t / 100) mod 10)
           + (10 * ((YearFromTime t / 10) mod 10) + YearFromTime t mod 10))
    with (YearFromTime t) by zdiv.
  replace (10 * (((MonthFromTime t + 1) / 10) mod 10) + (MonthFromTime t + 1) mod 10)
    with (MonthFromTime t + 1) by zdiv.
  replace (10 * ((DateFromTime t / 10) mod 10) + DateFromTime t mod 10)
    with (DateFromTime t) by zdiv.
  replace (MonthFromTime t + 1 - 1) with (MonthFromTime t) by lia.
  destruct (Z.leb_spec 1 (MonthFromTime t + 1)); [|lia].
  destruct (Z.leb_spec (MonthFromTime t + 1) 12); [|lia].
  destruct (Z.leb_spec 1 (DateFromTime t)); [|lia].
  destruct (Z.leb_spec (DateFromTime t) (daysInMonth (YearFromTime t) (MonthFromTime t)));
    [|lia].
  simpl. rewrite MakeDay_of_time. do 2 f_equal. lia.
Qed.

Lemma ten_trimmed (c1 c2 c3 c4 c5 c6 c7 c8 c9 c10 : ascii) :
  isWhiteSpace c1 = false -> isWhiteSpace c10 = false ->
  let s := String c1 (String c2 (String c3 (String c4 (String c5 (String c6
             (String c7 (String c8 (String c9 (String c10 ""))))))))) in
  s <> "" /\ trimmed s.
Proof.
  intros H1 H10 s. split; [discriminate|]. split; simpl; assumption.
Qed.

Lemma isoDate_trimmed (t : Z) : isoDate t <> "" /\ trimmed (isoDate t).
Proof.
  unfold isoDate, toISOString.
  destruct ((0 <=? YearFromTime t) && (YearFromTime t <=? 9999));
    [|destruct (YearFromTime t <? 0)];
    cbv [String.concat padDigits String.append slice0];
    apply ten_trimmed; try apply digit_not_white; reflexivity.
Qed.

End IsoDate.

(** ** The handlers, case by case *)

Section Handlers.

Lemma addExpense_cases (h : Host) (st : state) :
  (addExpense h st = st
   /\ ~ (validAdd st /\ nextId (db st) <= Sqlite.maxRowid))
  \/ (validAdd st
      /\ nextId (db st) <= Sqlite.maxRowid
      /\ addExpense h st
         = loadExpenses
             {| db := {| Sqlite.expenses := <[nextId (db st) := addedRow h st]>
                                              (Sqlite.expenses (db st));
                         Sqlite.sequence := nextId (db st) |};
                expenses := expenses st; amount := ""; category := ""; note := "";
                filter := filter st; editingExpense := editingExpense st;
                editAmount := editAmount st; editCategory := editCategory st;
                editNote := editNote st; editDate := editDate st;
                alerts := alerts st |}).
Proof.
  unfold addExpense, validAdd, validAmount.
  destruct (isNaN (parseFloat (amount st))) eqn:E1.
  { left. split; [reflexivity|]. intros [[[H _] _] _]. discriminate. }
  destruct (le (parseFloat (amount st)) zero) eqn:E2.
  { left. split; [reflexivity|]. intros [[[_ H] _] _]. discriminate. }
  simpl. destruct (String.eqb_spec (trim (category st)) "") as [E3|E3].
  { left. split; [reflexivity|]. intros [[_ H] _]. contradiction. }
  rewrite insert_next. simpl. rewrite E1. simpl.
  destruct (Z.ltb_spec Sqlite.maxRowid (nextId (db st))).
  { left. split; [reflexivity|]. intros [_ H']. lia. }
  right. split; [auto|]. split; [lia|]. reflexivity.
Qed.

Lemma handleSaveEdit_cases (st : state) :
  (editingExpense st = None /\ handleSaveEdit st = st)
  \/ (exists e msg, editingExpense st = Some e /\ ~ validEdit st
                    /\ handleSaveEdit st = alert st msg)
  \/ (exists e, editingExpense st = Some e /\ validEdit st
                /\ handleSaveEdit st
                   = loadExpenses
                       {| db := match Sqlite.expenses (db st) !! Expense.id e with
                                | Some _ =>
                                    {| Sqlite.expenses := <[Expense.id e := editedRow st]>
                                                            (Sqlite.expenses (db st));
                                       Sqlite.sequence := Sqlite.sequence (db st) |}
                                | None => db st
                                end;
                          expenses := expenses st; amount := amount st;
                          category := category st; note := note st; filter := filter st;
                          editingExpense := None; editAmount := editAmount st;
                          editCategory := editCategory st; editNote := editNote st;
                          editDate := editDate st; alerts := alerts st |}).
Proof.
  unfold handleSaveEdit, validEdit, validAmount.
  destruct (editingExpense st) as [e|]; [|left; auto].
  right.
  destruct (isNaN (parseFloat (editAmount st))) eqn:E1.
  { left. exists e. eexists. split; [reflexivity|]. split; [|reflexivity].
    intros [[H _] _]. discriminate. }
  destruct (le (parseFloat (editAmount st)) zero) eqn:E2.
  { left. exists e. eexists. split; [reflexivity|]. split; [|reflexivity].
    intros [[_ H] _]. discriminate. }
  simpl. destruct (String.eqb_spec (trim (editCategory st)) "") as [E3|E3].
  { left. exists e. eexists. split; [reflexivity|]. split; [|reflexivity].
    intros [_ [H _]]. contradiction. }
  destruct (String.eqb_spec (trim (editDate st)) "") as [E4|E4].
  { left. exists e. eexists. split; [reflexivity|]. split; [|reflexivity].
    intros [_ [_ H]]. contradiction. }
  right. exists e. split; [reflexivity|]. split; [auto|].
  unfold Sqlite.update.
  destruct (Sqlite.expenses (db st) !! Expense.id e); [|reflexivity].
  simpl. rewrite E1. reflexivity.
Qed.

Lemma addedRow_wellFormed (h : Host) (st : state) : validAdd st -> wellFormed (addedRow h st).
Proof.
  intros [[Hn Hp] Hc]. unfold wellFormed, addedRow. simpl.
  split; [now apply above_zero|].
  split; [split; [assumption | apply trim_trimmed]|].
  split; [apply orNull_trimmed | apply isoDate_trimmed].
Qed.

Lemma editedRow_wellFormed (st : state) : validEdit st -> wellFormed (editedRow st).
Proof.
  intros [[Hn Hp] [Hc Hd]]. unfold wellFormed, editedRow. simpl.
  split; [now apply above_zero|].
  split; [split; [assumption | apply trim_trimmed]|].
  split; [apply orNull_trimmed | split; [assumption | apply trim_trimmed]].
Qed.

Lemma sound_largest (d : Sqlite.database) :
  sound d -> nextId d = Sqlite.sequence d + 1.
Proof.
  intros [H0 Hs]. unfold nextId.
  assert (Sqlite.largestRowid (Sqlite.expenses d) <= Sqlite.sequence d); [|lia].
  unfold Sqlite.largestRowid.
  apply (map_fold_weak_ind
           (fun (b : Z) (m : gmap Z Sqlite.row) =>
              (forall k r, m !! k = Some r -> k <= Sqlite.sequence d) -> b <= Sqlite.sequence d)).
  - intros _. assumption.
  - intros i x m b Hi IH Hm.
    assert (i <= Sqlite.sequence d) by (apply (Hm i x); apply lookup_insert_eq).
    assert (b <= Sqlite.sequence d); [|lia].
    apply IH. intros k r Hk. apply (Hm k r).
    rewrite lookup_insert_ne; [assumption|]. intros ->. congruence.
  - intros k r Hk. apply (Hs k r Hk).
Qed.

End Handlers.

(** ** What every run keeps *)

Section Runs.

Variable NumberToString : number -> string.

Lemma after_snoc (l : list action) (a : action) :
  after NumberToString (l ++ [a]) = perform NumberToString (after NumberToString l) a.
Proof. unfold after. now rewrite fold_left_app. Qed.

Lemma startEdit_db (st : state) (p : Z * Sqlite.row) :
  db (startEdit NumberToString st p) = db st
  /\ expenses (startEdit NumberToString st p) = expenses st.
Proof. unfold startEdit. destruct (_ && _); split; reflexivity. Qed.

Lemma sound_insert (d : Sqlite.database) (r : Sqlite.row) :
  sound d -> wellFormed r ->
  sound {| Sqlite.expenses := <[nextId d := r]> (Sqlite.expenses d);
           Sqlite.sequence := nextId d |}.
Proof.
  intros Hs Hr. pose proof (sound_largest d Hs) as Hn. destruct Hs as [H0 Hs].
  split; simpl; [lia|]. intros id x.
  destruct (decide (nextId d = id)) as [<-|Hne].
  - rewrite lookup_insert_eq. intros [= <-]. split; [assumption | lia].
  - rewrite lookup_insert_ne by assumption. intros Hx.
    destruct (Hs id x Hx). split; [assumption | lia].
Qed.

Lemma sound_update (d : Sqlite.database) (id : Z) (r : Sqlite.row) :
  sound d -> wellFormed r ->
  sound match Sqlite.expenses d !! id with
        | Some _ => {| Sqlite.expenses := <[id := r]> (Sqlite.expenses d);
                       Sqlite.sequence := Sqlite.sequence d |}
        | None => d
        end.
Proof.
  intros Hs Hr. destruct (Sqlite.expenses d !! id) as [old|] eqn:E; [|assumption].
  destruct Hs as [H0 Hs]. split; [assumption|]. simpl. intros k x.
  destruct (decide (id = k)) as [<-|Hne].
  - rewrite lookup_insert_eq. intros [= <-]. split; [assumption|].
    apply (Hs id old E).
  - rewrite lookup_insert_ne by assumption. apply Hs.
Qed.

Lemma sound_delete (d : Sqlite.database) (id : Z) : sound d -> sound (Sqlite.delete d id).
Proof.
  intros [H0 Hs]. split; [assumption|]. simpl. intros k x Hk.
  apply lookup_delete_Some in Hk as [_ Hk]. now apply Hs.
Qed.

Lemma sound_perform (st : state) (a : action) :
  sound (db st) -> sound (db (perform NumberToString st a)).
Proof.
  intros Hs. destruct a; simpl; try assumption.
  - destruct (addExpense_cases h st) as [[-> _]|(Hv & _ & ->)]; [assumption|].
    simpl. apply sound_insert; [assumption | now apply addedRow_wellFormed].
  - now apply sound_delete.
  - now rewrite (proj1 (startEdit_db st expense)).
  - destruct (handleSaveEdit_cases st) as [[_ ->]|[(e & msg & _ & _ & ->)|(e & _ & Hv & ->)]];
      try assumption.
    simpl. apply sound_update; [assumption | now apply editedRow_wellFormed].
Qed.

Lemma sound_after (l : list action) : sound (db (after NumberToString l)).
Proof.
  induction l as [|a l IH] using rev_ind.
  - split; [simpl; lia|]. intros id r H. simpl in H. rewrite lookup_empty in H. discriminate.
  - rewrite after_snoc. now apply sound_perform.
Qed.

Lemma shown_perform (st : state) (a : action) :
  shown st -> shown (perform NumberToString st a).
Proof.
  unfold shown. intros Hs. destruct a; simpl; try assumption; try reflexivity.
  - destruct (addExpense_cases h st) as [[-> _]|(_ & _ & ->)]; [assumption | reflexivity].
  - destruct (startEdit_db st expense) as [-> ->]. assumption.
  - destruct (handleSaveEdit_cases st) as [[_ ->]|[(e & msg & _ & _ & ->)|(e & _ & _ & ->)]];
      try assumption; reflexivity.
Qed.

Lemma shown_after (l : list action) : shown (after NumberToString l).
Proof.
  induction l as [|a l IH] using rev_ind.
  - reflexivity.
  - rewrite after_snoc. now apply shown_perform.
Qed.

End Runs.

Section Gone.

Variable NumberToString : number -> string.

Lemma gone_perform (st : state) (a : action) (id : Z) :
  sound (db st) ->
  id <= Sqlite.sequence (db st) ->
  Sqlite.expenses (db st) !! id = None ->
  id <= Sqlite.sequence (db (perform NumberToString st a))
  /\ Sqlite.expenses (db (perform NumberToString st a)) !! id = None.
Proof.
  intros Hs Hid Hno. destruct a; simpl; try (split; assumption).
  - destruct (addExpense_cases h st) as [[-> _]|(_ & _ & ->)]; [split; assumption|].
    simpl. rewrite (sound_largest _ Hs). split; [lia|].
    rewrite lookup_insert_ne by lia. assumption.
  - split; [assumption|]. destruct (decide (id0 = id)) as [->|Hne].
    + apply lookup_delete_eq.
    + rewrite lookup_delete_ne by assumption. assumption.
  - rewrite (proj1 (startEdit_db NumberToString st expense)). split; assumption.
  - destruct (handleSaveEdit_cases st) as [[_ ->]|[(e & msg & _ & _ & ->)|(e & _ & _ & ->)]];
      try (split; assumption).
    simpl. destruct (Sqlite.expenses (db st) !! Expense.id e) eqn:E; [|split; assumption].
    simpl. split; [assumption|]. rewrite lookup_insert_ne; [assumption|]. congruence.
Qed.

Lemma gone_run (l : list action) (st : state) (id : Z) :
  sound (db st) ->
  id <= Sqlite.sequence (db st) ->
  Sqlite.expenses (db st) !! id = None ->
  Sqlite.expenses (db (fold_left (perform NumberToString) l st)) !! id = None.
Proof.
  revert st. induction l as [|a l IH]; intros st Hs Hid Hno; [assumption|].
  simpl. destruct (gone_perform st a id Hs Hid Hno) as [H1 H2].
  apply IH; [now apply sound_perform | assumption | assumption].
Qed.

End Gone.

(** X1. Whatever is done on the screen, from a new device on and across
    launches, every row of the table is a row as the forms write it: its
    amount is a Number above zero (so not NaN), its category and its date are
    not empty and carry no white space at either end, its note is absent or
    is not empty and is trimmed; and its id lies between 1 and the largest id
    given out. *)
Theorem stored_rows_are_well_formed
    (NumberToString : number -> string) (l : list action) (id : Z) (r : Sqlite.row) :
  Sqlite.expenses (db (after NumberToString l)) !! id = Some r ->
  wellFormed r
  /\ isNaN (Sqlite.amount r) = false
  /\ 1 <= id <= Sqlite.sequence (db (after NumberToString l)).
Proof.
  intros H. destruct (sound_after NumberToString l) as [_ Hs].
  destruct (Hs id r H) as [Hw Hid]. split; [assumption|]. split; [|assumption].
  apply above_zero_number, Hw.
Qed.

Lemma stored_rows_witness :
  wellFormed {| Sqlite.amount := parseFloat "12.50"; Sqlite.category := "Food";
                Sqlite.note := None; Sqlite.date := "2024-01-01" |}
  /\ isNaN (parseFloat "12.50") = false
  /\ 1 <= 1 <= Sqlite.sequence
                 (db (after (fun _ => "")
                        [TypeAmount "12.50"; TypeCategory " Food"; PressAdd (clockAt 2024 1 1)])).
Proof.
  apply (stored_rows_are_well_formed (fun _ => "")
           [TypeAmount "12.50"; TypeCategory " Food"; PressAdd (clockAt 2024 1 1)] 1
           {| Sqlite.amount := parseFloat "12.50"; Sqlite.category := "Food";
              Sqlite.note := None; Sqlite.date := "2024-01-01" |}).
  vm_compute. reflexivity.
Defined.

(** X2. Whatever is done on the screen, the list it holds is the table as
    [loadExpenses] reads it, in the order of the SELECT: every handler that
    changes the table reloads, and no other handler touches the list.  The
    list is as long as the table has rows, and loading once more changes
    nothing. *)
Theorem list_shows_the_table (NumberToString : number -> string) (l : list action) :
  expenses (after NumberToString l)
  = map rowObject (Sqlite.selectAll (db (after NumberToString l)))
  /\ length (expenses (after NumberToString l))
     = size (Sqlite.expenses (db (after NumberToString l)))
  /\ loadExpenses (after NumberToString l) = after NumberToString l.
Proof.
  pose proof (shown_after NumberToString l) as H. unfold shown in H.
  split; [assumption|]. split.
  - rewrite H, length_map. apply size_selectAll.
  - unfold loadExpenses. rewrite <- H. now destruct (after NumberToString l).
Qed.

(** X3. An id is not given twice: once [deleteExpense] has removed a row,
    no run of actions brings a row with that id back, neither a later
    [addExpense] (AUTOINCREMENT goes on from the largest id given out) nor
    the saving of an editor that was opened on the row. *)
Theorem deleted_id_is_not_given_again
    (NumberToString : number -> string) (l l' : list action) (id : Z) :
  is_Some (Sqlite.expenses (db (after NumberToString l)) !! id) ->
  Sqlite.expenses
    (db (fold_left (perform NumberToString) l' (deleteExpense (after NumberToString l) id)))
  !! id = None.
Proof.
  intros [r Hr]. pose proof (sound_after NumberToString l) as Hs.
  apply gone_run.
  - simpl. now apply sound_delete.
  - simpl. destruct Hs as [_ Hs]. destruct (Hs id r Hr). lia.
  - simpl. apply lookup_delete_eq.
Qed.

Lemma deleted_id_witness :
  Sqlite.expenses
    (db (fold_left (perform (fun _ => ""))
           [TypeAmount "3"; TypeCategory "Books"; PressAdd (clockAt 2024 1 2)]
           (deleteExpense
              (after (fun _ => "")
                 [TypeAmount "12.50"; TypeCategory "Food"; PressAdd (clockAt 2024 1 1)]) 1)))
  !! 1 = None.
Proof.
  apply (deleted_id_is_not_given_again (fun _ => "")
           [TypeAmount "12.50"; TypeCategory "Food"; PressAdd (clockAt 2024 1 1)]
           [TypeAmount "3"; TypeCategory "Books"; PressAdd (clockAt 2024 1 2)] 1).
  vm_compute. eexists. reflexivity.
Defined.

(** X4. When the add form is valid and the ids are not used up,
    [addExpense] inserts exactly one row, [addedRow], under an id that is
    larger than every id of the table; the other rows stay, the table has one
    row more, the list is reloaded and holds the new record, the three
    fields of the add form are emptied, and the filter, the editor and the
    alerts stay as they were. *)
Theorem addExpense_adds_one_row (h : Host) (st : state) :
  validAdd st ->
  nextId (db st) <= Sqlite.maxRowid ->
  Sqlite.expenses (db (addExpense h st))
  = <[nextId (db st) := addedRow h st]> (Sqlite.expenses (db st))
  /\ (forall id, is_Some (Sqlite.expenses (db st) !! id) -> id < nextId (db st))
  /\ size (Sqlite.expenses (db (addExpense h st))) = S (size (Sqlite.expenses (db st)))
  /\ Sqlite.sequence (db (addExpense h st)) = nextId (db st)
  /\ expenses (addExpense h st) = map rowObject (Sqlite.selectAll (db (addExpense h st)))
  /\ rowObject (nextId (db st), addedRow h st) ∈ expenses (addExpense h st)
  /\ (amount (addExpense h st) = "" /\ category (addExpense h st) = ""
      /\ note (addExpense h st) = "")
  /\ (filter (addExpense h st) = filter st
      /\ editingExpense (addExpense h st) = editingExpense st
      /\ alerts (addExpense h st) = alerts st).
Proof.
  intros Hv Hroom.
  destruct (addExpense_cases h st) as [[_ Hn]|(_ & _ & ->)]; [exfalso; auto|].
  simpl. split; [reflexivity|]. split.
  { intros id Hid. pose proof (largestRowid_bound _ _ Hid). unfold nextId. lia. }
  split; [apply map_size_insert_None, nextId_fresh|].
  split; [reflexivity|]. split; [reflexivity|]. split; [|auto].
  rewrite map_fmap. apply list_elem_of_fmap. eexists. split; [reflexivity|].
  apply selectAll_rows. simpl. apply lookup_insert_eq.
Qed.

Lemma addExpense_adds_one_row_witness :
  size (Sqlite.expenses
          (db (addExpense (clockAt 2024 1 3) (typed twoDays "4.20" " Coffee " ""))))
  = S (size (Sqlite.expenses (db (typed twoDays "4.20" " Coffee " "")))).
Proof.
  apply (addExpense_adds_one_row (clockAt 2024 1 3) (typed twoDays "4.20" " Coffee " "")).
  - split; [split; vm_compute; reflexivity | vm_compute; discriminate].
  - vm_compute. discriminate.
Defined.

(** X5. [handleSaveEdit] never adds or removes a row: the ids of the table,
    its size and the largest id given out stay, and every row but the one
    being edited is untouched.  With a valid form it closes the editor,
    shows no alert and reloads the list; when the row being edited is no
    longer in the table, it does so without changing the database. *)
Theorem handleSaveEdit_touches_one_row :
  (forall (st : state) (id : Z),
      is_Some (Sqlite.expenses (db (handleSaveEdit st)) !! id)
      <-> is_Some (Sqlite.expenses (db st) !! id))
  /\ (forall st : state,
         size (Sqlite.expenses (db (handleSaveEdit st))) = size (Sqlite.expenses (db st))
         /\ Sqlite.sequence (db (handleSaveEdit st)) = Sqlite.sequence (db st))
  /\ (forall (st : state) (e : Expense.t) (id : Z),
         editingExpense st = Some e ->
         id <> Expense.id e ->
         Sqlite.expenses (db (handleSaveEdit st)) !! id = Sqlite.expenses (db st) !! id)
  /\ (forall (st : state) (e : Expense.t),
         editingExpense st = Some e ->
         validEdit st ->
         editingExpense (handleSaveEdit st) = None
         /\ alerts (handleSaveEdit st) = alerts st
         /\ expenses (handleSaveEdit st)
            = map rowObject (Sqlite.selectAll (db (handleSaveEdit st)))
         /\ (Sqlite.expenses (db st) !! Expense.id e = None ->
             db (handleSaveEdit st) = db st)).
Proof.
  split; [|split; [|split]].
  - intros st id.
    destruct (handleSaveEdit_cases st) as [[_ ->]|[(e & msg & _ & _ & ->)|(e & _ & _ & ->)]];
      try reflexivity.
    simpl. destruct (Sqlite.expenses (db st) !! Expense.id e) eqn:E; [|reflexivity].
    simpl. destruct (decide (Expense.id e = id)) as [<-|Hne].
    + rewrite lookup_insert_eq, E. split; eauto.
    + rewrite lookup_insert_ne by assumption. reflexivity.
  - intros st.
    destruct (handleSaveEdit_cases st) as [[_ ->]|[(e & msg & _ & _ & ->)|(e & _ & _ & ->)]];
      try (split; reflexivity).
    simpl. destruct (Sqlite.expenses (db st) !! Expense.id e) eqn:E; [|split; reflexivity].
    simpl. split; [|reflexivity]. apply map_size_insert_Some. eauto.
  - intros st e id He Hne.
    destruct (handleSaveEdit_cases st)
      as [[_ ->]|[(e' & msg & _ & _ & ->)|(e' & He' & _ & ->)]]; try reflexivity.
    simpl. rewrite He in He'. injection He' as <-.
    destruct (Sqlite.expenses (db st) !! Expense.id e); [|reflexivity].
    simpl. apply lookup_insert_ne. congruence.
  - intros st e He Hv.
    destruct (handleSaveEdit_cases st)
      as [[He' _]|[(e' & msg & _ & Hn & _)|(e' & He' & _ & ->)]];
      [congruence | contradiction |].
    simpl. rewrite He in He'. injection He' as <-.
    split; [reflexivity|]. split; [reflexivity|]. split; [reflexivity|].
    intros ->. reflexivity.
Qed.

Lemma handleSaveEdit_touches_one_row_witness :
  Sqlite.expenses (db (handleSaveEdit (editing twoDays "8" "Food" ""))) !! 2
  = Sqlite.expenses (db (editing twoDays "8" "Food" "")) !! 2.
Proof.
  apply (proj1 (proj2 (proj2 handleSaveEdit_touches_one_row))
           (editing twoDays "8" "Food" "")
           {| Expense.id := 1; Expense.amount := JNum (ofZ 1);
              Expense.category := Some "Food"; Expense.note := None;
              Expense.date := "2024-01-01" |} 2).
  - reflexivity.
  - vm_compute. discriminate.
Defined.

(** X6. With the editor open, [handleSaveEdit] checks the amount, then the
    category, then the date, and reports the first that fails: an invalid
    amount gives the alert on the amount whatever the other fields hold, a
    blank category the alert on the category, a blank date the alert on the
    date.  A form that fails leaves the database, the list and the editor as
    they were and adds exactly one alert; a form that passes adds none. *)
Theorem handleSaveEdit_rejects_with_one_alert (st : state) (e : Expense.t) :
  editingExpense st = Some e ->
  (~ validAmount (editAmount st) ->
   handleSaveEdit st = alert st "Please enter a valid positive amount.")
  /\ (validAmount (editAmount st) -> trim (editCategory st) = "" ->
      handleSaveEdit st = alert st "Category is required")
  /\ (validAmount (editAmount st) -> trim (editCategory st) <> "" ->
      trim (editDate st) = "" ->
      handleSaveEdit st = alert st "Date is required (YYYY-MM-DD).")
  /\ (~ validEdit st ->
      db (handleSaveEdit st) = db st
      /\ expenses (handleSaveEdit st) = expenses st
      /\ editingExpense (handleSaveEdit st) = Some e
      /\ exists msg, alerts (handleSaveEdit st) = alerts st ++ [msg])
  /\ (validEdit st -> alerts (handleSaveEdit st) = alerts st).
Proof.
  intros He. unfold validEdit, validAmount, handleSaveEdit. rewrite He.
  destruct (isNaN (parseFloat (editAmount st))) eqn:E1; simpl.
  { split; [reflexivity|]. split; [intros [H _]; discriminate|].
    split; [intros [H _]; discriminate|].
    split; [intros _; simpl; eauto 6 | intros [[H _] _]; discriminate]. }
  destruct (le (parseFloat (editAmount st)) zero) eqn:E2; simpl.
  { split; [reflexivity|]. split; [intros [_ H]; discriminate|].
    split; [intros [_ H]; discriminate|].
    split; [intros _; simpl; eauto 6 | intros [[_ H] _]; discriminate]. }
  split; [intros H; exfalso; auto|].
  destruct (String.eqb_spec (trim (editCategory st)) "") as [E3|E3].
  { split; [reflexivity|]. split; [intros _ H; contradiction|].
    split; [intros _; simpl; eauto 6 | intros [_ [H _]]; contradiction]. }
  split; [intros _ H; contradiction|].
  destruct (String.eqb_spec (trim (editDate st)) "") as [E4|E4].
  { split; [reflexivity|].
    split; [intros _; simpl; eauto 6 | intros [_ [_ H]]; contradiction]. }
  split; [intros _ _ H; contradiction|].
  split; [intros H; exfalso; auto|].
  intros _. unfold Sqlite.update.
  destruct (Sqlite.expenses (db st) !! Expense.id e); [|reflexivity].
  simpl. rewrite E1. reflexivity.
Qed.

Lemma handleSaveEdit_rejects_witness :
  handleSaveEdit
    (setEditAmount (startEdit (fun _ => "12.5") twoDays
                      (1, {| Sqlite.amount := parseFloat "12.50"; Sqlite.category := "Food";
                             Sqlite.note := None; Sqlite.date := "2024-01-01" |})) "-1")
  = alert
      (setEditAmount (startEdit (fun _ => "12.5") twoDays
                        (1, {| Sqlite.amount := parseFloat "12.50"; Sqlite.category := "Food";
                               Sqlite.note := None; Sqlite.date := "2024-01-01" |})) "-1")
      "Please enter a valid positive amount.".
Proof.
  apply (handleSaveEdit_rejects_with_one_alert
           (setEditAmount (startEdit (fun _ => "12.5") twoDays
                             (1, {| Sqlite.amount := parseFloat "12.50";
                                    Sqlite.category := "Food";
                                    Sqlite.note := None; Sqlite.date := "2024-01-01" |})) "-1")
           (rowObject (1, {| Sqlite.amount := parseFloat "12.50"; Sqlite.category := "Food";
                             Sqlite.note := None; Sqlite.date := "2024-01-01" |}))).
  - reflexivity.
  - intros [_ H]. vm_compute in H. discriminate.
Defined.

(** X7. [deleteExpense] removes the row of the given id and no other, keeps
    the largest id given out, and reloads: no record of the list bears the
    id afterwards.  Deleting twice is deleting once; an id that the table
    lacks leaves the table as it was; an id that it has makes it one row
    smaller. *)
Theorem deleteExpense_removes_the_row :
  (forall (st : state) (id : Z),
      Sqlite.expenses (db (deleteExpense st id)) !! id = None
      /\ (forall k, k <> id ->
                    Sqlite.expenses (db (deleteExpense st id)) !! k
                    = Sqlite.expenses (db st) !! k)
      /\ Sqlite.sequence (db (deleteExpense st id)) = Sqlite.sequence (db st)
      /\ (forall e, e ∈ expenses (deleteExpense st id) -> Expense.id e <> id)
      /\ deleteExpense (deleteExpense st id) id = deleteExpense st id)
  /\ (forall (st : state) (id : Z),
         Sqlite.expenses (db st) !! id = None ->
         Sqlite.expenses (db (deleteExpense st id)) = Sqlite.expenses (db st))
  /\ (forall (st : state) (id : Z),
         is_Some (Sqlite.expenses (db st) !! id) ->
         size (Sqlite.expenses (db st))
         = S (size (Sqlite.expenses (db (deleteExpense st id))))).
Proof.
  split; [|split].
  - intros st id. simpl. split; [apply lookup_delete_eq|].
    split; [intros k Hk; now apply lookup_delete_ne|].
    split; [reflexivity|]. split.
    + intros e He. rewrite map_fmap in He. apply list_elem_of_fmap in He as [[k r] [-> Hin]].
      apply selectAll_rows in Hin. simpl in *. intros ->.
      rewrite lookup_delete_eq in Hin. discriminate.
    + unfold deleteExpense, loadExpenses, Sqlite.delete. simpl.
      rewrite delete_delete_eq. reflexivity.
  - intros st id H. simpl. now apply delete_id.
  - intros st id H. simpl. rewrite map_size_delete_Some by assumption.
    destruct H as [r Hr].
    assert (size (Sqlite.expenses (db st)) <> 0%nat); [|lia].
    intros H0. apply map_size_empty_iff in H0. rewrite H0, lookup_empty in Hr. discriminate.
Qed.

Lemma deleteExpense_witness :
  size (Sqlite.expenses (db twoDays))
  = S (size (Sqlite.expenses (db (deleteExpense twoDays 2)))).
Proof.
  apply (proj2 (proj2 deleteExpense_removes_the_row) twoDays 2).
  vm_compute. eexists. reflexivity.
Defined.

(** X8. Deleting the id that [addExpense] was about to give undoes the
    addition: the table is what it was before, whether the form was valid
    or not. *)
Theorem delete_undoes_add (h : Host) (st : state) :
  Sqlite.expenses (db (deleteExpense (addExpense h st) (nextId (db st))))
  = Sqlite.expenses (db st).
Proof.
  destruct (addExpense_cases h st) as [[-> _]|(_ & _ & ->)]; simpl.
  - apply delete_id, nextId_fresh.
  - apply delete_insert_id, nextId_fresh.
Qed.

(** ** The order of the records shown *)

Section Filters.

Lemma StronglySorted_of_lookup {A} (R : relation A) (l : list A) :
  (forall i j x y, (i < j)%nat -> l !! i = Some x -> l !! j = Some y -> R x y) ->
  StronglySorted R l.
Proof.
  induction l as [|a l IH]; intros H; constructor.
  - apply IH. intros i j x y Hij Hi Hj. apply (H (S i) (S j) x y); [lia | exact Hi | exact Hj].
  - apply Forall_forall. intros y Hy. apply list_elem_of_lookup in Hy as [j Hj].
    apply (H 0%nat (S j) a y); [lia | reflexivity | exact Hj].
Qed.

Lemma StronglySorted_filter {A} (R : relation A) (p : A -> bool) (l : list A) :
  StronglySorted R l -> StronglySorted R (List.filter p l).
Proof.
  induction 1 as [|a l Hl IH Ha]; simpl; [constructor|].
  destruct (p a); [|assumption]. constructor; [assumption|].
  apply Forall_forall. intros y Hy. apply list_elem_of_In, filter_In in Hy as [Hy _].
  eapply Forall_forall in Ha; [exact Ha|]. now apply list_elem_of_In.
Qed.

Lemma filter_sublist {A} (p : A -> bool) (l : list A) : sublist (List.filter p l) l.
Proof.
  induction l as [|a l IH]; simpl; [constructor|].
  destruct (p a); now constructor.
Qed.

Lemma filter_filter {A} (p : A -> bool) (l : list A) :
  List.filter p (List.filter p l) = List.filter p l.
Proof.
  induction l as [|a l IH]; simpl; [reflexivity|].
  destruct (p a) eqn:E; simpl; [rewrite E; now f_equal | assumption].
Qed.

Lemma filteredExpenses_cases (h : Host) (l : list Expense.t) (f : string) :
  filteredExpenses h l f = l
  \/ exists p, filteredExpenses h l f = List.filter p l
               /\ forall l', filteredExpenses h l' f = List.filter p l'.
Proof.
  unfold filteredExpenses. destruct (String.eqb f "ALL"); [auto|].
  destruct (String.eqb f "WEEK"); [right; eauto|].
  destruct (String.eqb f "MONTH"); [right; eauto | auto].
Qed.

Lemma rows_listed (d : Sqlite.database) :
  StronglySorted listedBefore (map rowObject (Sqlite.selectAll d)).
Proof.
  rewrite map_fmap.
  apply (StronglySorted_fmap rowObject
           (fun a b => String.ltb (Sqlite.date (snd b)) (Sqlite.date (snd a)) = true
                       \/ (Sqlite.date (snd a) = Sqlite.date (snd b) /\ fst b < fst a))).
  - intros x y H. exact H.
  - apply StronglySorted_of_lookup. intros i j x y Hij Hi Hj.
    eapply selectAll_ordered; eauto.
Qed.

End Filters.

(** X9. [filteredExpenses] returns a sublist of the list, in the order of
    the list, and filtering twice is filtering once; a filter value other
    than WEEK and MONTH returns the list itself.  So, whatever is done on the
    screen, the records shown under any filter stay in the order of the
    table: the later date first, and the larger id first among records of
    one date. *)
Theorem filteredExpenses_keeps_the_order :
  (forall (h : Host) (l : list Expense.t) (f : string),
      sublist (filteredExpenses h l f) l
      /\ filteredExpenses h (filteredExpenses h l f) f = filteredExpenses h l f)
  /\ (forall (h : Host) (l : list Expense.t) (f : string),
         f <> "WEEK" -> f <> "MONTH" -> filteredExpenses h l f = l)
  /\ (forall (NumberToString : number -> string) (acts : list action) (h : Host)
             (f : string) (i j : nat) (r1 r2 : Expense.t),
         (i < j)%nat ->
         filteredExpenses h (expenses (after NumberToString acts)) f !! i = Some r1 ->
         filteredExpenses h (expenses (after NumberToString acts)) f !! j = Some r2 ->
         listedBefore r1 r2).
Proof.
  split; [|split].
  - intros h l f. destruct (filteredExpenses_cases h l f) as [E|(p & E & E')].
    + rewrite !E. split; reflexivity.
    + rewrite !E'. split; [apply filter_sublist | apply filter_filter].
  - intros h l f H1 H2. unfold filteredExpenses.
    destruct (String.eqb f "ALL"); [reflexivity|].
    destruct (String.eqb_spec f "WEEK"); [contradiction|].
    destruct (String.eqb_spec f "MONTH"); [contradiction|]. reflexivity.
  - intros N acts h f i j r1 r2 Hij H1 H2.
    eapply (StronglySorted_lookup listedBefore); [|exact Hij|exact H1|exact H2].
    rewrite (shown_after N acts).
    destruct (filteredExpenses_cases h (map rowObject (Sqlite.selectAll (db (after N acts)))) f)
      as [->|(p & -> & _)].
    + apply rows_listed.
    + apply StronglySorted_filter, rows_listed.
Qed.

Lemma filteredExpenses_keeps_the_order_witness :
  listedBefore (dated 2 "2024-01-02") (dated 1 "2024-01-01").
Proof.
  apply (proj2 (proj2 filteredExpenses_keeps_the_order) (fun _ => "")
           [TypeAmount "5"; TypeCategory "Food"; PressAdd (clockAt 2024 1 1);
            TypeAmount "5"; TypeCategory "Food"; PressAdd (clockAt 2024 1 2)]
           (clockAt 2024 1 3) "WEEK" 0%nat 1%nat);
    [ lia | vm_compute; reflexivity | vm_compute; reflexivity ].
Defined.

(** ** The record added today, under the filters *)

Section Today.

Lemma isoDate_Date_parse (h : Host) (t : Z) :
  0 <= YearFromTime t <= 9999 -> Date_parse h (isoDate t) = Some (MakeDate (Day t) 0).
Proof. intros H. unfold Date_parse. now rewrite isoDate_parses. Qed.

Lemma isoDate_length (t : Z) : String.length (isoDate t) = 10%nat.
Proof.
  unfold isoDate, toISOString.
  destruct ((0 <=? YearFromTime t) && (YearFromTime t <=? 9999)).
  - reflexivity.
  - destruct (YearFromTime t <? 0); reflexivity.
Qed.

Lemma slice0_length (s : string) (n : nat) : String.length s = n -> slice0 n s = s.
Proof.
  revert n. induction s as [|c s IH]; intros n H; destruct n; try discriminate; simpl.
  - reflexivity.
  - f_equal. apply IH. simpl in H. lia.
Qed.

Lemma Day_shift (t off : Z) :
  (0 <= off < msPerDay -> Day (t + off) = Day t \/ Day (t + off) = Day t + 1)
  /\ (- msPerDay < off < 0 -> Day (t + off) = Day t \/ Day (t + off) = Day t - 1).
Proof. unfold Day, msPerDay. split; intros H; zdiv. Qed.

Lemma week_keeps_day (h : Host) (off : Z) (s : string) (n : Z) :
  steady h off -> - msPerDay < off < msPerDay ->
  Date_parse h s = Some (MakeDate n 0) ->
  let today := LocalTime h (now h) in
  (0 <= off ->
   isInCurrentWeek h s = true <-> Day today - WeekDay today <= n < Day today - WeekDay today + 7)
  /\ (off < 0 ->
      isInCurrentWeek h s = true
      <-> Day today - WeekDay today + 1 <= n < Day today - WeekDay today + 8).
Proof.
  intros Hst Hoff Hs today. pose proof (isInCurrentWeek_spec h off s _ Hst Hoff Hs) as Hw.
  pose proof (week_interval_in_days h off n Hst Hoff) as [He Hwest]. fold today in He, Hwest.
  split; intros Hz; rewrite Hw; auto.
Qed.

End Today.

(** X10. The date that [addExpense] writes reads back: for a clock reading
    [t] in the years 0 to 9999, the first ten characters of [toISOString] are
    ten characters that [new Date] reads, on every engine, as midnight UTC of
    the day of [t], with the year, the month and the day of the month that
    [t] has in UTC. *)
Theorem added_date_reads_back (h : Host) (t : Z) :
  0 <= YearFromTime t <= 9999 ->
  Date_parse h (isoDate t) = Some (MakeDate (Day t) 0)
  /\ String.length (isoDate t) = 10%nat
  /\ YearFromTime (MakeDate (Day t) 0) = YearFromTime t
  /\ MonthFromTime (MakeDate (Day t) 0) = MonthFromTime t
  /\ DateFromTime (MakeDate (Day t) 0) = DateFromTime t.
Proof.
  intros H. split; [now apply isoDate_Date_parse|]. split; [apply isoDate_length|].
  assert (Day (MakeDate (Day t) 0) = Day t) as E by (apply Day_MakeDate; unfold msPerDay; lia).
  split; [now apply YearFromTime_Day|].
  split; [now apply MonthFromTime_Day | now apply DateFromTime_Day].
Qed.

Lemma added_date_reads_back_witness :
  Date_parse westOfUTC (isoDate (now westOfUTC))
  = Some (MakeDate (Day (now westOfUTC)) 0).
Proof.
  apply (added_date_reads_back westOfUTC (now westOfUTC)).
  vm_compute. split; discriminate.
Defined.

(** X11. On a device on UTC, a record dated as [addExpense] dates it now
    (the years 0 to 9999) is in the current week and in the current month:
    every filter keeps it. *)
Theorem added_today_is_kept_on_UTC (h : Host) (e : Expense.t) :
  steady h 0 ->
  0 <= YearFromTime (now h) <= 9999 ->
  Expense.date e = isoDate (now h) ->
  isInCurrentWeek h (Expense.date e) = true
  /\ isInCurrentMonth h (Expense.date e) = true
  /\ forall (l : list Expense.t) (f : string), e ∈ l -> e ∈ filteredExpenses h l f.
Proof.
  intros Hz Hy He.
  pose proof (isoDate_Date_parse h (now h) Hy) as Hp. rewrite <- He in Hp.
  assert (Day (MakeDate (Day (now h)) 0) = Day (now h)) as E
      by (apply Day_MakeDate; unfold msPerDay; lia).
  assert (forall t, now h - 8 * msPerDay <= t <= now h + 8 * msPerDay -> LocalTime h t = t)
    as Hl.
  { intros t Ht. rewrite (steady_LocalTime h 0 t Hz Ht). lia. }
  pose proof (Day_bounds (now h)) as Hb.
  assert (isInCurrentWeek h (Expense.date e) = true) as Hw.
  { apply (proj1 (week_keeps_day h 0 _ _ Hz ltac:(unfold msPerDay; lia) Hp)); [lia|].
    rewrite Hl by (unfold msPerDay; lia).
    pose proof (WeekDay_range (now h)). lia. }
  assert (isInCurrentMonth h (Expense.date e) = true) as Hm.
  { unfold isInCurrentMonth. rewrite Hp.
    unfold getFullYear, getMonth.
    rewrite !Hl by (unfold MakeDate, msPerDay in *; lia).
    rewrite (YearFromTime_Day _ _ E), (MonthFromTime_Day _ _ E), !Z.eqb_refl. reflexivity. }
  split; [assumption|]. split; [assumption|].
  intros l f Hin. unfold filteredExpenses.
  destruct (String.eqb f "ALL"); [assumption|].
  destruct (String.eqb f "WEEK").
  { apply list_elem_of_In, filter_In. split; [now apply list_elem_of_In | assumption]. }
  destruct (String.eqb f "MONTH"); [|assumption].
  apply list_elem_of_In, filter_In. split; [now apply list_elem_of_In | assumption].
Qed.

Lemma added_today_is_kept_witness :
  isInCurrentWeek (clockAt 2024 6 16) (Expense.date (dated 1 "2024-06-16")) = true
  /\ isInCurrentMonth (clockAt 2024 6 16) (Expense.date (dated 1 "2024-06-16")) = true
  /\ forall (l : list Expense.t) (f : string),
       dated 1 "2024-06-16" ∈ l -> dated 1 "2024-06-16" ∈ filteredExpenses (clockAt 2024 6 16) l f.
Proof.
  apply (added_today_is_kept_on_UTC (clockAt 2024 6 16) (dated 1 "2024-06-16")).
  - intros t isUTC _. reflexivity.
  - vm_compute. split; discriminate.
  - vm_compute. reflexivity.
Defined.

(** X12. On a device whose offset from UTC, under a day, does not change
    within eight days of now, the WEEK filter leaves out the record that
    [addExpense] dates now exactly when today is a Sunday on the device and,
    east of UTC, the date in UTC is still the day before or, west of UTC,
    the date in UTC is the same day: the date is read as midnight UTC, which
    on the device falls before the midnight that opens the week.  So it is
    five hours behind UTC at ten in the morning of Sunday 2024-06-16, day 0
    of the week, where the record dated 2024-06-16 is left out; on Wednesday
    2024-06-12, day 3, the record of the day is kept. *)
Theorem added_today_and_the_week :
  (forall (h : Host) (off : Z),
      0 <= YearFromTime (now h) <= 9999 ->
      steady h off ->
      let today := LocalTime h (now h) in
      (0 <= off < msPerDay ->
       isInCurrentWeek h (isoDate (now h)) = false
       <-> WeekDay today = 0 /\ Day (now h) = Day today - 1)
      /\ (- msPerDay < off < 0 ->
          isInCurrentWeek h (isoDate (now h)) = false
          <-> WeekDay today = 0 /\ Day (now h) = Day today))
  /\ (isoDate (now (clockWestAt 2024 6 16)) = "2024-06-16"
      /\ getDay (clockWestAt 2024 6 16) (now (clockWestAt 2024 6 16)) = 0
      /\ isInCurrentWeek (clockWestAt 2024 6 16) "2024-06-16" = false)
  /\ (isoDate (now (clockWestAt 2024 6 12)) = "2024-06-12"
      /\ getDay (clockWestAt 2024 6 12) (now (clockWestAt 2024 6 12)) = 3
      /\ isInCurrentWeek (clockWestAt 2024 6 12) "2024-06-12" = true).
Proof.
  split; [|repeat split; vm_compute; reflexivity].
  intros h off Hy Hst today.
  pose proof (isoDate_Date_parse h (now h) Hy) as Hp.
  pose proof (WeekDay_range today) as Hr.
  assert (- msPerDay < off < msPerDay -> today = now h + off) as Ht.
  { intros Hoff. apply (startOfWeek_steady h off Hst Hoff). }
  destruct (Day_shift (now h) off) as [De Dw].
  split; intros Hz.
  - destruct (week_keeps_day h off _ _ Hst ltac:(lia) Hp) as [He _]. fold today in He.
    specialize (He ltac:(lia)). specialize (De Hz). rewrite <- Ht in De by lia.
    destruct (isInCurrentWeek h (isoDate (now h))).
    + split; [discriminate|]. intros [H0 H1]. assert (true = true) as T by reflexivity.
      apply He in T. lia.
    + split; [|reflexivity]. intros _.
      assert (~ (Day today - WeekDay today <= Day (now h) < Day today - WeekDay today + 7)) as N.
      { intros N. apply He in N. discriminate. }
      lia.
  - destruct (week_keeps_day h off _ _ Hst ltac:(lia) Hp) as [_ Hw]. fold today in Hw.
    specialize (Hw ltac:(lia)). specialize (Dw Hz). rewrite <- Ht in Dw by lia.
    destruct (isInCurrentWeek h (isoDate (now h))).
    + split; [discriminate|]. intros [H0 H1]. assert (true = true) as T by reflexivity.
      apply Hw in T. lia.
    + split; [|reflexivity]. intros _.
      assert (~ (Day today - WeekDay today + 1 <= Day (now h)
                 < Day today - WeekDay today + 8)) as N.
      { intros N. apply Hw in N. discriminate. }
      lia.
Qed.

Lemma added_today_and_the_week_witness :
  isInCurrentWeek (clockWestAt 2024 6 16) (isoDate (now (clockWestAt 2024 6 16))) = false.
Proof.
  apply (proj1 added_today_and_the_week (clockWestAt 2024 6 16) (- 5 * msPerHour)).
  - vm_compute. split; discriminate.
  - intros t isUTC _. reflexivity.
  - vm_compute. split; reflexivity.
  - vm_compute. split; reflexivity.
Defined.

Section Yesterday.

Lemma day_before (u u' : Z) :
  Day u' = Day u - 1 ->
  (YearFromTime u' = YearFromTime u /\ MonthFromTime u' = MonthFromTime u)
  <-> DateFromTime u <> 1.
Proof.
  intros Hd.
  pose proof (YearFromTime_spec u) as Hy. rewrite DayFromYear_step in Hy.
  pose proof (YearFromTime_spec u') as Hy'. rewrite DayFromYear_step in Hy'.
  pose proof (DateFromTime_range u) as Hr.
  split.
  - intros [EY EM] H1. revert H1 EM.
    unfold DateFromTime, MonthFromTime, InLeapYear, DayWithinYear.
    rewrite EY, Hd. rewrite EY in Hy'. rewrite Hd in Hy'.
    set (l := if DaysInYear (YearFromTime u) =? 366 then 1 else 0).
    assert (0 <= l <= 1) as Hl by (subst l; destruct (_ =? _); lia).
    clearbody l. generalize dependent (DayFromYear (YearFromTime u)). intros y0 Hy Hy'.
    generalize dependent (Day u). intros d _ Hy Hy'.
    assert (exists k, k = d - y0 /\ 0 <= k - 1) as (k & Hk & Hk0) by (eexists; split; [reflexivity|lia]).
    replace (d - 1 - y0) with (k - 1) by lia. rewrite <- Hk. clear Hy Hy' Hk.
    repeat match goal with
           | |- context [if ?a <? ?b then _ else _] => destruct (Z.ltb_spec a b)
           end; unfold daysBeforeMonth; simpl; lia.
  - intros H1.
    assert (YearFromTime u' = YearFromTime u) as EY.
    { apply YearFromTime_unique. rewrite DayFromYear_step, Hd.
      revert H1 Hr. unfold DateFromTime, DayWithinYear.
      pose proof (MonthFromTime_range u) as Hm. revert Hm.
      generalize (MonthFromTime u) as m. intros m Hm.
      assert (0 <= daysBeforeMonth m (InLeapYear u)).
      { unfold InLeapYear. destruct (_ =? 366);
          assert (m = 0 \/ m = 1 \/ m = 2 \/ m = 3 \/ m = 4 \/ m = 5 \/ m = 6 \/ m = 7
                  \/ m = 8 \/ m = 9 \/ m = 10 \/ m = 11) as Hc by lia;
          unfold daysBeforeMonth;
          repeat destruct Hc as [-> | Hc]; try subst m; simpl; lia. }
      lia. }
    split; [assumption|].
    revert H1 Hr. unfold DateFromTime, MonthFromTime, InLeapYear, DayWithinYear.
    rewrite EY, Hd.
    set (l := if DaysInYear (YearFromTime u) =? 366 then 1 else 0).
    assert (0 <= l <= 1) as Hl by (subst l; destruct (_ =? _); lia).
    clearbody l. replace (Day u - 1 - DayFromYear (YearFromTime u))
      with (Day u - DayFromYear (YearFromTime u) - 1) by lia.
    generalize (Day u - DayFromYear (YearFromTime u)) as k. intros k.
    repeat match goal with
           | |- context [if ?a <? ?b then _ else _] => destruct (Z.ltb_spec a b)
           end; unfold daysBeforeMonth; simpl; lia.
Qed.

End Yesterday.

(** X13. Off UTC, by less than a day, on the same side of it now and at
    the midnight UTC that opens today's date in UTC (the two offsets may
    differ), the MONTH filter leaves out the record that [addExpense] dates
    now exactly when today is the first of a month on the device and, east
    of UTC, the date in UTC is still the day before or, west of UTC, the
    date in UTC is the same day. *)
Theorem added_today_and_the_month (h : Host) (off off' : Z) :
  0 <= YearFromTime (now h) <= 9999 ->
  LocalTZA h (now h) true = off ->
  LocalTZA h (MakeDate (Day (now h)) 0) true = off' ->
  let today := LocalTime h (now h) in
  (0 <= off < msPerDay -> 0 <= off' < msPerDay ->
   isInCurrentMonth h (isoDate (now h)) = false
   <-> DateFromTime today = 1 /\ Day (now h) = Day today - 1)
  /\ (- msPerDay < off < 0 -> - msPerDay < off' < 0 ->
      isInCurrentMonth h (isoDate (now h)) = false
      <-> DateFromTime today = 1 /\ Day (now h) = Day today).
Proof.
  intros Hy Hnow Hmid today.
  pose proof (isoDate_Date_parse h (now h) Hy) as Hp.
  assert (today = now h + off) as Ht by (unfold today, LocalTime; now rewrite Hnow).
  destruct (Day_shift (now h) off) as [De Dw]. rewrite <- Ht in De, Dw.
  unfold isInCurrentMonth. rewrite Hp. unfold getFullYear, getMonth. fold today.
  set (d := LocalTime h (MakeDate (Day (now h)) 0)).
  assert (d = MakeDate (Day (now h)) 0 + off') as Ed by (unfold d, LocalTime; now rewrite Hmid).
  assert (forall b : bool, b = false <-> ~ b = true) as Hneg by (intros []; split; congruence).
  rewrite Hneg, andb_true_iff, !Z.eqb_eq.
  split; intros Hz Hz'.
  - assert (Day d = Day (now h)) as Hd.
    { rewrite Ed. unfold MakeDate, Day, msPerDay in *. zdiv. }
    destruct (De Hz) as [E|E].
    + rewrite (YearFromTime_Day d today), (MonthFromTime_Day d today) by congruence.
      split; [intros H; exfalso; auto | lia].
    + rewrite (day_before today d) by lia.
      split; [intros H; split; [|lia] | intros [H _] H'; contradiction].
      destruct (Z.eq_dec (DateFromTime today) 1); [assumption | contradiction].
  - assert (Day d = Day (now h) - 1) as Hd.
    { rewrite Ed. unfold MakeDate, Day, msPerDay in *. zdiv. }
    destruct (Dw Hz) as [E|E].
    + rewrite (day_before today d) by lia.
      split; [intros H; split; [|lia] | intros [H _] H'; contradiction].
      destruct (Z.eq_dec (DateFromTime today) 1); [assumption | contradiction].
    + rewrite (YearFromTime_Day d today), (MonthFromTime_Day d today) by congruence.
      split; [intros H; exfalso; auto | lia].
Qed.

Lemma added_today_and_the_month_witness :
  isInCurrentMonth (clockWestAt 2024 6 1) (isoDate (now (clockWestAt 2024 6 1))) = false.
Proof.
  apply (added_today_and_the_month (clockWestAt 2024 6 1)
           (- 5 * msPerHour) (- 5 * msPerHour)).
  - vm_compute. split; discriminate.
  - reflexivity.
  - reflexivity.
  - vm_compute. split; reflexivity.
  - vm_compute. split; reflexivity.
  - vm_compute. split; reflexivity.
Defined.

(** ** The editor *)

Section Unchanged.

Lemma trimStart_id (s : string) : startsWithWhiteSpace s = false -> trimStart s = s.
Proof. destruct s as [|c s]; simpl; [reflexivity|]. now intros ->. Qed.

Lemma trimEnd_id (s : string) : endsWithWhiteSpace s = false -> trimEnd s = s.
Proof.
  induction s as [|c s IH]; simpl; [reflexivity|].
  destruct s as [|c' s'].
  - simpl. now intros ->.
  - intros H. rewrite (IH H). reflexivity.
Qed.

Lemma trim_id (s : string) : trimmed s -> trim s = s.
Proof.
  intros [H1 H2]. unfold trim. rewrite trimStart_id by assumption. now apply trimEnd_id.
Qed.

Lemma above_zero_valid (x : number) :
  gt x zero = true -> isNaN x = false /\ le x zero = false.
Proof. destruct x as [[]|[]| |[] m e]; simpl; intros; try discriminate; split; reflexivity. Qed.

Lemma note_again (r : Sqlite.row) :
  wellFormed r ->
  orNull (trim (match Sqlite.note r with Some n => n | None => "" end)) = Sqlite.note r.
Proof.
  intros (_ & _ & Hn & _). destruct (Sqlite.note r) as [n|]; [|reflexivity].
  destruct (Hn n eq_refl) as [Hne Ht]. rewrite trim_id by assumption.
  unfold orNull. destruct (String.eqb_spec n ""); [contradiction | reflexivity].
Qed.

Lemma startEdit_fields (N : number -> string) (st : state) (p : Z * Sqlite.row) :
  let st' := startEdit N st p in
  db st' = db st /\ expenses st' = expenses st /\ alerts st' = alerts st
  /\ editingExpense st' = Some (rowObject p)
  /\ editAmount st' = N (Sqlite.amount (snd p))
  /\ editCategory st' = Sqlite.category (snd p)
  /\ editNote st' = match Sqlite.note (snd p) with Some n => n | None => "" end
  /\ editDate st' = if (10 <=? Z.of_nat (String.length (Sqlite.date (snd p))))
                    then slice0 10 (Sqlite.date (snd p)) else "".
Proof.
  unfold startEdit. destruct (String.eqb_spec (Sqlite.date (snd p)) "") as [E|E]; simpl.
  - rewrite E. simpl. repeat split; reflexivity.
  - destruct (10 <=? _); simpl; repeat split; reflexivity.
Qed.

End Unchanged.

(** X14. Opening the editor on a row of the table and saving at once
    leaves the database as it is, closes the editor and shows no alert, when
    the row is well formed, its date has ten characters, and the text that
    the engine gives for the amount reads back as the amount. *)
Theorem save_without_a_change_keeps_the_row
    (NumberToString : number -> string) (st : state) (id : Z) (r : Sqlite.row) :
  Sqlite.expenses (db st) !! id = Some r ->
  wellFormed r ->
  String.length (Sqlite.date r) = 10%nat ->
  parseFloat (NumberToString (Sqlite.amount r)) = Sqlite.amount r ->
  db (handleSaveEdit (startEdit NumberToString st (id, r))) = db st
  /\ editingExpense (handleSaveEdit (startEdit NumberToString st (id, r))) = None
  /\ alerts (handleSaveEdit (startEdit NumberToString st (id, r))) = alerts st.
Proof.
  intros Hr Hw Hlen Hnum.
  destruct (startEdit_fields NumberToString st (id, r))
    as (Hdb & Hex & Hal & Hed & Ha & Hc & Hn & Hd).
  cbn [snd] in Ha, Hc, Hn, Hd. rewrite Hlen in Hd.
  change (10 <=? Z.of_nat 10) with true in Hd. cbv iota in Hd.
  rewrite (slice0_length _ _ Hlen) in Hd.
  set (st' := startEdit NumberToString st (id, r)) in *.
  assert (editedRow st' = r) as Hrow.
  { unfold editedRow. rewrite Ha, Hc, Hn, Hd, Hnum, (note_again r Hw).
    destruct Hw as (_ & [_ Hcat] & _ & [_ Hdate]).
    rewrite !trim_id by assumption. now destruct r. }
  assert (validEdit st') as Hv.
  { pose proof Hrow as Hrow'. unfold editedRow in Hrow'.
    destruct Hw as (Hpos & [Hcat _] & _ & [Hdate _]).
    apply above_zero_valid in Hpos.
    unfold validEdit, validAmount.
    replace (parseFloat (editAmount st')) with (Sqlite.amount r) by (rewrite <- Hrow'; reflexivity).
    replace (trim (editCategory st')) with (Sqlite.category r) by (rewrite <- Hrow'; reflexivity).
    replace (trim (editDate st')) with (Sqlite.date r) by (rewrite <- Hrow'; reflexivity).
    auto. }
  destruct (handleSaveEdit_cases st')
    as [[He' _]|[(e' & msg & _ & Hn' & _)|(e' & He' & _ & ->)]];
    [congruence | contradiction |].
  simpl. rewrite Hed in He'. injection He' as <-. simpl.
  rewrite Hdb, Hr, Hrow, Hal. split; [|split; reflexivity].
  rewrite insert_id by assumption. now destruct (db st).
Qed.

Lemma save_without_a_change_witness :
  db (handleSaveEdit
        (startEdit (fun _ => "12.5") twoDays
           (1, {| Sqlite.amount := parseFloat "12.50"; Sqlite.category := "Food";
                  Sqlite.note := None; Sqlite.date := "2024-01-01" |})))
  = db twoDays
  /\ editingExpense
       (handleSaveEdit
          (startEdit (fun _ => "12.5") twoDays
             (1, {| Sqlite.amount := parseFloat "12.50"; Sqlite.category := "Food";
                    Sqlite.note := None; Sqlite.date := "2024-01-01" |})))
     = None
  /\ alerts
       (handleSaveEdit
          (startEdit (fun _ => "12.5") twoDays
             (1, {| Sqlite.amount := parseFloat "12.50"; Sqlite.category := "Food";
                    Sqlite.note := None; Sqlite.date := "2024-01-01" |})))
     = alerts twoDays.
Proof.
  apply (save_without_a_change_keeps_the_row (fun _ => "12.5") twoDays 1
           {| Sqlite.amount := parseFloat "12.50"; Sqlite.category := "Food";
              Sqlite.note := None; Sqlite.date := "2024-01-01" |}).
  - vm_compute. reflexivity.
  - split; [vm_compute; reflexivity|].
    split; [split; [discriminate | split; vm_compute; reflexivity]|].
    split; [intros n H; discriminate|].
    split; [discriminate | split; vm_compute; reflexivity].
  - reflexivity.
  - vm_compute. reflexivity.
Defined.

(** X15. [startEdit] puts the first ten characters of the date in the
    editor, and nothing of a date that is shorter.  So saving the editor
    opened on a row with a date under ten characters, without typing a date,
    is refused: the database stays, the editor stays open and one alert is
    shown.  With a date of ten characters or more, the date field has ten
    characters, and a row that the saving writes bears them, trimmed. *)
Theorem startEdit_takes_ten_characters_of_the_date
    (NumberToString : number -> string) (st : state) (id : Z) (r : Sqlite.row) :
  ((String.length (Sqlite.date r) < 10)%nat ->
   editDate (startEdit NumberToString st (id, r)) = ""
   /\ db (handleSaveEdit (startEdit NumberToString st (id, r))) = db st
   /\ editingExpense (handleSaveEdit (startEdit NumberToString st (id, r)))
      = Some (rowObject (id, r))
   /\ exists msg,
       alerts (handleSaveEdit (startEdit NumberToString st (id, r))) = alerts st ++ [msg])
  /\ ((10 <= String.length (Sqlite.date r))%nat ->
      editDate (startEdit NumberToString st (id, r)) = slice0 10 (Sqlite.date r)
      /\ String.length (editDate (startEdit NumberToString st (id, r))) = 10%nat
      /\ forall row,
          Sqlite.expenses (db (handleSaveEdit (startEdit NumberToString st (id, r)))) !! id
          = Some row ->
          Sqlite.expenses (db st) !! id = Some row
          \/ Sqlite.date row = trim (slice0 10 (Sqlite.date r))).
Proof.
  destruct (startEdit_fields NumberToString st (id, r))
    as (Hdb & Hex & Hal & Hed & Ha & Hc & Hn & Hd).
  cbn [snd] in Ha, Hc, Hn, Hd.
  set (st' := startEdit NumberToString st (id, r)) in *.
  split; intros Hlen.
  - destruct (Z.leb_spec 10 (Z.of_nat (String.length (Sqlite.date r)))); [lia|].
    split; [assumption|].
    destruct (handleSaveEdit_cases st')
      as [[He' _]|[(e' & msg & _ & _ & ->)|(e' & _ & (_ & _ & Hv) & _)]].
    + congruence.
    + simpl. rewrite Hdb, Hed, Hal. eauto.
    + rewrite Hd in Hv. exfalso. apply Hv. reflexivity.
  - destruct (Z.leb_spec 10 (Z.of_nat (String.length (Sqlite.date r)))); [|lia].
    split; [assumption|]. split.
    { rewrite Hd. clear -Hlen. revert Hlen. generalize (Sqlite.date r) as s. intros s.
      do 10 (destruct s as [|? s]; simpl; [lia|]). reflexivity. }
    intros row.
    destruct (handleSaveEdit_cases st')
      as [[He' _]|[(e' & msg & _ & _ & ->)|(e' & He' & _ & ->)]].
    + congruence.
    + simpl. rewrite Hdb. auto.
    + simpl. rewrite Hed in He'. injection He' as <-. simpl. rewrite Hdb.
      destruct (Sqlite.expenses (db st) !! id) eqn:E.
      * simpl. rewrite lookup_insert_eq. intros [= <-]. right. simpl. now rewrite Hd.
      * rewrite E. discriminate.
Qed.

Lemma startEdit_short_date_witness :
  editDate (startEdit (fun _ => "3") twoDays (2, shortDate)) = ""
  /\ db (handleSaveEdit (startEdit (fun _ => "3") twoDays (2, shortDate))) = db twoDays
  /\ editingExpense (handleSaveEdit (startEdit (fun _ => "3") twoDays (2, shortDate)))
     = Some (rowObject (2, shortDate))
  /\ exists msg,
      alerts (handleSaveEdit (startEdit (fun _ => "3") twoDays (2, shortDate)))
      = alerts twoDays ++ [msg].
Proof.
  apply (proj1 (startEdit_takes_ten_characters_of_the_date (fun _ => "3") twoDays 2 shortDate)).
  vm_compute. lia.
Defined.

(** ** The labels of the totals *)

Section Labels.

Lemma mem_elem_of (k : string) (l : list string) : mem k l = true <-> k ∈ l.
Proof.
  unfold mem. rewrite existsb_exists. split.
  - intros (x & Hx & E). apply String.eqb_eq in E as ->. now apply list_elem_of_In.
  - intros H. exists k. split; [now apply list_elem_of_In | apply String.eqb_refl].
Qed.

Lemma keys_step_any (o : object) (e : Expense.t) :
  map fst (step o e)
  = if String.eqb (categoryOf e) "__proto__" then map fst o
    else if mem (categoryOf e) (map fst o) then map fst o
         else map fst o ++ [categoryOf e].
Proof.
  unfold step, Set_. destruct (String.eqb (categoryOf e) "__proto__"); [reflexivity|].
  apply keys_define.
Qed.

Lemma totals_keys (rs : list Expense.t) (o : object) :
  NoDup (map fst o) ->
  NoDup (map fst (fold_left step rs o))
  /\ (forall k, k ∈ map fst (fold_left step rs o)
                <-> k ∈ map fst o
                    \/ (k <> "__proto__" /\ exists e, e ∈ rs /\ categoryOf e = k))
  /\ (length (fold_left step rs o) <= length o + length rs)%nat.
Proof.
  revert o. induction rs as [|e rs IH]; intros o Ho; simpl.
  - split; [assumption|]. split; [|lia]. intros k. split; [auto|].
    intros [H|(_ & x & Hx & _)]; [assumption|]. inversion Hx.
  - assert (NoDup (map fst (step o e))
            /\ (forall k, k ∈ map fst (step o e)
                          <-> k ∈ map fst o \/ (k <> "__proto__" /\ categoryOf e = k))
            /\ (length (map fst (step o e)) <= S (length (map fst o)))%nat) as (H1 & H2 & H3).
    { rewrite keys_step_any.
      destruct (String.eqb_spec (categoryOf e) "__proto__") as [E|E].
      - split; [assumption|]. split; [|lia]. intros k. split; [auto|].
        intros [H|[H <-]]; [assumption | contradiction].
      - destruct (mem (categoryOf e) (map fst o)) eqn:M.
        + apply mem_elem_of in M. split; [assumption|]. split; [|lia]. intros k.
          split; [auto|]. intros [H|[_ <-]]; assumption.
        + assert (categoryOf e ∉ map fst o) as M'.
          { intros M'. apply mem_elem_of in M'. congruence. }
          split.
          { apply NoDup_app. split; [assumption|]. split; [|apply NoDup_singleton].
            intros x Hx Hx'. apply list_elem_of_singleton in Hx'. subst x. contradiction. }
          split; [|rewrite length_app; simpl; lia].
          intros k. rewrite elem_of_app, list_elem_of_singleton. split.
          * intros [H| ->]; auto.
          * intros [H|[_ <-]]; auto. }
    destruct (IH (step o e) H1) as (I1 & I2 & I3).
    split; [assumption|]. split.
    + intros k. rewrite I2, H2. split.
      * intros [[H|[Hk <-]]|(Hk & x & Hx & <-)]; auto.
        -- right. split; [assumption|]. exists e. split; [left | reflexivity].
        -- right. split; [assumption|]. exists x. split; [now right | reflexivity].
      * intros [H|(Hk & x & Hx & <-)]; [auto|].
        apply elem_of_cons in Hx as [->|Hx]; [auto|].
        right. split; [assumption|]. eauto.
    + rewrite !length_map in H3. lia.
Qed.

Lemma categoryOf_not_empty (e : Expense.t) : categoryOf e <> "".
Proof.
  unfold categoryOf. destruct (Expense.category e) as [c|]; [|discriminate].
  destruct (String.eqb_spec c ""); [discriminate | assumption].
Qed.

Lemma entries_keys (rs : list Expense.t) :
  NoDup (map fst (Object_entries (totalsByCategory rs)))
  /\ (forall k, k ∈ map fst (Object_entries (totalsByCategory rs))
                <-> k <> "__proto__" /\ exists e, e ∈ rs /\ categoryOf e = k)
  /\ (length (Object_entries (totalsByCategory rs)) <= length rs)%nat.
Proof.
  rewrite totalsByCategory_fold.
  destruct (totals_keys rs [] (NoDup_nil_2 (A := string))) as (H1 & H2 & H3).
  pose proof (Object_entries_Permutation (fold_left step rs [])) as P.
  split; [|split].
  - rewrite map_fmap, P, <- map_fmap. assumption.
  - intros k. rewrite map_fmap, P, <- map_fmap, H2. split; [|auto].
    intros [H|H]; [inversion H | assumption].
  - rewrite (Permutation_length P). simpl in H3. lia.
Qed.

End Labels.

(** X16. The totals have one entry for each label: no label comes twice
    among the entries, the labels are those of the records other than
    [__proto__], none is empty, and there are no more entries than
    records. *)
Theorem one_entry_for_each_label (rs : list Expense.t) :
  NoDup (map fst (Object_entries (totalsByCategory rs)))
  /\ (forall k : string,
         k ∈ map fst (Object_entries (totalsByCategory rs))
         <-> k <> "__proto__" /\ exists e, e ∈ rs /\ categoryOf e = k)
  /\ (forall k : string, k ∈ map fst (Object_entries (totalsByCategory rs)) -> k <> "")
  /\ (length (entries (chartData (totalsByCategory rs))) <= length rs)%nat.
Proof.
  destruct (entries_keys rs) as (H1 & H2 & H3).
  split; [assumption|]. split; [assumption|]. split; [|assumption].
  intros k Hk. apply H2 in Hk as (_ & e & _ & <-). apply categoryOf_not_empty.
Qed.

Lemma one_entry_for_each_label_witness :
  "Food" ∈ map fst (Object_entries (totalsByCategory [spent (Some "Food") (JNum (ofZ 5))])).
Proof.
  apply (proj1 (proj2 (one_entry_for_each_label [spent (Some "Food") (JNum (ofZ 5))])) "Food").
  split; [discriminate|]. eexists. split; [left | reflexivity].
Defined.

(** X17. The screen reports that there are no totals, and that there is
    nothing to chart, exactly when every record of the filtered list bears
    the label [__proto__]; in particular when the list is empty, and never
    when a record bears another label. *)
Theorem no_totals_without_labels (rs : list Expense.t) :
  (length (map fst (Object_entries (totalsByCategory rs))) = 0%nat
   <-> Forall (fun e => categoryOf e = "__proto__") rs)
  /\ (entries (chartData (totalsByCategory rs)) = []
      <-> Forall (fun e => categoryOf e = "__proto__") rs).
Proof.
  destruct (entries_keys rs) as (_ & H2 & _).
  assert (Object_entries (totalsByCategory rs) = []
          <-> Forall (fun e => categoryOf e = "__proto__") rs) as H.
  { split.
    - intros E. apply Forall_forall. intros e He.
      destruct (String.eqb_spec (categoryOf e) "__proto__") as [|Hne]; [assumption|].
      assert (categoryOf e ∈ map fst (Object_entries (totalsByCategory rs))) as Hin
          by (apply H2; eauto).
      rewrite E in Hin. inversion Hin.
    - intros Hall. destruct (Object_entries (totalsByCategory rs)) as [|[k v] l] eqn:E;
        [reflexivity|].
      assert (k ∈ map fst ((k, v) :: l)) as Hin by left.
      apply H2 in Hin as (Hk & e & He & <-).
      eapply Forall_forall in Hall; [|exact He]. contradiction. }
  split.
  - rewrite length_map, <- H. split.
    + apply nil_length_inv.
    + intros ->. reflexivity.
  - exact H.
Qed.

(** ** The amounts shown *)

Section Shown.

Lemma shown_amounts (d : Sqlite.database) :
  sound d ->
  Forall (fun e => nonneg (amountOf e) = true) (map rowObject (Sqlite.selectAll d)).
Proof.
  intros [_ Hs]. apply Forall_forall. intros e He.
  rewrite map_fmap in He. apply list_elem_of_fmap in He as [[id r] [-> Hin]].
  apply selectAll_rows in Hin. destruct (Hs id r Hin) as [(Hpos & _) _].
  apply above_zero_nonneg in Hpos. unfold amountOf. simpl.
  destruct (truthy (Sqlite.amount r)); [assumption | reflexivity].
Qed.

Lemma Forall_filtered {P : Expense.t -> Prop} (h : Host) (l : list Expense.t) (f : string) :
  Forall P l -> Forall P (filteredExpenses h l f).
Proof.
  intros H. destruct (filteredExpenses_cases h l f) as [->|(p & -> & _)]; [assumption|].
  apply Forall_forall. intros x Hx. apply list_elem_of_In, filter_In in Hx as [Hx _].
  eapply Forall_forall in H; [exact H | now apply list_elem_of_In].
Qed.

End Shown.

(** X18. Whatever is done on the screen, under every filter, every record
    shown has an amount that is a Number above zero, which the total takes
    as it is, and the total is a Number that is not NaN and not below
    zero. *)
Theorem total_is_a_number_not_below_zero
    (NumberToString : number -> string) (acts : list action) (h : Host) (f : string) :
  nonneg (totalSpending (filteredExpenses h (expenses (after NumberToString acts)) f)) = true
  /\ isNaN (totalSpending (filteredExpenses h (expenses (after NumberToString acts)) f))
     = false
  /\ Forall (fun e => exists a, Expense.amount e = JNum a /\ gt a zero = true
                                /\ amountOf e = a)
       (filteredExpenses h (expenses (after NumberToString acts)) f).
Proof.
  rewrite (shown_after NumberToString acts).
  pose proof (sound_after NumberToString acts) as Hs.
  assert (nonneg (totalSpending
                    (filteredExpenses h
                       (map rowObject (Sqlite.selectAll (db (after NumberToString acts)))) f))
          = true) as H.
  { unfold totalSpending. apply sum_nonneg; [|reflexivity].
    apply Forall_filtered. now apply shown_amounts. }
  split; [assumption|]. split.
  - destruct (totalSpending _) as [[]|[]| |[] m e]; simpl in *; congruence.
  - apply Forall_filtered. apply Forall_forall. intros e He.
    rewrite map_fmap in He. apply list_elem_of_fmap in He as [[id r] [-> Hin]].
    apply selectAll_rows in Hin. destruct Hs as [_ Hs].
    destruct (Hs id r Hin) as [(Hpos & _) _].
    exists (Sqlite.amount r). split; [reflexivity|]. split; [assumption|].
    unfold amountOf. simpl.
    destruct (Sqlite.amount r) as [[]|[]| |[] m x]; simpl in *; try discriminate; reflexivity.
Qed.

(** ** The clock of the filters *)

Section SameDay.

Lemma filter_agree {A} (p q : A -> bool) (l : list A) :
  (forall x, p x = q x) -> List.filter p l = List.filter q l.
Proof.
  intros H. induction l as [|a l IH]; simpl; [reflexivity|]. now rewrite H, IH.
Qed.

Lemma bool_agree (a b : bool) : (a = true <-> b = true) -> a = b.
Proof. destruct a, b; intros [H1 H2]; auto; symmetry; auto. Qed.

End SameDay.

(** X19. The filters follow the clock by the local day only: at two clock
    readings of one local day, on devices with the same offsets and the same
    parser, [filteredExpenses] returns the same records under every
    filter. *)
Theorem filters_follow_the_local_day (h h' : Host) :
  (forall (t : Z) (isUTC : bool), LocalTZA h t isUTC = LocalTZA h' t isUTC) ->
  (forall s, legacyParse h s = legacyParse h' s) ->
  Day (LocalTime h (now h)) = Day (LocalTime h' (now h')) ->
  forall (l : list Expense.t) (f : string),
    filteredExpenses h l f = filteredExpenses h' l f.
Proof.
  intros Hz Hp Hd l f.
  assert (forall s, Date_parse h s = Date_parse h' s) as Hparse.
  { intros s. unfold Date_parse. destruct (parseDateOnly s); [reflexivity | apply Hp]. }
  assert (forall t, LocalTime h t = LocalTime h' t) as Hl.
  { intros t. unfold LocalTime. now rewrite Hz. }
  assert (forall t, UTC h t = UTC h' t) as Hu.
  { intros t. unfold UTC. now rewrite Hz. }
  assert (forall t dt, setDate h t dt = setDate h' t dt) as Hsd.
  { intros t dt. unfold setDate. now rewrite Hl, Hu. }
  assert (forall t, getDate h t = getDate h' t) as Hgd.
  { intros t. unfold getDate. now rewrite Hl. }
  assert (forall s, isInCurrentWeek h s = isInCurrentWeek h' s) as Hw.
  { intros s. unfold isInCurrentWeek. rewrite <- Hparse.
    destruct (Date_parse h s) as [d|]; [|reflexivity].
    assert (setHours h (now h) 0 0 0 0 = setHours h' (now h') 0 0 0 0) as ->.
    { unfold setHours. now rewrite Hd, Hu. }
    assert (getDate h (now h) - getDay h (now h)
            = getDate h' (now h') - getDay h' (now h')) as ->.
    { unfold getDate, getDay, WeekDay. now rewrite (DateFromTime_Day _ _ Hd), Hd. }
    now rewrite !Hsd, Hgd. }
  assert (forall s, isInCurrentMonth h s = isInCurrentMonth h' s) as Hm.
  { intros s. unfold isInCurrentMonth. rewrite <- Hparse.
    destruct (Date_parse h s) as [d|]; [|reflexivity].
    unfold getFullYear, getMonth.
    rewrite (YearFromTime_Day _ _ Hd), (MonthFromTime_Day _ _ Hd), Hl. reflexivity. }
  unfold filteredExpenses.
  destruct (String.eqb f "ALL"); [reflexivity|].
  destruct (String.eqb f "WEEK"); [apply filter_agree; intros x; apply Hw|].
  destruct (String.eqb f "MONTH"); [apply filter_agree; intros x; apply Hm | reflexivity].
Qed.

Lemma filters_follow_witness :
  filteredExpenses (clockAt 2024 6 15) [dated 1 "2024-06-14"; dated 2 "2024-05-31"] "WEEK"
  = filteredExpenses
      {| now := MakeDate (MakeDay 2024 5 15) 1; LocalTZA := fun _ _ => 0;
         legacyParse := fun _ => None |}
      [dated 1 "2024-06-14"; dated 2 "2024-05-31"] "WEEK".
Proof.
  apply (filters_follow_the_local_day (clockAt 2024 6 15)
           {| now := MakeDate (MakeDay 2024 5 15) 1; LocalTZA := fun _ _ => 0;
              legacyParse := fun _ => None |}).
  - intros t isUTC. reflexivity.
  - intros s. reflexivity.
  - vm_compute. reflexivity.
Defined.

(** ** Date-only texts under the filters *)

Section DateOnly.

Lemma parseDateOnly_midnight (s : string) (t : Z) :
  parseDateOnly s = Some t -> t = MakeDate (Day t) 0.
Proof.
  intros H. apply parseDateOnly_spec in H as (y & m & d & _ & _ & ->).
  rewrite Day_MakeDate; [reflexivity | unfold msPerDay; lia].
Qed.

Lemma NoDup_filter_ids (p : Expense.t -> bool) (l : list Expense.t) :
  NoDup (map Expense.id l) -> NoDup (map Expense.id (List.filter p l)).
Proof.
  induction l as [|a l IH]; simpl; [auto|]. intros H. apply NoDup_cons in H as [Ha Hl].
  destruct (p a); [|auto]. simpl. apply NoDup_cons. split; [|auto].
  intros Hin. apply Ha. rewrite map_fmap in *. apply list_elem_of_fmap in Hin as (x & Hx & Hin).
  apply list_elem_of_fmap. exists x. split; [assumption|].
  apply list_elem_of_In. apply list_elem_of_In, filter_In in Hin. tauto.
Qed.

End DateOnly.

(** X20. Whatever is done on the screen, no two records shown under a
    filter have the same id: the keys that the list gives its rows, the ids
    as text, are distinct. *)
Theorem shown_records_have_distinct_ids
    (NumberToString : number -> string) (acts : list action) (h : Host) (f : string) :
  NoDup (map Expense.id (filteredExpenses h (expenses (after NumberToString acts)) f)).
Proof.
  rewrite (shown_after NumberToString acts).
  assert (NoDup (map Expense.id
                   (map rowObject (Sqlite.selectAll (db (after NumberToString acts)))))) as H.
  { rewrite map_map. apply selectAll_NoDup. }
  destruct (filteredExpenses_cases h
              (map rowObject (Sqlite.selectAll (db (after NumberToString acts)))) f)
    as [->|(p & -> & _)]; [assumption | now apply NoDup_filter_ids].
Qed.

(** X21. The WEEK filter in calendar days, for a date-only text that names
    a day that exists, on a device whose offset from UTC, under a day, does
    not change within eight days of now.  At or east of UTC it keeps the
    days from the Sunday to the Saturday of the device's week; west of UTC
    it keeps the days from the Monday to the Sunday after, for the day named
    is read as its midnight in UTC.  On Wednesday 2024-06-12 the Sunday is
    2024-06-09: on UTC the days from 2024-06-09 to 2024-06-15 are kept, five
    hours behind UTC those from 2024-06-10 to 2024-06-16. *)
Theorem week_filter_in_calendar_days :
  (forall (h : Host) (off : Z) (s : string) (t : Z),
      steady h off ->
      parseDateOnly s = Some t ->
      let today := LocalTime h (now h) in
      (0 <= off < msPerDay ->
       isInCurrentWeek h s = true
       <-> Day today - WeekDay today <= Day t < Day today - WeekDay today + 7)
      /\ (- msPerDay < off < 0 ->
          isInCurrentWeek h s = true
          <-> Day today - WeekDay today + 1 <= Day t < Day today - WeekDay today + 8))
  /\ (Day (LocalTime (clockAt 2024 6 12) (now (clockAt 2024 6 12)))
      - WeekDay (LocalTime (clockAt 2024 6 12) (now (clockAt 2024 6 12)))
      = MakeDay 2024 5 9
      /\ map (isInCurrentWeek (clockAt 2024 6 12))
           ["2024-06-08"; "2024-06-09"; "2024-06-10"; "2024-06-15"; "2024-06-16";
            "2024-06-17"]
         = [false; true; true; true; false; false])
  /\ (Day (LocalTime (clockWestAt 2024 6 12) (now (clockWestAt 2024 6 12)))
      - WeekDay (LocalTime (clockWestAt 2024 6 12) (now (clockWestAt 2024 6 12)))
      = MakeDay 2024 5 9
      /\ map (isInCurrentWeek (clockWestAt 2024 6 12))
           ["2024-06-08"; "2024-06-09"; "2024-06-10"; "2024-06-15"; "2024-06-16";
            "2024-06-17"]
         = [false; false; true; true; true; false]).
Proof.
  split; [|repeat split; vm_compute; reflexivity].
  intros h off s t Hst Hs today. pose proof (parseDateOnly_midnight s t Hs) as Ht.
  assert (Date_parse h s = Some (MakeDate (Day t) 0)) as Hp.
  { unfold Date_parse. rewrite Hs. now f_equal. }
  split; intros Hz.
  - apply (proj1 (week_keeps_day h off s (Day t) Hst ltac:(lia) Hp)). lia.
  - apply (proj2 (week_keeps_day h off s (Day t) Hst ltac:(lia) Hp)). lia.
Qed.

Lemma week_filter_in_calendar_days_witness :
  isInCurrentWeek (clockWestAt 2024 6 12) "2024-06-16" = true
  <-> Day (LocalTime (clockWestAt 2024 6 12) (now (clockWestAt 2024 6 12)))
      - WeekDay (LocalTime (clockWestAt 2024 6 12) (now (clockWestAt 2024 6 12))) + 1
      <= Day (MakeDate (MakeDay 2024 5 16) 0)
      < Day (LocalTime (clockWestAt 2024 6 12) (now (clockWestAt 2024 6 12)))
        - WeekDay (LocalTime (clockWestAt 2024 6 12) (now (clockWestAt 2024 6 12))) + 8.
Proof.
  apply (proj1 week_filter_in_calendar_days (clockWestAt 2024 6 12) (- 5 * msPerHour)
           "2024-06-16" (MakeDate (MakeDay 2024 5 16) 0)).
  - intros t isUTC _. reflexivity.
  - vm_compute. reflexivity.
  - vm_compute. split; reflexivity.
Defined.

(** X22. The MONTH filter in calendar days, for a date-only text that
    names a day that exists, by the offset that the device has at midnight
    UTC of that day.  Where the device is then at or east of UTC, by less
    than a day, the filter keeps the text exactly when the day named is in
    the year and month that the device has now; where it is then west of
    UTC, exactly when the day before the day named is. *)
Theorem month_filter_in_calendar_days (h : Host) (s : string) (t : Z) :
  parseDateOnly s = Some t ->
  (0 <= LocalTZA h t true < msPerDay ->
   isInCurrentMonth h s = true
   <-> YearFromTime t = getFullYear h (now h) /\ MonthFromTime t = getMonth h (now h))
  /\ (- msPerDay < LocalTZA h t true < 0 ->
      isInCurrentMonth h s = true
      <-> YearFromTime (t - msPerDay) = getFullYear h (now h)
          /\ MonthFromTime (t - msPerDay) = getMonth h (now h)).
Proof.
  intros Hs. pose proof (parseDateOnly_midnight s t Hs) as Ht.
  unfold isInCurrentMonth, Date_parse. rewrite Hs.
  rewrite andb_true_iff, !Z.eqb_eq. unfold getFullYear, getMonth.
  set (off := LocalTZA h t true). change (LocalTime h t) with (t + off).
  split; intros Hz.
  - assert (Day (t + off) = Day t) as E.
    { rewrite Ht at 1. unfold MakeDate, Day, msPerDay in *. zdiv. }
    rewrite (YearFromTime_Day _ _ E), (MonthFromTime_Day _ _ E). reflexivity.
  - assert (Day (t + off) = Day (t - msPerDay)) as E.
    { rewrite Ht at 1 2. unfold MakeDate, Day, msPerDay in *. zdiv. }
    rewrite (YearFromTime_Day _ _ E), (MonthFromTime_Day _ _ E). reflexivity.
Qed.

Lemma month_filter_in_calendar_days_witness :
  isInCurrentMonth westOfUTC "2024-07-01" = true
  <-> YearFromTime (MakeDate (MakeDay 2024 6 1) 0 - msPerDay)
      = getFullYear westOfUTC (now westOfUTC)
      /\ MonthFromTime (MakeDate (MakeDay 2024 6 1) 0 - msPerDay)
         = getMonth westOfUTC (now westOfUTC).
Proof.
  apply (month_filter_in_calendar_days westOfUTC "2024-07-01"
           (MakeDate (MakeDay 2024 6 1) 0)).
  - vm_compute. reflexivity.
  - vm_compute. split; reflexivity.
Defined.
